(** * Event-Ticket: issuance and gate-scanning core

    A shallow embedding of the server side of the ticketing application:
    the storage layer ([server/storage.ts]: class [DatabaseStorage] and
    [generateTicketCode]) over the tables of the schema ([@shared/schema]),
    and the three route handlers of [registerRoutes] that the specification
    calls [createOrder], [confirmPayment] and [verifyScan]:

    - [POST /api/payments/create-order]
    - [POST /api/payments/verify]
    - [POST /api/scans/verify]

    together with what surrounds them: the role check [requireRole] in
    front of the scan route, the figures that [GET /api/events] and
    [getDashboardStats] compute from the tables the handlers write, and
    the cart of the event page, which posts the orders.

    Modelling conventions.

    - A table is the list of its rows in insertion order.  [select ... where]
      returns the first matching row (the code destructures [[row]]), and
      [update ... where] rewrites every matching row.
    - Handlers run in a state-and-exception monad over a [World]: the
      tables, plus the three sources of non-determinism the code reads
      ([Math.random()], [gen_random_uuid()], and the clock behind
      [new Date()] / [defaultNow()]), each given as a sequence together
      with the number of values consumed so far.
    - Nothing is transactional in the source: a handler that throws has
      still performed every write that preceded the exception.  The monad
      therefore returns the world reached, also on [Thrown].
    - The constraints of the schema that a request can trip with values it
      controls are modelled as exceptions of the insert/update that
      violates them: the unique index on [tickets.ticket_code], the
      foreign keys [tickets.ticket_tier_id], [payments.event_id] and
      [entry_scans.event_id], and the unique [payments.razorpay_payment_id].
      Keys produced by [gen_random_uuid()], the order id derived from such
      a key, and the session user are taken to satisfy their constraints.
    - [integer] columns are [Z] and JavaScript numbers are exact ([Z] for
      quantities, [Q] for prices): the definitions do not raise the
      errors of a Postgres [integer] or [decimal(10,2)] out of range, and
      do not round as IEEE-754 does.  The statements that are about the
      numbers themselves say where the definitions and the code agree:
      [int4] and [soldCountsInRange] for the [integer] columns,
      [fitsDecimal10_2] for the amount, and [exactTotals] for a loop whose
      floating-point operations are all exact.  Only the columns the
      handlers read or write are kept.
    - The authentication middleware ([isAuthenticated], [requireRole]) runs
      before the handlers and is not part of them; a request carries the
      [claims.sub] it leaves in [req.user].  [requireRole] is modelled on
      its own, and composed with the scan handler in [scansVerifyRoute]. *)

From Stdlib Require Import String Ascii List ZArith QArith Qround Lia Lqa Bool
  Permutation.
Import ListNotations.

Local Open Scope string_scope.
Local Open Scope Z_scope.

(** [===] of two strings. *)
Infix "===" := String.eqb (at level 70, no associativity).

(** ** Tables of the schema *)

Inductive TicketStatus : Set :=
| ticket_pending | ticket_confirmed | ticket_cancelled | ticket_refunded | ticket_scanned.

Inductive PaymentStatus : Set :=
| payment_pending | payment_completed | payment_failed | payment_refunded.

Definition TicketStatus_eqb (a b : TicketStatus) : bool :=
  match a, b with
  | ticket_pending, ticket_pending
  | ticket_confirmed, ticket_confirmed
  | ticket_cancelled, ticket_cancelled
  | ticket_refunded, ticket_refunded
  | ticket_scanned, ticket_scanned => true
  | _, _ => false
  end.

Module Event.
Record t : Type := mk {
  id : string;
  name : string;
}.
End Event.

Module TicketTier.
Record t : Type := mk {
  id : string;
  eventId : string;
  name : string;
  price : Q;
  quantity : Z;
  soldCount : Z;
  maxPerOrder : option Z;
  isActive : option bool;
  updatedAt : option Z;
}.
End TicketTier.

Module Ticket.
Record t : Type := mk {
  id : string;
  ticketTierId : string;
  userId : string;
  paymentId : option string;
  ticketCode : string;
  status : TicketStatus;
  attendeeName : option string;
  scannedAt : option Z;
  scannedByUserId : option string;
  purchasedAt : option Z;
  createdAt : option Z;
  updatedAt : option Z;
}.
End Ticket.

(** The cart line the client posts ([CartItem] of the event page); the
    verify handler reads [tierId] and [quantity] back from the metadata. *)
Module CartItem.
Record t : Type := mk {
  tierId : string;
  tierName : string;
  price : Q;
  quantity : Z;
}.
End CartItem.

Module Payment.
Record t : Type := mk {
  id : string;
  userId : string;
  eventId : string;
  razorpayOrderId : option string;
  razorpayPaymentId : option string;
  razorpaySignature : option string;
  amount : Q;
  currency : string;
  status : PaymentStatus;
  ticketQuantity : Z;
  metadata : list CartItem.t;      (* [{ items }] *)
  completedAt : option Z;
  createdAt : option Z;
  updatedAt : option Z;
}.
End Payment.

Module EntryScan.
Record t : Type := mk {
  id : string;
  ticketId : string;
  scannedByUserId : string;
  eventId : string;
  scanResult : string;
  scannedAt : option Z;
}.
End EntryScan.

(** ** The world a handler runs in *)

Record World : Type := mkWorld {
  events : list Event.t;
  ticketTiers : list TicketTier.t;
  tickets : list Ticket.t;
  payments : list Payment.t;
  entryScans : list EntryScan.t;
  random : nat -> Q;        (* the successive values of [Math.random()] *)
  uuid : nat -> string;     (* the successive values of [gen_random_uuid()] *)
  clock : nat -> Z;         (* the successive readings of the clock *)
  nRandom : nat;
  nUuid : nat;
  nClock : nat;
}.

Definition with_ticketTiers (l : list TicketTier.t) (w : World) : World :=
  mkWorld (events w) l (tickets w) (payments w) (entryScans w)
          (random w) (uuid w) (clock w) (nRandom w) (nUuid w) (nClock w).

Definition with_tickets (l : list Ticket.t) (w : World) : World :=
  mkWorld (events w) (ticketTiers w) l (payments w) (entryScans w)
          (random w) (uuid w) (clock w) (nRandom w) (nUuid w) (nClock w).

Definition with_payments (l : list Payment.t) (w : World) : World :=
  mkWorld (events w) (ticketTiers w) (tickets w) l (entryScans w)
          (random w) (uuid w) (clock w) (nRandom w) (nUuid w) (nClock w).

Definition with_entryScans (l : list EntryScan.t) (w : World) : World :=
  mkWorld (events w) (ticketTiers w) (tickets w) (payments w) l
          (random w) (uuid w) (clock w) (nRandom w) (nUuid w) (nClock w).

Definition with_counters (r u c : nat) (w : World) : World :=
  mkWorld (events w) (ticketTiers w) (tickets w) (payments w) (entryScans w)
          (random w) (uuid w) (clock w) r u c.

(** ** State and exceptions *)

Inductive Exn : Set :=
| UniqueViolation (constraint : string)
| ForeignKeyViolation (constraint : string).

Inductive Outcome (A : Type) : Type :=
| Returned (a : A)
| Thrown (e : Exn).
Arguments Returned {A} a.
Arguments Thrown {A} e.

Definition M (A : Type) : Type := World -> Outcome A * World.

Definition ret {A} (a : A) : M A := fun w => (Returned a, w).

Definition throw {A} (e : Exn) : M A := fun w => (Thrown e, w).

Definition bind {A B} (m : M A) (k : A -> M B) : M B :=
  fun w =>
    match m w with
    | (Returned a, w1) => k a w1
    | (Thrown e, w1) => (Thrown e, w1)
    end.

Definition gets {A} (f : World -> A) : M A := fun w => (Returned (f w), w).

Definition modify (f : World -> World) : M unit := fun w => (Returned tt, f w).

Declare Scope handler_scope.
Delimit Scope handler_scope with handler.
Notation "x <- m ;; k" := (bind m (fun x => k))
  (at level 100, m at next level, right associativity) : handler_scope.
Notation "m ;;; k" := (bind m (fun _ => k))
  (at level 100, right associativity) : handler_scope.
Local Open Scope handler_scope.

(** [for (let i = 0; i < n; i++) body], threading the local variables the
    body assigns. *)
Fixpoint forTimes {A} (n : nat) (body : A -> M A) (acc : A) : M A :=
  match n with
  | O => ret acc
  | S k => a <- body acc ;; forTimes k body a
  end.

(** [for (const x of xs) body]. *)
Fixpoint forOf {A B} (xs : list B) (body : B -> A -> M A) (acc : A) : M A :=
  match xs with
  | [] => ret acc
  | x :: rest => a <- body x acc ;; forOf rest body a
  end.

(** The number of iterations of [for (let i = 0; i < q; i++)]. *)
Definition iterations (q : Z) : nat := Z.to_nat q.

(** ** Effects read from the environment *)

Definition mathRandom : M Q :=
  fun w => (Returned (random w (nRandom w)),
            with_counters (S (nRandom w)) (nUuid w) (nClock w) w).

Definition gen_random_uuid : M string :=
  fun w => (Returned (uuid w (nUuid w)),
            with_counters (nRandom w) (S (nUuid w)) (nClock w) w).

Definition newDate : M Z :=
  fun w => (Returned (clock w (nClock w)),
            with_counters (nRandom w) (nUuid w) (S (nClock w)) w).

(** ** [DatabaseStorage] *)

Definition option_string_eqb (a b : option string) : bool :=
  match a, b with
  | Some x, Some y => x === y
  | None, None => true
  | _, _ => false
  end.

Definition getEvent (id : string) (w : World) : option Event.t :=
  find (fun r => Event.id r === id) (events w).

Definition getTicketTier (id : string) (w : World) : option TicketTier.t :=
  find (fun r => TicketTier.id r === id) (ticketTiers w).

Definition getTicket (id : string) (w : World) : option Ticket.t :=
  find (fun r => Ticket.id r === id) (tickets w).

Definition getTicketByCode (code : string) (w : World) : option Ticket.t :=
  find (fun r => Ticket.ticketCode r === code) (tickets w).

Definition getPayment (id : string) (w : World) : option Payment.t :=
  find (fun r => Payment.id r === id) (payments w).

Definition getPaymentByRazorpayOrderId (orderId : string) (w : World)
  : option Payment.t :=
  find (fun r => option_string_eqb (Payment.razorpayOrderId r) (Some orderId))
       (payments w).

(** [set soldCount = soldCount + increment, updatedAt = new Date()]. *)
Definition bumpSoldCount (increment now : Z) (r : TicketTier.t) : TicketTier.t :=
  TicketTier.mk (TicketTier.id r) (TicketTier.eventId r) (TicketTier.name r)
    (TicketTier.price r) (TicketTier.quantity r)
    (TicketTier.soldCount r + increment)
    (TicketTier.maxPerOrder r) (TicketTier.isActive r) (Some now).

Definition updateTicketTierSoldCount (id : string) (increment : Z)
  : M (option TicketTier.t) :=
  now <- newDate ;;
  modify (fun w =>
    with_ticketTiers
      (map (fun r => if TicketTier.id r === id
                     then bumpSoldCount increment now r else r)
           (ticketTiers w)) w) ;;;
  gets (getTicketTier id).

Module InsertTicket.
Record t : Type := mk {
  ticketTierId : string;
  userId : string;
  paymentId : option string;
  ticketCode : string;
  status : TicketStatus;
  purchasedAt : option Z;
}.
End InsertTicket.

Definition createTicket (data : InsertTicket.t) : M Ticket.t :=
  tier <- gets (getTicketTier (InsertTicket.ticketTierId data)) ;;
  match tier with
  | None => throw (ForeignKeyViolation "tickets_ticket_tier_id_fkey")
  | Some _ =>
    clash <- gets (getTicketByCode (InsertTicket.ticketCode data)) ;;
    match clash with
    | Some _ => throw (UniqueViolation "ticket_code_idx")
    | None =>
      id <- gen_random_uuid ;;
      now <- newDate ;;
      let row :=
        Ticket.mk id (InsertTicket.ticketTierId data) (InsertTicket.userId data)
          (InsertTicket.paymentId data) (InsertTicket.ticketCode data)
          (InsertTicket.status data) None None None
          (InsertTicket.purchasedAt data) (Some now) (Some now) in
      modify (fun w => with_tickets (tickets w ++ [row]) w) ;;;
      ret row
    end
  end.

(** The fields of [Partial<InsertTicket>] the handlers set; [None] is a key
    that is absent from the object. *)
Module TicketPatch.
Record t : Type := mk {
  status : option TicketStatus;
  scannedAt : option Z;
  scannedByUserId : option string;
}.
End TicketPatch.

Definition orElse {A} (new : option A) (old : A) : A :=
  match new with Some a => a | None => old end.

Definition orKeep {A} (new old : option A) : option A :=
  match new with Some a => Some a | None => old end.

Definition patchTicket (data : TicketPatch.t) (now : Z) (r : Ticket.t) : Ticket.t :=
  Ticket.mk (Ticket.id r) (Ticket.ticketTierId r) (Ticket.userId r)
    (Ticket.paymentId r) (Ticket.ticketCode r)
    (orElse (TicketPatch.status data) (Ticket.status r))
    (Ticket.attendeeName r)
    (orKeep (TicketPatch.scannedAt data) (Ticket.scannedAt r))
    (orKeep (TicketPatch.scannedByUserId data) (Ticket.scannedByUserId r))
    (Ticket.purchasedAt r) (Ticket.createdAt r) (Some now).

Definition updateTicket (id : string) (data : TicketPatch.t)
  : M (option Ticket.t) :=
  now <- newDate ;;
  modify (fun w =>
    with_tickets
      (map (fun r => if Ticket.id r === id then patchTicket data now r else r)
           (tickets w)) w) ;;;
  gets (getTicket id).

Module InsertPayment.
Record t : Type := mk {
  userId : string;
  eventId : string;
  amount : Q;
  currency : string;
  ticketQuantity : Z;
  status : PaymentStatus;
  metadata : list CartItem.t;
}.
End InsertPayment.

Definition createPayment (data : InsertPayment.t) : M Payment.t :=
  ev <- gets (getEvent (InsertPayment.eventId data)) ;;
  match ev with
  | None => throw (ForeignKeyViolation "payments_event_id_fkey")
  | Some _ =>
    id <- gen_random_uuid ;;
    now <- newDate ;;
    let row :=
      Payment.mk id (InsertPayment.userId data) (InsertPayment.eventId data)
        None None None (InsertPayment.amount data) (InsertPayment.currency data)
        (InsertPayment.status data) (InsertPayment.ticketQuantity data)
        (InsertPayment.metadata data) None (Some now) (Some now) in
    modify (fun w => with_payments (payments w ++ [row]) w) ;;;
    ret row
  end.

Module PaymentPatch.
Record t : Type := mk {
  razorpayOrderId : option string;
  razorpayPaymentId : option string;
  razorpaySignature : option string;
  status : option PaymentStatus;
  completedAt : option Z;
}.
End PaymentPatch.

Definition patchPayment (data : PaymentPatch.t) (now : Z) (r : Payment.t)
  : Payment.t :=
  Payment.mk (Payment.id r) (Payment.userId r) (Payment.eventId r)
    (orKeep (PaymentPatch.razorpayOrderId data) (Payment.razorpayOrderId r))
    (orKeep (PaymentPatch.razorpayPaymentId data) (Payment.razorpayPaymentId r))
    (orKeep (PaymentPatch.razorpaySignature data) (Payment.razorpaySignature r))
    (Payment.amount r) (Payment.currency r)
    (orElse (PaymentPatch.status data) (Payment.status r))
    (Payment.ticketQuantity r) (Payment.metadata r)
    (orKeep (PaymentPatch.completedAt data) (Payment.completedAt r))
    (Payment.createdAt r) (Some now).

(** Does writing [razorpay_payment_id = v] on the rows with key [id] leave
    two rows with the same value?  (The column is [unique].) *)
Definition paymentIdTaken (id : string) (v : option string) (w : World) : bool :=
  match v with
  | None => false
  | Some _ =>
    existsb (fun r => Payment.id r === id) (payments w)
    && existsb (fun r => negb (Payment.id r === id)
                         && option_string_eqb (Payment.razorpayPaymentId r) v)
               (payments w)
  end.

Definition updatePayment (id : string) (data : PaymentPatch.t)
  : M (option Payment.t) :=
  now <- newDate ;;
  taken <- gets (paymentIdTaken id (PaymentPatch.razorpayPaymentId data)) ;;
  if taken : bool then throw (UniqueViolation "payments_razorpay_payment_id_unique")
  else
    modify (fun w =>
      with_payments
        (map (fun r => if Payment.id r === id then patchPayment data now r else r)
             (payments w)) w) ;;;
    gets (getPayment id).

Module InsertEntryScan.
Record t : Type := mk {
  ticketId : string;
  scannedByUserId : string;
  eventId : string;
  scanResult : string;
}.
End InsertEntryScan.

Definition createEntryScan (data : InsertEntryScan.t) : M EntryScan.t :=
  ev <- gets (getEvent (InsertEntryScan.eventId data)) ;;
  match ev with
  | None => throw (ForeignKeyViolation "entry_scans_event_id_fkey")
  | Some _ =>
    id <- gen_random_uuid ;;
    now <- newDate ;;
    let row :=
      EntryScan.mk id (InsertEntryScan.ticketId data)
        (InsertEntryScan.scannedByUserId data) (InsertEntryScan.eventId data)
        (InsertEntryScan.scanResult data) (Some now) in
    modify (fun w => with_entryScans (entryScans w ++ [row]) w) ;;;
    ret row
  end.

(** ** [generateTicketCode] *)

Definition chars : string := "ABCDEFGHJKLMNPQRSTUVWXYZ23456789".

(** [s.charAt(i)]: the empty string when [i] is out of range. *)
Definition charAt (s : string) (i : Z) : string :=
  if i <? 0 then ""
  else match String.get (Z.to_nat i) s with
       | Some c => String c ""
       | None => ""
       end.

Definition generateTicketCode : M string :=
  forTimes 8
    (fun code =>
       r <- mathRandom ;;
       ret (code ++ charAt chars
                      (Qfloor (r * inject_Z (Z.of_nat (String.length chars))))))
    "".

(** ** Requests and responses of the three routes *)

Module CreateOrderReq.
Record t : Type := mk {
  sub : option string;             (* [req.user?.claims?.sub] *)
  eventId : string;
  items : list CartItem.t;
}.
End CreateOrderReq.

Module VerifyPaymentReq.
Record t : Type := mk {
  sub : option string;
  razorpayOrderId : string;
  razorpayPaymentId : option string;
  razorpaySignature : option string;
}.
End VerifyPaymentReq.

Module ScanReq.
Record t : Type := mk {
  sub : option string;
  ticketCode : string;
  eventId : string;
}.
End ScanReq.

(** The [message] of a scan response.  The text of [AlreadyScannedAt]
    embeds [ticket.scannedAt?.toLocaleTimeString()], which depends on the
    locale of the server; the timestamp it prints is kept instead. *)
Inductive Message : Type :=
| InvalidTicketCode                       (* 'Invalid ticket code' *)
| DifferentEvent                          (* 'This ticket is for a different event' *)
| AlreadyScannedAt (scannedAt : option Z) (* `Already scanned at ${...}` *)
| CancelledOrRefunded                     (* 'Ticket has been cancelled or refunded' *)
| EntryApproved.                          (* 'Entry approved' *)

(** [{ ...ticket, eventName, tierName }]: the [ticket] of a scan response. *)
Module ScanTicket.
Record t : Type := mk {
  ticket : Ticket.t;
  eventName : option string;
  tierName : string;
}.
End ScanTicket.

Inductive Response : Type :=
| ErrorJson (status : nat) (error : string)
| OrderJson (orderId razorpayOrderId : string) (amount : Q) (currency : string)
| VerifyJson (success : bool) (tickets : list Ticket.t)
| ScanJson (success : bool) (message : Message) (scanResult : string)
           (ticket : option ScanTicket.t).

(** [try { body } catch (error) { res.status(500).json(...) }] *)
Definition tryCatch (body : M Response) (onError : Response)
  : World -> Response * World :=
  fun w =>
    match body w with
    | (Returned r, w') => (r, w')
    | (Thrown _, w') => (onError, w')
    end.

(** [const userId = req.user?.claims?.sub; if (!userId) ...]: an absent or
    empty subject is falsy. *)
Definition claimsSub (sub : option string) : option string :=
  match sub with
  | Some s => if s === "" then None else Some s
  | None => None
  end.

(** ** [POST /api/payments/create-order] *)

(** [x.toFixed(2)], as the decimal it denotes: the nearest multiple of
    [1/100], ties away from zero. *)
Definition roundHalfAway (x : Q) : Z :=
  if Qle_bool 0 x then Qfloor (x + (1 # 2)) else - Qfloor (- x + (1 # 2)).

Definition toFixed2 (x : Q) : Q := roundHalfAway (x * inject_Z 100) # 100.

(** The loop [for (const item of items)] over the two running totals. *)
Definition addItem (acc : Q * Z) (item : CartItem.t) : Q * Z :=
  ((fst acc + CartItem.price item * inject_Z (CartItem.quantity item))%Q,
   snd acc + CartItem.quantity item).

Definition orderTotals (items : list CartItem.t) : Q * Z :=
  fold_left addItem items (0%Q, 0).

Definition createOrderBody (req : CreateOrderReq.t) : M Response :=
  match claimsSub (CreateOrderReq.sub req) with
  | None => ret (ErrorJson 401 "Unauthorized")
  | Some userId =>
    let items := CreateOrderReq.items req in
    let totalAmount := fst (orderTotals items) in
    let totalTickets := snd (orderTotals items) in
    payment <- createPayment
      (InsertPayment.mk userId (CreateOrderReq.eventId req)
         (toFixed2 totalAmount) "INR" totalTickets payment_pending items) ;;
    let razorpayOrderId := ("order_" ++ Payment.id payment)%string in
    updatePayment (Payment.id payment)
      (PaymentPatch.mk (Some razorpayOrderId) None None None None) ;;;
    ret (OrderJson (Payment.id payment) razorpayOrderId totalAmount "INR")
  end.

Definition createOrder (req : CreateOrderReq.t) : World -> Response * World :=
  tryCatch (createOrderBody req) (ErrorJson 500 "Failed to create order").

(** ** [POST /api/payments/verify] *)

(** The body of the inner loop: one ticket per unit. *)
Definition issueOne (item : CartItem.t) (userId paymentId : string)
    (tickets : list Ticket.t) : M (list Ticket.t) :=
  code <- generateTicketCode ;;
  purchasedAt <- newDate ;;
  ticket <- createTicket
    (InsertTicket.mk (CartItem.tierId item) userId (Some paymentId) code
       ticket_confirmed (Some purchasedAt)) ;;
  ret (tickets ++ [ticket])%list.

(** The body of the outer loop: the tickets of one cart line, then its
    sold count. *)
Definition issueLine (userId paymentId : string) (item : CartItem.t)
    (tickets : list Ticket.t) : M (list Ticket.t) :=
  tickets' <- forTimes (iterations (CartItem.quantity item))
                (issueOne item userId paymentId) tickets ;;
  updateTicketTierSoldCount (CartItem.tierId item) (CartItem.quantity item) ;;;
  ret tickets'.

Definition verifyPaymentBody (req : VerifyPaymentReq.t) : M Response :=
  match claimsSub (VerifyPaymentReq.sub req) with
  | None => ret (ErrorJson 401 "Unauthorized")
  | Some userId =>
    payment <- gets (getPaymentByRazorpayOrderId
                       (VerifyPaymentReq.razorpayOrderId req)) ;;
    match payment with
    | None => ret (ErrorJson 404 "Payment not found")
    | Some payment =>
      completedAt <- newDate ;;
      updatePayment (Payment.id payment)
        (PaymentPatch.mk None
           (VerifyPaymentReq.razorpayPaymentId req)
           (VerifyPaymentReq.razorpaySignature req)
           (Some payment_completed) (Some completedAt)) ;;;
      tickets <- forOf (Payment.metadata payment)
                   (issueLine userId (Payment.id payment)) [] ;;
      ret (VerifyJson true tickets)
    end
  end.

Definition verifyPayment (req : VerifyPaymentReq.t) : World -> Response * World :=
  tryCatch (verifyPaymentBody req) (ErrorJson 500 "Failed to verify payment").

(** ** [POST /api/scans/verify] *)

Definition wrongEvent : Response :=
  ScanJson false DifferentEvent "wrong_event" None.

Definition verifyScanBody (req : ScanReq.t) : M Response :=
  match claimsSub (ScanReq.sub req) with
  | None => ret (ErrorJson 401 "Unauthorized")
  | Some userId =>
    let eventId := ScanReq.eventId req in
    ticket <- gets (getTicketByCode (ScanReq.ticketCode req)) ;;
    match ticket with
    | None => ret (ScanJson false InvalidTicketCode "invalid" None)
    | Some ticket =>
      tier <- gets (getTicketTier (Ticket.ticketTierId ticket)) ;;
      match tier with
      | None => ret wrongEvent
      | Some tier =>
        if negb (TicketTier.eventId tier === eventId) then ret wrongEvent
        else if TicketStatus_eqb (Ticket.status ticket) ticket_scanned then
          ret (ScanJson false (AlreadyScannedAt (Ticket.scannedAt ticket))
                 "already_scanned"
                 (Some (ScanTicket.mk ticket None (TicketTier.name tier))))
        else if TicketStatus_eqb (Ticket.status ticket) ticket_cancelled
                || TicketStatus_eqb (Ticket.status ticket) ticket_refunded then
          ret (ScanJson false CancelledOrRefunded "expired" None)
        else
          scannedAt <- newDate ;;
          updateTicket (Ticket.id ticket)
            (TicketPatch.mk (Some ticket_scanned) (Some scannedAt)
               (Some userId)) ;;;
          createEntryScan
            (InsertEntryScan.mk (Ticket.id ticket) userId eventId "success") ;;;
          event <- gets (getEvent eventId) ;;
          ret (ScanJson true EntryApproved "success"
                 (Some (ScanTicket.mk ticket (option_map Event.name event)
                          (TicketTier.name tier))))
      end
    end
  end.

Definition verifyScan (req : ScanReq.t) : World -> Response * World :=
  tryCatch (verifyScanBody req) (ErrorJson 500 "Failed to verify ticket").

(** ** Quantities the statements below are phrased with *)

(** The sold count and the capacity of the tier with key [id]. *)
Definition soldCountOf (id : string) (w : World) : option Z :=
  option_map TicketTier.soldCount (getTicketTier id w).

Definition quantityOf (id : string) (w : World) : option Z :=
  option_map TicketTier.quantity (getTicketTier id w).

(** The capacity invariant of the specification, on every row. *)
Definition withinCapacity (r : TicketTier.t) : Prop :=
  0 <= TicketTier.soldCount r <= TicketTier.quantity r.

Definition capacityInvariant (w : World) : Prop :=
  Forall withinCapacity (ticketTiers w).

(** What a cart asks of the tier [id], and the number of units in a cart. *)
Definition lineTotal (id : string) (items : list CartItem.t) : Z :=
  fold_right
    (fun item acc =>
       if CartItem.tierId item === id then CartItem.quantity item + acc else acc)
    0 items.

Definition units (items : list CartItem.t) : nat :=
  fold_right (fun item acc => (iterations (CartItem.quantity item) + acc)%nat)
             0%nat items.


(** The characters [generateTicketCode] appends when the next draw of
    [Math.random()] is number [start]; the code it returns then; and the
    code its [k]-th next call returns in [w] (each call makes eight
    draws). *)
Fixpoint codeChars (rnd : nat -> Q) (n start : nat) (code : string) : string :=
  match n with
  | O => code
  | S m =>
    codeChars rnd m (S start)
      (code ++ charAt chars
                 (Qfloor (rnd start * inject_Z (Z.of_nat (String.length chars)))))
  end.

Definition codeFrom (rnd : nat -> Q) (start : nat) : string :=
  codeChars rnd 8 start "".

Definition ticketCodeAt (w : World) (k : nat) : string :=
  codeFrom (random w) (nRandom w + 8 * k).

Definition codes (l : list Ticket.t) : list string := map Ticket.ticketCode l.

(** The request of [POST /api/payments/verify] with another signature. *)
Definition withSignature (s : option string) (req : VerifyPaymentReq.t)
  : VerifyPaymentReq.t :=
  VerifyPaymentReq.mk (VerifyPaymentReq.sub req)
    (VerifyPaymentReq.razorpayOrderId req)
    (VerifyPaymentReq.razorpayPaymentId req) s.

(** The tickets table once [t] has been marked scanned by [userId] in
    [w]: [scannedAt] is the next reading of the clock, [updatedAt] the one
    after. *)
Definition markScanned (t : Ticket.t) (userId : string) (w : World)
  : list Ticket.t :=
  map (fun r =>
         if Ticket.id r === Ticket.id t
         then patchTicket
                (TicketPatch.mk (Some ticket_scanned)
                   (Some (clock w (nClock w))) (Some userId))
                (clock w (S (nClock w))) r
         else r)
      (tickets w).

(** The audit row of a successful scan of [t] in [w]. *)
Definition successScan (t : Ticket.t) (userId eventId : string) (w : World)
  : EntryScan.t :=
  EntryScan.mk (uuid w (nUuid w)) (Ticket.id t) userId eventId "success"
    (Some (clock w (S (S (nClock w))))).

(** The codes of the next [n] tickets are new: pairwise distinct and
    carried by no ticket of [w]. *)
Definition freshCodes (w : World) (n : nat) : Prop :=
  NoDup (map (ticketCodeAt w) (seq 0 n))
  /\ forall k, (k < n)%nat -> ~ In (ticketCodeAt w k) (codes (tickets w)).

(** The row one round of the inner loop inserts in [w], and the world it
    leaves. *)
Definition issuedTicket (item : CartItem.t) (userId paymentId : string)
    (w : World) : Ticket.t :=
  Ticket.mk (uuid w (nUuid w)) (CartItem.tierId item) userId (Some paymentId)
    (codeFrom (random w) (nRandom w)) ticket_confirmed None None None
    (Some (clock w (nClock w)))
    (Some (clock w (S (nClock w)))) (Some (clock w (S (nClock w)))).

Definition afterIssue (item : CartItem.t) (userId paymentId : string)
    (w : World) : World :=
  with_tickets (tickets w ++ [issuedTicket item userId paymentId w])
    (with_counters (8 + nRandom w) (S (nUuid w)) (S (S (nClock w))) w).

(** The world [updateTicketTierSoldCount id increment] leaves. *)
Definition afterSoldCount (id : string) (increment : Z) (w : World) : World :=
  with_ticketTiers
    (map (fun r => if TicketTier.id r === id
                   then bumpSoldCount increment (clock w (nClock w)) r else r)
         (ticketTiers w))
    (with_counters (nRandom w) (nUuid w) (S (nClock w)) w).

(** The world in which the verify handler starts issuing: the payment [p]
    has been marked completed. *)
Definition completion (req : VerifyPaymentReq.t) (w : World) : PaymentPatch.t :=
  PaymentPatch.mk None (VerifyPaymentReq.razorpayPaymentId req)
    (VerifyPaymentReq.razorpaySignature req) (Some payment_completed)
    (Some (clock w (nClock w))).

Definition markCompleted (req : VerifyPaymentReq.t) (p : Payment.t) (w : World)
  : World :=
  with_payments
    (map (fun r => if Payment.id r === Payment.id p
                   then patchPayment (completion req w) (clock w (S (nClock w))) r
                   else r)
         (payments w))
    (with_counters (nRandom w) (nUuid w) (S (S (nClock w))) w).

(** The issuing part of the verify handler, and its answer when an
    exception reaches the [catch]. *)
Definition issueAll (userId : string) (p : Payment.t) : M Response :=
  tickets <- forOf (Payment.metadata p) (issueLine userId (Payment.id p)) [] ;;
  ret (VerifyJson true tickets).

Definition verifyFailed : Response := ErrorJson 500 "Failed to verify payment".

(** What the tickets issued for a cart look like: the tiers of the lines,
    each as often as its quantity, and on every row the status, the user
    and the payment. *)
Definition tiersOfCart (items : list CartItem.t) : list string :=
  flat_map (fun item => repeat (CartItem.tierId item)
                          (iterations (CartItem.quantity item)))
           items.

Definition issuedTo (userId paymentId : string) (t : Ticket.t) : Prop :=
  Ticket.status t = ticket_confirmed
  /\ Ticket.userId t = userId
  /\ Ticket.paymentId t = Some paymentId.

(** A computation that neither reads nor writes the table [set] replaces:
    it commutes with any replacement of that table. *)
Definition blind {L A} (set : L -> World -> World) (m : M A) : Prop :=
  forall l w, m (set l w) = (fst (m w), set l (snd (m w))).

(** [w'] is [w] with the rows [new] appended to the tickets, their codes
    pairwise distinct and carried by no ticket of [w]. *)
Definition extends (w w' : World) (new : list Ticket.t) : Prop :=
  tickets w' = (tickets w ++ new)%list
  /\ NoDup (codes new)
  /\ forall c, In c (codes new) -> ~ In c (codes (tickets w)).


(** ** Sample data *)

Module Sample.

Definition sampleEvents : list Event.t :=
  [Event.mk "E1" "Concert"; Event.mk "E2" "Fair"].

Definition tierA (quantity soldCount : Z) : TicketTier.t :=
  TicketTier.mk "tA" "E1" "VIP" (500 # 1) quantity soldCount
    (Some 10) (Some true) None.

Definition tierB (quantity soldCount : Z) : TicketTier.t :=
  TicketTier.mk "tB" "E1" "General" (100 # 1) quantity soldCount
    (Some 10) (Some true) None.

Definition pendingPayment (items : list CartItem.t) : Payment.t :=
  Payment.mk "p1" "alice" "E1" (Some "order_p1") None None
    (toFixed2 (fst (orderTotals items))) "INR" payment_pending
    (snd (orderTotals items)) items None (Some 10) (Some 11).

Definition ticketOf (code : string) (status : TicketStatus)
    (scannedAt : option Z) : Ticket.t :=
  Ticket.mk "k1" "tA" "alice" None code status (Some "Alice") scannedAt
    (option_map (fun _ => "gate1") scannedAt) (Some 20) (Some 20) (Some 21).

(** [Math.random()] walks through the alphabet, keys are ["ua"], ["ub"],
    ..., and the clock advances by one per reading from 1000. *)
Definition world (tiers : list TicketTier.t) (ts : list Ticket.t)
    (ps : list Payment.t) : World :=
  mkWorld sampleEvents tiers ts ps []
    (fun n => Z.of_nat (n mod 32) # 32)
    (fun n => String "u" (String (ascii_of_nat (97 + n)) ""))
    (fun n => 1000 + Z.of_nat n)
    0 0 0.

Definition cartAB : list CartItem.t :=
  [CartItem.mk "tA" "VIP" (500 # 1) 2; CartItem.mk "tB" "General" (100 # 1) 1].

Definition cartA1 : list CartItem.t := [CartItem.mk "tA" "VIP" (500 # 1) 1].

Definition cartA2 : list CartItem.t := [CartItem.mk "tA" "VIP" (500 # 1) 2].

Definition verifyReq (signature : option string) : VerifyPaymentReq.t :=
  VerifyPaymentReq.mk (Some "alice") "order_p1" (Some "pay_1") signature.

Definition scanReq (code eventId : string) : ScanReq.t :=
  ScanReq.mk (Some "gate1") code eventId.

(** The [tickets] of a verify response. *)
Definition issued (r : Response) : list Ticket.t :=
  match r with
  | VerifyJson _ ts => ts
  | _ => []
  end.

End Sample.

(** ** The server as a machine *)

(** The three routes as one transition function, and the world a sequence
    of requests leaves when they are served one after the other. *)
Inductive Request : Type :=
| CreateOrder (req : CreateOrderReq.t)
| VerifyPayment (req : VerifyPaymentReq.t)
| VerifyScan (req : ScanReq.t).

Definition handle (r : Request) (w : World) : Response * World :=
  match r with
  | CreateOrder req => createOrder req w
  | VerifyPayment req => verifyPayment req w
  | VerifyScan req => verifyScan req w
  end.

Definition run (rs : list Request) (w : World) : World :=
  fold_left (fun w r => snd (handle r w)) rs w.

(** Every run of [m] is a step of [R]. *)
Definition steps {A} (R : World -> World -> Prop) (m : M A) : Prop :=
  forall w, R w (snd (m w)).

(** The rewriting of the scanned rows by [updateTicket], of the credited
    rows by [updateTicketTierSoldCount], and of the patched rows by
    [updatePayment]. *)
Definition scanRows (id : string) (scannedAt : Z) (userId : string) (now : Z)
    (l : list Ticket.t) : list Ticket.t :=
  map (fun r => if Ticket.id r === id
                then patchTicket
                       (TicketPatch.mk (Some ticket_scanned) (Some scannedAt)
                          (Some userId)) now r
                else r) l.

Definition creditRows (id : string) (increment now : Z)
    (l : list TicketTier.t) : list TicketTier.t :=
  map (fun r => if TicketTier.id r === id
                then bumpSoldCount increment now r else r) l.

Definition patchRows (id : string) (data : PaymentPatch.t) (now : Z)
    (l : list Payment.t) : list Payment.t :=
  map (fun r => if Payment.id r === id then patchPayment data now r else r) l.

(** Two worlds with the same tables (the counters of the clock, of the
    keys and of [Math.random()] may differ), and with the same tables but
    one. *)
Definition sameTables (w w' : World) : Prop :=
  events w' = events w /\ ticketTiers w' = ticketTiers w
  /\ tickets w' = tickets w /\ payments w' = payments w
  /\ entryScans w' = entryScans w.

Definition sameButTickets (w w' : World) : Prop :=
  events w' = events w /\ ticketTiers w' = ticketTiers w
  /\ payments w' = payments w /\ entryScans w' = entryScans w.

Definition sameButTiers (w w' : World) : Prop :=
  events w' = events w /\ tickets w' = tickets w
  /\ payments w' = payments w /\ entryScans w' = entryScans w.

Definition sameButPayments (w w' : World) : Prop :=
  events w' = events w /\ ticketTiers w' = ticketTiers w
  /\ tickets w' = tickets w /\ entryScans w' = entryScans w.

Definition sameButScans (w w' : World) : Prop :=
  events w' = events w /\ ticketTiers w' = ticketTiers w
  /\ tickets w' = tickets w /\ payments w' = payments w.

(** ** Invariants of the tables *)

(** No two tickets carry the same code. *)
Definition uniqueCodes (w : World) : Prop := NoDup (codes (tickets w)).

(** The tier of every ticket exists. *)
Definition tiersExist (w : World) : Prop :=
  Forall (fun t => getTicketTier (Ticket.ticketTierId t) w <> None) (tickets w).

(** Every audit row records a success. *)
Definition onlySuccessScans (w : World) : Prop :=
  Forall (fun s => EntryScan.scanResult s = "success") (entryScans w).

(** A ticket has a scan time exactly when its status is [scanned]. *)
Definition scanCoherent (t : Ticket.t) : Prop :=
  Ticket.scannedAt t <> None <-> Ticket.status t = ticket_scanned.

Definition scansCoherent (w : World) : Prop := Forall scanCoherent (tickets w).

(** What never changes in a ticket row, and what a later world keeps of a
    ticket row. *)
Definition sameTicket (t t' : Ticket.t) : Prop :=
  Ticket.id t' = Ticket.id t
  /\ Ticket.ticketTierId t' = Ticket.ticketTierId t
  /\ Ticket.userId t' = Ticket.userId t
  /\ Ticket.paymentId t' = Ticket.paymentId t
  /\ Ticket.ticketCode t' = Ticket.ticketCode t
  /\ Ticket.purchasedAt t' = Ticket.purchasedAt t
  /\ (Ticket.status t' = Ticket.status t \/ Ticket.status t' = ticket_scanned).

Definition ticketsKept (w w' : World) : Prop :=
  exists kept new,
    tickets w' = (kept ++ new)%list /\ Forall2 sameTicket (tickets w) kept.

Definition samePayment (p p' : Payment.t) : Prop :=
  Payment.id p' = Payment.id p
  /\ Payment.userId p' = Payment.userId p
  /\ Payment.eventId p' = Payment.eventId p
  /\ Payment.amount p' = Payment.amount p
  /\ Payment.currency p' = Payment.currency p
  /\ Payment.ticketQuantity p' = Payment.ticketQuantity p
  /\ Payment.metadata p' = Payment.metadata p
  /\ (Payment.status p' = Payment.status p
      \/ Payment.status p' = payment_completed).

Definition paymentsKept (w w' : World) : Prop :=
  exists kept new,
    payments w' = (kept ++ new)%list /\ Forall2 samePayment (payments w) kept.

Definition sameTier (r r' : TicketTier.t) : Prop :=
  TicketTier.id r' = TicketTier.id r
  /\ TicketTier.eventId r' = TicketTier.eventId r
  /\ TicketTier.name r' = TicketTier.name r
  /\ TicketTier.price r' = TicketTier.price r
  /\ TicketTier.quantity r' = TicketTier.quantity r
  /\ TicketTier.maxPerOrder r' = TicketTier.maxPerOrder r
  /\ TicketTier.isActive r' = TicketTier.isActive r.

Definition tiersKept (w w' : World) : Prop :=
  Forall2 sameTier (ticketTiers w) (ticketTiers w') /\ events w' = events w.

(** ** The alphabet of the ticket codes *)

(** The characters of [chars]. *)
Definition alphabet : list ascii := list_ascii_of_string chars.

(** ** Users and roles *)

(** The columns of [users] that [requireRole] and [getDashboardStats]
    read.  None of the three routes above writes the table, so it is a
    parameter of what reads it rather than a part of the world. *)
Module User.
Record t : Type := mk {
  id : string;
  role : string;
  organizationId : option string;
}.
End User.

Definition getUser (id : string) (users : list User.t) : option User.t :=
  find (fun r => User.id r === id) users.

(** [roles.includes(userRole)] *)
Definition includes (roles : list string) (role : string) : bool :=
  existsb (fun r => r === role) roles.

(** [requireRole(...roles)], given [req.isAuthenticated()] and
    [req.user?.claims?.sub]: the response it sends, or [None] when it
    calls [next()]. *)
Definition requireRole (roles : list string) (users : list User.t)
    (isAuthenticated : bool) (sub : option string) : option Response :=
  if negb isAuthenticated then Some (ErrorJson 401 "Unauthorized")
  else
    match claimsSub sub with
    | None => Some (ErrorJson 401 "Unauthorized")
    | Some userId =>
      match getUser userId users with
      | None => Some (ErrorJson 401 "Unauthorized")
      | Some user =>
        let userRole := if User.role user === "" then "user" else User.role user in
        if negb (includes roles userRole) then Some (ErrorJson 403 "Forbidden")
        else None
      end
    end.

(** [app.post("/api/scans/verify", isAuthenticated,
    requireRole('admin', 'organiser', 'gatekeeper'), handler)], from
    [requireRole] on. *)
Definition scanRoles : list string := ["admin"; "organiser"; "gatekeeper"].

Definition scansVerifyRoute (users : list User.t) (isAuthenticated : bool)
    (req : ScanReq.t) (w : World) : Response * World :=
  match requireRole scanRoles users isAuthenticated (ScanReq.sub req) with
  | Some response => (response, w)
  | None => verifyScan req w
  end.

(** ** [GET /api/events]: the figures added to an event *)

(** A JavaScript boolean test of a nullable boolean column. *)
Definition truthy (b : option bool) : bool :=
  match b with Some true => true | _ => false end.

(** [Math.min(...xs)]; [None] is [Infinity], its value for no argument. *)
Fixpoint mathMin (xs : list Q) : option Q :=
  match xs with
  | [] => None
  | x :: rest =>
    match mathMin rest with
    | None => Some x
    | Some m => Some (if Qle_bool x m then x else m)
    end
  end.

(** [tiers.reduce((sum, t) => sum + t.soldCount, 0)] *)
Definition ticketsSold (tiers : list TicketTier.t) : Z :=
  fold_left (fun sum t => sum + TicketTier.soldCount t) tiers 0.

(** [tiers.length > 0 ? Math.min(...tiers.filter(t => t.isActive).map(t =>
    parseFloat(t.price))) : 0], then [isFinite(lowestPrice) ? lowestPrice :
    0]. *)
Definition lowestPrice (tiers : list TicketTier.t) : Q :=
  let lowestPrice :=
    match tiers with
    | [] => Some 0%Q
    | _ => mathMin (map TicketTier.price
                        (filter (fun t => truthy (TicketTier.isActive t)) tiers))
    end in
  match lowestPrice with
  | Some price => price
  | None => 0%Q
  end.

(** [getEventTicketTiers(eventId)] selects the tiers of the event and
    orders them by [sort_order], a column [TicketTier.t] does not keep: a
    list is a result of the query when it is a permutation of the rows
    selected. *)
Definition isEventTicketTiers (eventId : string) (w : World)
    (tiers : list TicketTier.t) : Prop :=
  Permutation tiers
    (filter (fun t => TicketTier.eventId t === eventId) (ticketTiers w)).

(** ** [getDashboardStats] *)

Module DashboardStats.
Record t : Type := mk {
  totalEvents : nat;
  activeTickets : nat;
  totalRevenue : Q;
  pendingScans : nat;
}.
End DashboardStats.

(** [getDashboardStats]; [None] when it throws.

    [organizationId] is the column [organization_id] of the rows of
    [events], which [Event.t] does not keep.

    [completedPaymentsQuery eventIds] is the outcome of
    [db.select().from(payments).where(and(eq(payments.status, 'completed'),
    sql`${payments.eventId} = ANY(${eventIds})`))], [None] when the query
    throws.  What it is depends on how drizzle renders the JavaScript
    array interpolated in the [sql] template, which the sources do not
    show (rendered as a list of parameters [($1, ..., $n)], a row where
    [ANY] wants an array, Postgres rejects the statement and the query
    throws whenever it is issued). *)
Definition getDashboardStats (users : list User.t)
    (organizationId : Event.t -> string)
    (completedPaymentsQuery : list string -> option (list Payment.t))
    (userId : string) (w : World)
  : option DashboardStats.t :=
  let user := getUser userId users in
  let isOrganizer :=
    match user with
    | Some u => (User.role u === "admin") || (User.role u === "organiser")
    | None => false
    end in
  let userOrganization :=
    match user with
    | Some u =>
      match User.organizationId u with
      | Some o => if o === "" then None else Some o
      | None => None
      end
    | None => None
    end in
  let organizerFigures : option (nat * Q) :=
    match isOrganizer, userOrganization with
    | true, Some o =>
      let orgEvents := filter (fun e => organizationId e === o) (events w) in
      let eventIds := map Event.id orgEvents in
      match eventIds with
      | [] => Some (length orgEvents, 0%Q)
      | _ =>
        match completedPaymentsQuery eventIds with
        | None => None
        | Some completedPayments =>
          Some (length orgEvents,
                fold_left (fun sum p => (sum + Payment.amount p)%Q)
                          completedPayments 0%Q)
        end
      end
    | _, _ => Some (0%nat, 0%Q)
    end in
  match organizerFigures with
  | None => None
  | Some (totalEvents, totalRevenue) =>
    let userTickets :=
      filter (fun t => (Ticket.userId t === userId)
                       && TicketStatus_eqb (Ticket.status t) ticket_confirmed)
             (tickets w) in
    let activeTickets := length userTickets in
    let pendingScans :=
      length (filter (fun t => match Ticket.scannedAt t with
                               | None => true
                               | Some _ => false
                               end) userTickets) in
    Some (DashboardStats.mk totalEvents activeTickets totalRevenue pendingScans)
  end.

(** ** The ranges of the columns and of the numbers *)

(** The values of a Postgres [integer] column ([sold_count], [quantity],
    [ticket_quantity]) and of an [integer] parameter. *)
Definition int4 (z : Z) : Prop := -2147483648 <= z <= 2147483647.

(** Issuing the cart [items] in [w] stays within the [integer] columns:
    every quantity is an [integer], and so is the sold count of every
    tier row after each line of the cart. *)
Definition soldCountsInRange (w : World) (items : list CartItem.t) : Prop :=
  Forall (fun item => int4 (CartItem.quantity item)) items
  /\ forall r k,
       In r (ticketTiers w) ->
       int4 (TicketTier.soldCount r
             + lineTotal (TicketTier.id r) (firstn k items)).






(** ** The cart of the event page *)

(** The client that posts to [create-order] ([EventDetails] and
    [TicketTierCard] of the event page).  The cart is a JavaScript [Map]
    from tier keys to cart lines: an association list in insertion order,
    which is the order of [Array.from(cart.values())]. *)
Definition Cart : Type := list (string * CartItem.t).

(** [cart.get(key)] *)
Definition mapGet (key : string) (cart : Cart) : option CartItem.t :=
  option_map snd (find (fun entry => fst entry === key) cart).

(** [cart.set(key, value)]: an existing key keeps its place. *)
Definition mapSet (key : string) (value : CartItem.t) (cart : Cart) : Cart :=
  if existsb (fun entry => fst entry === key) cart
  then map (fun entry => if fst entry === key then (key, value) else entry) cart
  else (cart ++ [(key, value)])%list.

(** [cart.delete(key)] *)
Definition mapDelete (key : string) (cart : Cart) : Cart :=
  filter (fun entry => negb (fst entry === key)) cart.

(** [Array.from(cart.values())] *)
Definition mapValues (cart : Cart) : list CartItem.t := map snd cart.

(** [handleUpdateCart], for the tiers of the event that is displayed. *)
Definition handleUpdateCart (ticketTiers : list TicketTier.t) (tierId : string)
    (quantity : Z) (cart : Cart) : Cart :=
  match find (fun t => TicketTier.id t === tierId) ticketTiers with
  | None => cart
  | Some tier =>
    if quantity <=? 0 then mapDelete tierId cart
    else mapSet tierId
           (CartItem.mk tierId (TicketTier.name tier) (TicketTier.price tier)
              quantity)
           cart
  end.

(** The figures of [TicketTierCard]. *)
Definition available (tier : TicketTier.t) : Z :=
  TicketTier.quantity tier - TicketTier.soldCount tier.

(** [cartItem?.quantity || 0] *)
Definition cartQuantity (tier : TicketTier.t) (cart : Cart) : Z :=
  match mapGet (TicketTier.id tier) cart with
  | Some cartItem => CartItem.quantity cartItem
  | None => 0
  end.

(** [tier.maxPerOrder || 10] *)
Definition maxPerOrderOf (tier : TicketTier.t) : Z :=
  match TicketTier.maxPerOrder tier with
  | Some m => if m =? 0 then 10 else m
  | None => 10
  end.

Definition canAdd (tier : TicketTier.t) (cart : Cart) : bool :=
  cartQuantity tier cart <? Z.min (available tier) (maxPerOrderOf tier).

Definition isSoldOut (tier : TicketTier.t) : bool := available tier =? 0.

(** A click on one of the two buttons of the card of [tier].  The buttons
    are rendered when [!isSoldOut && !disabled]; the minus button is
    disabled when the quantity is 0, the plus button when [!canAdd]. *)
Inductive Click : Type :=
| Decrease (tier : TicketTier.t)
| Increase (tier : TicketTier.t).

Definition clickedTier (c : Click) : TicketTier.t :=
  match c with Decrease tier | Increase tier => tier end.

Definition click (ticketTiers : list TicketTier.t) (disabled : bool) (c : Click)
    (cart : Cart) : Cart :=
  let tier := clickedTier c in
  let quantity := cartQuantity tier cart in
  if isSoldOut tier || disabled then cart
  else
    match c with
    | Decrease _ =>
      if quantity =? 0 then cart
      else handleUpdateCart ticketTiers (TicketTier.id tier) (quantity - 1) cart
    | Increase _ =>
      if negb (canAdd tier cart) then cart
      else handleUpdateCart ticketTiers (TicketTier.id tier) (quantity + 1) cart
    end.

(** The cart after a sequence of clicks, from [new Map()]. *)
Definition cartAfter (ticketTiers : list TicketTier.t) (disabled : bool)
    (clicks : list Click) : Cart :=
  fold_left (fun cart c => click ticketTiers disabled c cart) clicks [].


Definition totalTickets (cart : Cart) : Z :=
  fold_left (fun sum item => sum + CartItem.quantity item) (mapValues cart) 0.

(** A cart line that is priced as its tier and within what the card
    allows. *)
Definition lineOf (tier : TicketTier.t) (item : CartItem.t) : Prop :=
  CartItem.tierId item = TicketTier.id tier
  /\ CartItem.tierName item = TicketTier.name tier
  /\ CartItem.price item = TicketTier.price tier
  /\ 1 <= CartItem.quantity item
     <= Z.min (available tier) (maxPerOrderOf tier).


(** The invariant of the cart: its keys are distinct, and every entry is
    a line of the tier it is filed under. *)
Definition cartOk (ticketTiers : list TicketTier.t) (cart : Cart) : Prop :=
  NoDup (map fst cart)
  /\ Forall (fun entry =>
               exists tier, In tier ticketTiers
                            /\ TicketTier.id tier = fst entry
                            /\ lineOf tier (snd entry)) cart.

(** * Properties *)

(** ** The model at work *)

Example charAt_chars :
  charAt chars 0 = "A" /\ charAt chars 8 = "J" /\ charAt chars 31 = "9"
  /\ charAt chars 32 = "" /\ charAt chars (-1) = "".
Proof. repeat split. Qed.

Example generateTicketCode_sample :
  let w := Sample.world [] [] [] in
  fst (generateTicketCode w) = Returned "ABCDEFGH"
  /\ nRandom (snd (generateTicketCode w)) = 8%nat
  /\ fst (generateTicketCode (snd (generateTicketCode w))) = Returned "JKLMNPQR".
Proof. repeat split. Qed.

Example toFixed2_sample :
  toFixed2 (1 # 3) = (33 # 100) /\ toFixed2 (5 # 1000) = (1 # 100)
  /\ toFixed2 (- (5 # 1000)) = (-1 # 100) /\ toFixed2 (4995 # 10) = (49950 # 100).
Proof. repeat split. Qed.

Example orderTotals_sample :
  orderTotals Sample.cartAB = (1100 # 1, 3).
Proof. reflexivity. Qed.

Example createOrder_unauthorized :
  let w := Sample.world [] [] [] in
  createOrder (CreateOrderReq.mk (Some "") "E1" Sample.cartAB) w
  = (ErrorJson 401 "Unauthorized", w).
Proof. reflexivity. Qed.

Example createOrder_unknown_event :
  let w := Sample.world [] [] [] in
  fst (createOrder (CreateOrderReq.mk (Some "bob") "E9" Sample.cartAB) w)
  = ErrorJson 500 "Failed to create order".
Proof. reflexivity. Qed.

Example verifyPayment_unknown_order :
  let w := Sample.world [] [] [] in
  verifyPayment (Sample.verifyReq None) w = (ErrorJson 404 "Payment not found", w).
Proof. reflexivity. Qed.

Example verifyPayment_unknown_tier :
  let w := Sample.world [] [] [Sample.pendingPayment Sample.cartA1] in
  fst (verifyPayment (Sample.verifyReq None) w)
  = ErrorJson 500 "Failed to verify payment".
Proof. reflexivity. Qed.


(** ** Lists and lookups *)

Lemma find_none_iff {A} (p : A -> bool) (l : list A) :
  find p l = None <-> forall x, In x l -> p x = false.
Proof.
  split.
  - intros H x Hin. exact (find_none p l H x Hin).
  - induction l as [|a l IH]; intros H; simpl; [reflexivity|].
    rewrite (H a (or_introl eq_refl)). apply IH.
    intros x Hx. apply H. right. exact Hx.
Qed.

Lemma find_map_same {A} (p : A -> bool) (f : A -> A) (l : list A) :
  (forall x, p (f x) = p x) ->
  find p (map f l) = option_map f (find p l).
Proof.
  intros Hp. induction l as [|a l IH]; simpl; [reflexivity|].
  rewrite Hp. destruct (p a); [reflexivity|exact IH].
Qed.

Lemma find_app_none {A} (p : A -> bool) (l1 l2 : list A) :
  find p l1 = None -> find p (l1 ++ l2) = find p l2.
Proof.
  induction l1 as [|a l1 IH]; simpl; [reflexivity|].
  destruct (p a); [discriminate|exact IH].
Qed.

Lemma find_app_some {A} (p : A -> bool) (l1 l2 : list A) (x : A) :
  find p l1 = Some x -> find p (l1 ++ l2) = Some x.
Proof.
  induction l1 as [|a l1 IH]; simpl; [discriminate|].
  destruct (p a); [trivial|exact IH].
Qed.

Lemma getTicketByCode_none (code : string) (w : World) :
  getTicketByCode code w = None <-> ~ In code (codes (tickets w)).
Proof.
  unfold getTicketByCode, codes. rewrite find_none_iff, in_map_iff. split.
  - intros H [t [Ht Hin]]. specialize (H t Hin).
    rewrite Ht, String.eqb_refl in H. discriminate.
  - intros H t Hin. destruct (String.eqb_spec (Ticket.ticketCode t) code) as [E|E];
      [exfalso; apply H; exists t; auto | reflexivity].
Qed.


(** ** Scanning *)

Section Scan.

Variable req : ScanReq.t.
Variable userId : string.
Hypothesis authenticated : claimsSub (ScanReq.sub req) = Some userId.

Lemma scan_unknown (w : World) :
  getTicketByCode (ScanReq.ticketCode req) w = None ->
  verifyScan req w = (ScanJson false InvalidTicketCode "invalid" None, w).
Proof.
  intros Hcode. unfold verifyScan, tryCatch, verifyScanBody.
  rewrite authenticated. unfold bind, gets. rewrite Hcode. reflexivity.
Qed.

Lemma scan_wrong_event (w : World) (t : Ticket.t) :
  getTicketByCode (ScanReq.ticketCode req) w = Some t ->
  (forall tier, getTicketTier (Ticket.ticketTierId t) w = Some tier ->
                TicketTier.eventId tier <> ScanReq.eventId req) ->
  verifyScan req w = (wrongEvent, w).
Proof.
  intros Hcode Hev. unfold verifyScan, tryCatch, verifyScanBody.
  rewrite authenticated. unfold bind, gets. rewrite Hcode.
  destruct (getTicketTier (Ticket.ticketTierId t) w) as [tier|] eqn:Htier;
    [|reflexivity].
  destruct (String.eqb_spec (TicketTier.eventId tier) (ScanReq.eventId req)) as [E|E];
    [|reflexivity].
  exfalso. exact (Hev tier eq_refl E).
Qed.

Lemma scan_already_scanned (w : World) (t : Ticket.t) (tier : TicketTier.t) :
  getTicketByCode (ScanReq.ticketCode req) w = Some t ->
  getTicketTier (Ticket.ticketTierId t) w = Some tier ->
  TicketTier.eventId tier = ScanReq.eventId req ->
  Ticket.status t = ticket_scanned ->
  verifyScan req w =
    (ScanJson false (AlreadyScannedAt (Ticket.scannedAt t)) "already_scanned"
       (Some (ScanTicket.mk t None (TicketTier.name tier))), w).
Proof.
  intros Hcode Htier Hev Hst. unfold verifyScan, tryCatch, verifyScanBody.
  rewrite authenticated. unfold bind, gets. rewrite Hcode, Htier, Hev, Hst.
  rewrite String.eqb_refl. reflexivity.
Qed.

Lemma scan_expired (w : World) (t : Ticket.t) (tier : TicketTier.t) :
  getTicketByCode (ScanReq.ticketCode req) w = Some t ->
  getTicketTier (Ticket.ticketTierId t) w = Some tier ->
  TicketTier.eventId tier = ScanReq.eventId req ->
  Ticket.status t = ticket_cancelled \/ Ticket.status t = ticket_refunded ->
  verifyScan req w = (ScanJson false CancelledOrRefunded "expired" None, w).
Proof.
  intros Hcode Htier Hev Hst. unfold verifyScan, tryCatch, verifyScanBody.
  rewrite authenticated. unfold bind, gets. rewrite Hcode, Htier, Hev.
  rewrite String.eqb_refl. destruct Hst as [Hst|Hst]; rewrite Hst; reflexivity.
Qed.

Lemma scan_success (w : World) (t : Ticket.t) (tier : TicketTier.t)
    (ev : Event.t) :
  getTicketByCode (ScanReq.ticketCode req) w = Some t ->
  getTicketTier (Ticket.ticketTierId t) w = Some tier ->
  TicketTier.eventId tier = ScanReq.eventId req ->
  Ticket.status t = ticket_confirmed \/ Ticket.status t = ticket_pending ->
  getEvent (ScanReq.eventId req) w = Some ev ->
  let r := verifyScan req w in
  fst r = ScanJson true EntryApproved "success"
            (Some (ScanTicket.mk t (Some (Event.name ev)) (TicketTier.name tier)))
  /\ tickets (snd r) = markScanned t userId w
  /\ entryScans (snd r)
     = (entryScans w ++ [successScan t userId (ScanReq.eventId req) w])%list
  /\ ticketTiers (snd r) = ticketTiers w
  /\ events (snd r) = events w
  /\ payments (snd r) = payments w.
Proof.
  intros Hcode Htier Hev Hst Hevent r. subst r.
  assert (Hs : TicketStatus_eqb (Ticket.status t) ticket_scanned = false)
    by (destruct Hst as [E|E]; rewrite E; reflexivity).
  assert (Hc : TicketStatus_eqb (Ticket.status t) ticket_cancelled
               || TicketStatus_eqb (Ticket.status t) ticket_refunded = false)
    by (destruct Hst as [E|E]; rewrite E; reflexivity).
  destruct (verifyScan req w) as [resp w'] eqn:E.
  unfold verifyScan, tryCatch, verifyScanBody in E.
  rewrite authenticated in E. unfold bind at 1 in E. unfold gets at 1 in E.
  rewrite Hcode in E. unfold bind at 1 in E. unfold gets at 1 in E.
  rewrite Htier, Hev, String.eqb_refl, Hs, Hc in E. cbn [negb] in E.
  unfold getEvent in Hevent.
  unfold updateTicket, createEntryScan, bind, gets, modify, newDate, ret,
    getEvent in E.
  cbn in E. rewrite Hevent in E. cbn in E. rewrite ?Hevent in E.
  injection E as <- <-. repeat split; reflexivity.
Qed.

End Scan.

(** C8.  For every ticket code that no ticket carries, [verifyScan] answers
    [{success: false, scanResult: "invalid"}] with no ticket attached and
    leaves the world exactly as it was: no Ticket row is changed and no
    EntryScan row is created. *)
Theorem unknown_code_is_invalid (req : ScanReq.t) (userId : string) (w : World) :
  claimsSub (ScanReq.sub req) = Some userId ->
  ~ In (ScanReq.ticketCode req) (codes (tickets w)) ->
  verifyScan req w = (ScanJson false InvalidTicketCode "invalid" None, w).
Proof.
  intros Hauth Hcode. apply (scan_unknown req userId Hauth).
  apply getTicketByCode_none. exact Hcode.
Qed.

Lemma unknown_code_is_invalid_witness :
  let w := Sample.world [Sample.tierA 10 1]
             [Sample.ticketOf "ABCDEFGH" ticket_confirmed None] [] in
  verifyScan (Sample.scanReq "ABCD1234" "E1") w
  = (ScanJson false InvalidTicketCode "invalid" None, w).
Proof.
  intro w. apply (unknown_code_is_invalid (Sample.scanReq "ABCD1234" "E1") "gate1" w).
  - reflexivity.
  - simpl. intros [H|[]]. discriminate H.
Defined.

(** C5.  The wrong-event check comes before the already-scanned check: a
    ticket whose tier belongs to another event than the one of the request
    is answered [wrong_event], whatever its status (so also when it was
    already scanned at its own event), and nothing is written. *)
Theorem wrong_event_precedes_already_scanned
    (req : ScanReq.t) (userId : string) (w : World)
    (t : Ticket.t) (tier : TicketTier.t) :
  claimsSub (ScanReq.sub req) = Some userId ->
  getTicketByCode (ScanReq.ticketCode req) w = Some t ->
  getTicketTier (Ticket.ticketTierId t) w = Some tier ->
  TicketTier.eventId tier <> ScanReq.eventId req ->
  verifyScan req w = (ScanJson false DifferentEvent "wrong_event" None, w).
Proof.
  intros Hauth Hcode Htier Hev.
  apply (scan_wrong_event req userId Hauth w t Hcode).
  intros tier' Htier'. rewrite Htier in Htier'. injection Htier' as <-. exact Hev.
Qed.

Lemma wrong_event_precedes_already_scanned_witness :
  let w := Sample.world [Sample.tierA 10 1]
             [Sample.ticketOf "ABCDEFGH" ticket_scanned (Some 500)] [] in
  verifyScan (Sample.scanReq "ABCDEFGH" "E2") w
  = (ScanJson false DifferentEvent "wrong_event" None, w).
Proof.
  intro w.
  apply (wrong_event_precedes_already_scanned
           (Sample.scanReq "ABCDEFGH" "E2") "gate1" w
           (Sample.ticketOf "ABCDEFGH" ticket_scanned (Some 500))
           (Sample.tierA 10 1)).
  - reflexivity.
  - reflexivity.
  - reflexivity.
  - simpl. discriminate.
Defined.

(** C7.  A confirmed ticket is scanned at most once at its own event: the
    first [verifyScan] answers [success] and leaves the ticket with status
    [scanned], [scannedAt] the time of the scan and [scannedByUserId] the
    scanning user; every later [verifyScan] of the same code at the same
    event answers [already_scanned], reports that first [scannedAt], and
    changes nothing. *)
Theorem scan_is_at_most_once
    (req : ScanReq.t) (userId : string) (w : World)
    (t : Ticket.t) (tier : TicketTier.t) (ev : Event.t) :
  claimsSub (ScanReq.sub req) = Some userId ->
  getTicketByCode (ScanReq.ticketCode req) w = Some t ->
  Ticket.status t = ticket_confirmed ->
  getTicketTier (Ticket.ticketTierId t) w = Some tier ->
  TicketTier.eventId tier = ScanReq.eventId req ->
  getEvent (ScanReq.eventId req) w = Some ev ->
  let now := clock w (nClock w) in
  let first := verifyScan req w in
  (exists shown, fst first = ScanJson true EntryApproved "success" (Some shown))
  /\ exists t',
       getTicketByCode (ScanReq.ticketCode req) (snd first) = Some t'
       /\ Ticket.id t' = Ticket.id t
       /\ Ticket.status t' = ticket_scanned
       /\ Ticket.scannedAt t' = Some now
       /\ Ticket.scannedByUserId t' = Some userId
       /\ forall (again : ScanReq.t) (userId' : string),
            claimsSub (ScanReq.sub again) = Some userId' ->
            ScanReq.ticketCode again = ScanReq.ticketCode req ->
            ScanReq.eventId again = ScanReq.eventId req ->
            verifyScan again (snd first)
            = (ScanJson false (AlreadyScannedAt (Some now)) "already_scanned"
                 (Some (ScanTicket.mk t' None (TicketTier.name tier))),
               snd first).
Proof.
  intros Hauth Hcode Hst Htier Hev Hevent now first. subst now first.
  destruct (scan_success req userId Hauth w t tier ev Hcode Htier Hev
              (or_introl Hst) Hevent) as (Hresp & Htickets & _ & Htiers & _).
  split; [eexists; exact Hresp|].
  set (w1 := snd (verifyScan req w)) in *.
  set (t' := patchTicket
               (TicketPatch.mk (Some ticket_scanned) (Some (clock w (nClock w)))
                  (Some userId))
               (clock w (S (nClock w))) t).
  assert (Hcode1 : getTicketByCode (ScanReq.ticketCode req) w1 = Some t').
  { unfold getTicketByCode in *. rewrite Htickets. unfold markScanned.
    rewrite find_map_same.
    - rewrite Hcode. simpl. rewrite String.eqb_refl. reflexivity.
    - intros x. destruct (Ticket.id x === Ticket.id t); reflexivity. }
  exists t'. repeat split; try reflexivity; [exact Hcode1|].
  intros again userId' Hauth' Hsame Hevent'.
  apply (scan_already_scanned again userId' Hauth' w1 t' tier).
  - rewrite Hsame. exact Hcode1.
  - unfold getTicketTier in *. rewrite Htiers. exact Htier.
  - rewrite Hevent'. exact Hev.
  - reflexivity.
Qed.

Lemma scan_is_at_most_once_witness :
  let w := Sample.world [Sample.tierA 10 1]
             [Sample.ticketOf "ABCDEFGH" ticket_confirmed None] [] in
  let first := verifyScan (Sample.scanReq "ABCDEFGH" "E1") w in
  (exists shown, fst first = ScanJson true EntryApproved "success" (Some shown))
  /\ exists t',
       getTicketByCode "ABCDEFGH" (snd first) = Some t'
       /\ Ticket.id t' = "k1"
       /\ Ticket.status t' = ticket_scanned
       /\ Ticket.scannedAt t' = Some 1000
       /\ Ticket.scannedByUserId t' = Some "gate1"
       /\ forall (again : ScanReq.t) (userId' : string),
            claimsSub (ScanReq.sub again) = Some userId' ->
            ScanReq.ticketCode again = "ABCDEFGH" ->
            ScanReq.eventId again = "E1" ->
            verifyScan again (snd first)
            = (ScanJson false (AlreadyScannedAt (Some 1000)) "already_scanned"
                 (Some (ScanTicket.mk t' None "VIP")),
               snd first).
Proof.
  intros w.
  apply (scan_is_at_most_once (Sample.scanReq "ABCDEFGH" "E1") "gate1" w
           (Sample.ticketOf "ABCDEFGH" ticket_confirmed None)
           (Sample.tierA 10 1) (Event.mk "E1" "Concert"));
    reflexivity.
Defined.

(** C4.  Only the successful branch of [verifyScan] reaches
    [createEntryScan]: a scan that resolves to an existing ticket and is
    rejected as [already_scanned], [wrong_event] or [expired] returns before
    it, so the table of entry scans is still empty afterwards, whereas the
    successful scan of the same ticket leaves its row. *)
Theorem rejected_scan_leaves_no_audit_row :
  let scanned := Sample.world [Sample.tierA 10 1]
                   [Sample.ticketOf "ABCDEFGH" ticket_scanned (Some 500)] [] in
  let cancelled := Sample.world [Sample.tierA 10 1]
                     [Sample.ticketOf "ABCDEFGH" ticket_cancelled None] [] in
  let confirmed := Sample.world [Sample.tierA 10 1]
                     [Sample.ticketOf "ABCDEFGH" ticket_confirmed None] [] in
  verifyScan (Sample.scanReq "ABCDEFGH" "E1") scanned
  = (ScanJson false (AlreadyScannedAt (Some 500)) "already_scanned"
       (Some (ScanTicket.mk
                (Sample.ticketOf "ABCDEFGH" ticket_scanned (Some 500))
                None "VIP")),
     scanned)
  /\ verifyScan (Sample.scanReq "ABCDEFGH" "E2") scanned
     = (ScanJson false DifferentEvent "wrong_event" None, scanned)
  /\ verifyScan (Sample.scanReq "ABCDEFGH" "E1") cancelled
     = (ScanJson false CancelledOrRefunded "expired" None, cancelled)
  /\ entryScans scanned = [] /\ entryScans cancelled = []
  /\ entryScans (snd (verifyScan (Sample.scanReq "ABCDEFGH" "E1") confirmed))
     = [EntryScan.mk "ua" "k1" "gate1" "E1" "success" (Some 1002)].
Proof.
  intros scanned cancelled confirmed. repeat split.
Qed.

(** ** The state monad *)

Lemma bind_returned {A B} (m : M A) (k : A -> M B) (w w' : World) (b : B) :
  bind m k w = (Returned b, w') ->
  exists a w1, m w = (Returned a, w1) /\ k a w1 = (Returned b, w').
Proof.
  unfold bind. destruct (m w) as [[a|e] w1]; intros H; [|discriminate].
  exists a, w1. split; [reflexivity|exact H].
Qed.

Lemma forTimes_S {A} (n : nat) (body : A -> M A) (acc : A) :
  forTimes (S n) body acc = bind (body acc) (fun a => forTimes n body a).
Proof. reflexivity. Qed.

Lemma forOf_cons {A B} (x : B) (xs : list B) (body : B -> A -> M A) (acc : A) :
  forOf (x :: xs) body acc = bind (body x acc) (fun a => forOf xs body a).
Proof. reflexivity. Qed.

Lemma tryCatch_response (body : M Response) (onError r : Response) (w w' : World) :
  tryCatch body onError w = (r, w') ->
  body w = (Returned r, w') \/ (r = onError /\ exists e, body w = (Thrown e, w')).
Proof.
  unfold tryCatch. destruct (body w) as [[a|e] w1]; intros H; injection H as <- <-.
  - left. reflexivity.
  - right. split; [reflexivity|exists e; reflexivity].
Qed.

Section Blind.

Context {L : Type} (set : L -> World -> World).

Lemma blind_ret {A} (a : A) : blind set (ret a).
Proof. intros l w. reflexivity. Qed.

Lemma blind_bind {A B} (m : M A) (k : A -> M B) :
  blind set m -> (forall a, blind set (k a)) -> blind set (bind m k).
Proof.
  intros Hm Hk l w. unfold bind. rewrite Hm.
  destruct (m w) as [[a|e] w1]; simpl; [apply Hk|reflexivity].
Qed.

Lemma blind_forTimes {A} (body : A -> M A) (n : nat) :
  (forall a, blind set (body a)) -> forall acc, blind set (forTimes n body acc).
Proof.
  intros Hbody. induction n as [|n IH]; intros acc; simpl.
  - apply blind_ret.
  - apply blind_bind; [apply Hbody|exact IH].
Qed.

Lemma blind_forOf {A B} (body : B -> A -> M A) (xs : list B) :
  (forall x a, blind set (body x a)) -> forall acc, blind set (forOf xs body acc).
Proof.
  intros Hbody. induction xs as [|x xs IH]; intros acc; simpl.
  - apply blind_ret.
  - apply blind_bind; [apply Hbody|exact IH].
Qed.

Lemma blind_tryCatch (body : M Response) (onError : Response) :
  blind set body ->
  forall l w, tryCatch body onError (set l w)
              = (fst (tryCatch body onError w), set l (snd (tryCatch body onError w))).
Proof.
  intros Hb l w. unfold tryCatch. rewrite Hb.
  destruct (body w) as [[r|e] w1]; reflexivity.
Qed.

End Blind.

(** ** Code generation *)

Lemma generate_loop (n : nat) :
  forall (code : string) (w : World),
    forTimes n
      (fun code =>
         r <- mathRandom ;;
         ret (code ++ charAt chars
                        (Qfloor (r * inject_Z (Z.of_nat (String.length chars))))))
      code w
    = (Returned (codeChars (random w) n (nRandom w) code),
       with_counters (n + nRandom w) (nUuid w) (nClock w) w).
Proof.
  induction n as [|n IH]; intros code w.
  - destruct w; reflexivity.
  - cbn [forTimes codeChars]. unfold bind at 1. unfold bind at 1.
    unfold mathRandom at 1. unfold ret at 1. rewrite IH.
    destruct w; cbn. rewrite Nat.add_succ_r. reflexivity.
Qed.

Lemma generateTicketCode_run (w : World) :
  generateTicketCode w
  = (Returned (codeFrom (random w) (nRandom w)),
     with_counters (8 + nRandom w) (nUuid w) (nClock w) w).
Proof. unfold generateTicketCode. apply generate_loop. Qed.

Lemma ticketCodeAt_0 (w : World) :
  ticketCodeAt w 0 = codeFrom (random w) (nRandom w).
Proof. unfold ticketCodeAt. rewrite Nat.mul_0_r, Nat.add_0_r. reflexivity. Qed.

(** ** One ticket *)

Lemma issueOne_run (item : CartItem.t) (userId paymentId : string)
    (acc : list Ticket.t) (w : World) :
  issueOne item userId paymentId acc w
  = match getTicketTier (CartItem.tierId item) w with
    | None =>
      (Thrown (ForeignKeyViolation "tickets_ticket_tier_id_fkey"),
       with_counters (8 + nRandom w) (nUuid w) (S (nClock w)) w)
    | Some _ =>
      match getTicketByCode (codeFrom (random w) (nRandom w)) w with
      | Some _ =>
        (Thrown (UniqueViolation "ticket_code_idx"),
         with_counters (8 + nRandom w) (nUuid w) (S (nClock w)) w)
      | None =>
        (Returned (acc ++ [issuedTicket item userId paymentId w])%list,
         afterIssue item userId paymentId w)
      end
    end.
Proof.
  unfold issueOne. unfold bind at 1. rewrite generateTicketCode_run.
  destruct w as [ev tt tk pm es rnd uu ck nr nu nc].
  unfold bind, newDate, createTicket, gets, getTicketTier, getTicketByCode,
    issuedTicket, afterIssue.
  cbn.
  destruct (find _ tt); [|reflexivity].
  cbn. destruct (find _ tk); reflexivity.
Qed.

Lemma updateTicketTierSoldCount_run (id : string) (increment : Z) (w : World) :
  updateTicketTierSoldCount id increment w
  = (Returned (getTicketTier id (afterSoldCount id increment w)),
     afterSoldCount id increment w).
Proof. destruct w; reflexivity. Qed.

(** ** Fresh codes *)

Lemma NoDup_app_disjoint {A} (l1 l2 : list A) (x : A) :
  NoDup (l1 ++ l2) -> In x l1 -> In x l2 -> False.
Proof.
  induction l1 as [|a l1 IH]; simpl; intros Hnd H1 H2; [contradiction|].
  inversion Hnd as [|? ? Hnotin Hnd']; subst.
  destruct H1 as [->|H1].
  - apply Hnotin. apply in_or_app. right. exact H2.
  - exact (IH Hnd' H1 H2).
Qed.

Lemma map_seq_shift {A} (f : nat -> A) (a n : nat) :
  map (fun k => f (a + k)%nat) (seq 0 n) = map f (seq a n).
Proof.
  revert a. induction n as [|n IH]; intros a; [reflexivity|].
  cbn [seq map]. rewrite Nat.add_0_r. f_equal.
  rewrite <- (seq_shift n 0), map_map.
  rewrite <- (IH (S a)). apply map_ext. intros k.
  f_equal. lia.
Qed.

Lemma extends_refl (w : World) : extends w w [].
Proof.
  repeat split.
  - rewrite app_nil_r. reflexivity.
  - constructor.
  - intros c [].
Qed.

Lemma extends_app (w w1 w2 : World) (a b : list Ticket.t) :
  extends w w1 a -> extends w1 w2 b -> extends w w2 (a ++ b).
Proof.
  intros (Ht1 & Hnd1 & Hf1) (Ht2 & Hnd2 & Hf2). repeat split.
  - rewrite Ht2, Ht1, app_assoc. reflexivity.
  - unfold codes in *. rewrite map_app. apply NoDup_app; [exact Hnd1|exact Hnd2|].
    intros c Ha Hb. apply (Hf2 c Hb). rewrite Ht1, map_app.
    apply in_or_app. right. exact Ha.
  - unfold codes in *. intros c Hc Hold. rewrite map_app in Hc.
    apply in_app_or in Hc. destruct Hc as [Hc|Hc].
    + exact (Hf1 c Hc Hold).
    + apply (Hf2 c Hc). rewrite Ht1, map_app. apply in_or_app. left. exact Hold.
Qed.

Lemma freshCodes_shift (w w1 : World) (n1 n2 : nat) :
  freshCodes w (n1 + n2) ->
  random w1 = random w ->
  nRandom w1 = (nRandom w + 8 * n1)%nat ->
  codes (tickets w1)
  = (codes (tickets w) ++ map (ticketCodeAt w) (seq 0 n1))%list ->
  freshCodes w1 n2.
Proof.
  intros [Hnd Hfresh] Hrnd Hn Hcodes.
  assert (Hat : forall k, ticketCodeAt w1 k = ticketCodeAt w (n1 + k)).
  { intros k. unfold ticketCodeAt. rewrite Hrnd, Hn. f_equal. lia. }
  rewrite seq_app, map_app in Hnd. cbn [Nat.add] in Hnd.
  split.
  - rewrite (map_ext _ _ Hat), map_seq_shift.
    exact (NoDup_app_remove_l _ _ Hnd).
  - intros k Hk Hin. rewrite Hat, Hcodes in Hin.
    apply in_app_or in Hin. destruct Hin as [Hin|Hin].
    + apply (Hfresh (n1 + k)%nat); [lia|exact Hin].
    + apply (NoDup_app_disjoint _ _ _ Hnd Hin).
      apply in_map. apply in_seq. lia.
Qed.

Lemma freshCodes_head (w : World) (n : nat) :
  freshCodes w (S n) -> getTicketByCode (codeFrom (random w) (nRandom w)) w = None.
Proof.
  intros [_ Hfresh]. apply getTicketByCode_none.
  rewrite <- ticketCodeAt_0. apply Hfresh. lia.
Qed.


(** ** The tickets of one cart line *)

Section Issuance.

Variables userId paymentId : string.

Lemma forTimes_issueOne_returned (item : CartItem.t) (n : nat) :
  forall (acc : list Ticket.t) (w : World) (ts : list Ticket.t) (w' : World),
    forTimes n (issueOne item userId paymentId) acc w = (Returned ts, w') ->
    exists new,
      ts = (acc ++ new)%list
      /\ extends w w' new
      /\ map Ticket.ticketTierId new = repeat (CartItem.tierId item) n
      /\ Forall (issuedTo userId paymentId) new
      /\ ticketTiers w' = ticketTiers w.
Proof.
  induction n as [|n IH]; intros acc w ts w' Hrun.
  - injection Hrun as <- <-. exists []. rewrite app_nil_r.
    split; [reflexivity|]. split; [apply extends_refl|].
    split; [reflexivity|]. split; [constructor|reflexivity].
  - rewrite forTimes_S in Hrun. apply bind_returned in Hrun.
    destruct Hrun as (a & w1 & Hone & Hrest).
    rewrite issueOne_run in Hone.
    destruct (getTicketTier (CartItem.tierId item) w); [|discriminate].
    destruct (getTicketByCode (codeFrom (random w) (nRandom w)) w) eqn:Hcode;
      [discriminate|].
    injection Hone as <- <-.
    destruct (IH _ _ _ _ Hrest) as (new & -> & Hext & Htiers & Hall & Htt).
    exists (issuedTicket item userId paymentId w :: new).
    split; [rewrite <- app_assoc; reflexivity|].
    split.
    + apply (extends_app w (afterIssue item userId paymentId w) w'
               [issuedTicket item userId paymentId w] new); [|exact Hext].
      split; [destruct w; reflexivity|split].
      * repeat constructor. intros [].
      * intros c [<-|[]]. apply getTicketByCode_none. exact Hcode.
    + split; [cbn; rewrite Htiers; reflexivity|].
      split; [constructor; [repeat split|exact Hall]|].
      rewrite Htt. destruct w; reflexivity.
Qed.

Lemma forTimes_issueOne_ok (item : CartItem.t) (n : nat) :
  forall (acc : list Ticket.t) (w : World),
    getTicketTier (CartItem.tierId item) w <> None ->
    freshCodes w n ->
    exists ts w',
      forTimes n (issueOne item userId paymentId) acc w = (Returned ts, w')
      /\ random w' = random w
      /\ nRandom w' = (nRandom w + 8 * n)%nat
      /\ clock w' = clock w
      /\ codes (tickets w')
         = (codes (tickets w) ++ map (ticketCodeAt w) (seq 0 n))%list.
Proof.
  induction n as [|n IH]; intros acc w Htier Hfresh.
  - exists acc, w. cbn. rewrite app_nil_r, Nat.add_0_r. auto.
  - set (w1 := afterIssue item userId paymentId w).
    assert (Hrnd : random w1 = random w) by (destruct w; reflexivity).
    assert (Hn : nRandom w1 = (nRandom w + 8 * 1)%nat)
      by (destruct w; cbn; lia).
    assert (Hck : clock w1 = clock w) by (destruct w; reflexivity).
    assert (Hcodes : codes (tickets w1)
                     = (codes (tickets w) ++ map (ticketCodeAt w) (seq 0 1))%list).
    { cbn [seq map]. rewrite ticketCodeAt_0. subst w1. destruct w. cbn.
      unfold codes. rewrite map_app. reflexivity. }
    assert (Htier1 : getTicketTier (CartItem.tierId item) w1 <> None)
      by (subst w1; destruct w; exact Htier).
    destruct (IH (acc ++ [issuedTicket item userId paymentId w])%list w1 Htier1
                (freshCodes_shift w w1 1 n Hfresh Hrnd Hn Hcodes))
      as (ts & w' & Hrun & Hrnd' & Hn' & Hck' & Hcodes').
    exists ts, w'. split.
    + rewrite forTimes_S. unfold bind. rewrite issueOne_run.
      destruct (getTicketTier (CartItem.tierId item) w); [|congruence].
      rewrite (freshCodes_head w n Hfresh). exact Hrun.
    + split; [congruence|]. split; [lia|]. split; [congruence|].
      rewrite Hcodes', Hcodes, <- app_assoc. f_equal.
      change (S n) with (1 + n)%nat. rewrite seq_app, map_app. cbn [Nat.add].
      f_equal. rewrite <- (map_seq_shift (ticketCodeAt w) 1 n). apply map_ext.
      intros k. unfold ticketCodeAt. rewrite Hrnd, Hn. f_equal. lia.
Qed.


End Issuance.

(** ** The sold count of a tier *)

Lemma getTicketTier_afterSoldCount (id : string) (increment : Z) (w : World)
    (tid : string) :
  getTicketTier tid (afterSoldCount id increment w)
  = option_map
      (fun r => if TicketTier.id r === id
                then bumpSoldCount increment (clock w (nClock w)) r else r)
      (getTicketTier tid w).
Proof.
  destruct w. unfold getTicketTier, afterSoldCount. cbn.
  apply find_map_same. intros x.
  destruct (TicketTier.id x === id); reflexivity.
Qed.

Lemma getTicketTier_id (tid : string) (w : World) (r : TicketTier.t) :
  getTicketTier tid w = Some r -> TicketTier.id r = tid.
Proof.
  unfold getTicketTier. intros H. apply find_some in H. destruct H as [_ H].
  apply String.eqb_eq. exact H.
Qed.

Lemma soldCountOf_afterSoldCount (id : string) (increment : Z) (w : World)
    (tid : string) :
  soldCountOf tid (afterSoldCount id increment w)
  = option_map (fun s => s + (if id === tid then increment else 0))
               (soldCountOf tid w).
Proof.
  unfold soldCountOf. rewrite getTicketTier_afterSoldCount.
  destruct (getTicketTier tid w) as [r|] eqn:E; [|reflexivity].
  apply getTicketTier_id in E. cbn [option_map]. rewrite E, (String.eqb_sym tid id).
  destruct (id === tid); cbn; [reflexivity|rewrite Z.add_0_r; reflexivity].
Qed.

Lemma quantityOf_afterSoldCount (id : string) (increment : Z) (w : World)
    (tid : string) :
  quantityOf tid (afterSoldCount id increment w) = quantityOf tid w.
Proof.
  unfold quantityOf. rewrite getTicketTier_afterSoldCount.
  destruct (getTicketTier tid w) as [r|]; [|reflexivity].
  cbn [option_map]. destruct (TicketTier.id r === id); reflexivity.
Qed.

Lemma same_tiers (w w' : World) (tid : string) :
  ticketTiers w' = ticketTiers w -> getTicketTier tid w' = getTicketTier tid w.
Proof. unfold getTicketTier. intros ->. reflexivity. Qed.

Lemma length_tiersOfCart (items : list CartItem.t) :
  length (tiersOfCart items) = units items.
Proof.
  induction items as [|item items IH]; [reflexivity|].
  cbn [tiersOfCart flat_map units fold_right].
  rewrite length_app, repeat_length. f_equal. exact IH.
Qed.

(** ** The tickets of a cart *)

Section Cart.

Variables userId paymentId : string.

Lemma issueLine_returned (item : CartItem.t) (acc : list Ticket.t) (w : World)
    (ts : list Ticket.t) (w' : World) :
  issueLine userId paymentId item acc w = (Returned ts, w') ->
  exists new,
    ts = (acc ++ new)%list
    /\ extends w w' new
    /\ map Ticket.ticketTierId new
       = repeat (CartItem.tierId item) (iterations (CartItem.quantity item))
    /\ Forall (issuedTo userId paymentId) new
    /\ forall tid,
         soldCountOf tid w'
         = option_map
             (fun s => s + (if CartItem.tierId item === tid
                            then CartItem.quantity item else 0))
             (soldCountOf tid w)
         /\ quantityOf tid w' = quantityOf tid w.
Proof.
  unfold issueLine. intros Hrun.
  apply bind_returned in Hrun. destruct Hrun as (ts1 & w1 & Hloop & Hrun).
  apply bind_returned in Hrun. destruct Hrun as (r & w2 & Hsold & Hret).
  rewrite updateTicketTierSoldCount_run in Hsold.
  injection Hsold as _ <-. injection Hret as <- <-.
  destruct (forTimes_issueOne_returned userId paymentId item _ _ _ _ _ Hloop)
    as (new & -> & (Htk & Hnd & Hfr) & Htiers & Hall & Htt).
  exists new. split; [reflexivity|]. split.
  - split; [|split; assumption]. rewrite <- Htk. destruct w1; reflexivity.
  - split; [exact Htiers|]. split; [exact Hall|]. intros tid.
    rewrite soldCountOf_afterSoldCount, quantityOf_afterSoldCount.
    unfold soldCountOf, quantityOf. rewrite (same_tiers w w1 tid Htt).
    split; reflexivity.
Qed.

Lemma issuance_returned (items : list CartItem.t) :
  forall (acc : list Ticket.t) (w : World) (ts : list Ticket.t) (w' : World),
    forOf items (issueLine userId paymentId) acc w = (Returned ts, w') ->
    exists new,
      ts = (acc ++ new)%list
      /\ extends w w' new
      /\ map Ticket.ticketTierId new = tiersOfCart items
      /\ Forall (issuedTo userId paymentId) new
      /\ forall tid,
           soldCountOf tid w'
           = option_map (fun s => s + lineTotal tid items) (soldCountOf tid w)
           /\ quantityOf tid w' = quantityOf tid w.
Proof.
  induction items as [|item items IH]; intros acc w ts w' Hrun.
  - injection Hrun as <- <-. exists []. rewrite app_nil_r.
    split; [reflexivity|]. split; [apply extends_refl|].
    split; [reflexivity|]. split; [constructor|]. intros tid.
    split; [|reflexivity]. cbn [lineTotal fold_right].
    destruct (soldCountOf tid w); cbn; [rewrite Z.add_0_r|]; reflexivity.
  - rewrite forOf_cons in Hrun. apply bind_returned in Hrun.
    destruct Hrun as (ts1 & w1 & Hline & Hrest).
    destruct (issueLine_returned _ _ _ _ _ Hline)
      as (new1 & -> & Hext1 & Htiers1 & Hall1 & Hsold1).
    destruct (IH _ _ _ _ Hrest) as (new2 & -> & Hext2 & Htiers2 & Hall2 & Hsold2).
    exists (new1 ++ new2)%list.
    split; [rewrite app_assoc; reflexivity|].
    split; [exact (extends_app _ _ _ _ _ Hext1 Hext2)|].
    split; [rewrite map_app, Htiers1, Htiers2; reflexivity|].
    split; [apply Forall_app; split; assumption|].
    intros tid. destruct (Hsold1 tid) as [Hs1 Hq1]. destruct (Hsold2 tid) as [Hs2 Hq2].
    split; [|congruence].
    rewrite Hs2, Hs1. cbn [lineTotal fold_right]. fold (lineTotal tid items).
    destruct (soldCountOf tid w) as [s|]; [|reflexivity]. cbn [option_map].
    f_equal. destruct (CartItem.tierId item === tid); lia.
Qed.

Lemma freshCodes_prefix (w : World) (n1 n2 : nat) :
  freshCodes w (n1 + n2) -> freshCodes w n1.
Proof.
  intros [Hnd Hfresh]. rewrite seq_app, map_app in Hnd. split.
  - exact (NoDup_app_remove_r _ _ Hnd).
  - intros k Hk. apply Hfresh. lia.
Qed.

Lemma issueLine_ok (item : CartItem.t) (acc : list Ticket.t) (w : World) :
  getTicketTier (CartItem.tierId item) w <> None ->
  freshCodes w (iterations (CartItem.quantity item)) ->
  exists ts w',
    issueLine userId paymentId item acc w = (Returned ts, w')
    /\ random w' = random w
    /\ nRandom w' = (nRandom w + 8 * iterations (CartItem.quantity item))%nat
    /\ codes (tickets w')
       = (codes (tickets w)
          ++ map (ticketCodeAt w) (seq 0 (iterations (CartItem.quantity item))))%list
    /\ forall tid, getTicketTier tid w <> None -> getTicketTier tid w' <> None.
Proof.
  intros Htier Hfresh.
  destruct (forTimes_issueOne_ok userId paymentId item _ acc w Htier Hfresh)
    as (ts & w1 & Hloop & Hrnd & Hn & _ & Hcodes).
  destruct (forTimes_issueOne_returned userId paymentId item _ _ _ _ _ Hloop)
    as (_ & _ & _ & _ & _ & Htt).
  exists ts, (afterSoldCount (CartItem.tierId item) (CartItem.quantity item) w1).
  split.
  - unfold issueLine, bind. rewrite Hloop, updateTicketTierSoldCount_run.
    reflexivity.
  - split; [rewrite <- Hrnd; destruct w1; reflexivity|].
    split; [rewrite <- Hn; destruct w1; reflexivity|].
    split; [rewrite <- Hcodes; destruct w1; reflexivity|].
    intros tid Hsome. rewrite getTicketTier_afterSoldCount, (same_tiers w w1 tid Htt).
    destruct (getTicketTier tid w); [discriminate|congruence].
Qed.

Lemma issuance_ok (items : list CartItem.t) :
  forall (acc : list Ticket.t) (w : World),
    Forall (fun item => getTicketTier (CartItem.tierId item) w <> None) items ->
    freshCodes w (units items) ->
    exists ts w', forOf items (issueLine userId paymentId) acc w = (Returned ts, w').
Proof.
  induction items as [|item items IH]; intros acc w Htiers Hfresh.
  - exists acc, w. reflexivity.
  - inversion Htiers as [|? ? Htier Hrest]; subst.
    cbn [units fold_right] in Hfresh. fold (units items) in Hfresh.
    destruct (issueLine_ok item acc w Htier (freshCodes_prefix _ _ _ Hfresh))
      as (ts1 & w1 & Hline & Hrnd & Hn & Hcodes & Hkeep).
    destruct (IH ts1 w1) as (ts & w' & Hrun).
    + rewrite Forall_forall in *. intros x Hx. apply Hkeep, Hrest, Hx.
    + exact (freshCodes_shift w w1 _ _ Hfresh Hrnd Hn Hcodes).
    + exists ts, w'. rewrite forOf_cons. unfold bind. rewrite Hline. exact Hrun.
Qed.


End Cart.

(** ** Issuance does not look at the payments *)

Lemma blind_preserves_payments {A} (m : M A) :
  blind with_payments m -> forall w, payments (snd (m w)) = payments w.
Proof.
  intros Hm w. specialize (Hm (payments w) w).
  assert (Hw : with_payments (payments w) w = w) by (destruct w; reflexivity).
  rewrite Hw in Hm. apply (f_equal snd) in Hm. cbn [snd] in Hm.
  apply (f_equal payments) in Hm. rewrite Hm.
  destruct (snd (m w)); reflexivity.
Qed.

Lemma blind_issueOne (item : CartItem.t) (userId paymentId : string)
    (acc : list Ticket.t) :
  blind with_payments (issueOne item userId paymentId acc).
Proof.
  intros l w. rewrite !issueOne_run.
  assert (Ht : getTicketTier (CartItem.tierId item) (with_payments l w)
               = getTicketTier (CartItem.tierId item) w)
    by (destruct w; reflexivity).
  assert (Hr : random (with_payments l w) = random w) by (destruct w; reflexivity).
  assert (Hn : nRandom (with_payments l w) = nRandom w) by (destruct w; reflexivity).
  assert (Hc : forall c, getTicketByCode c (with_payments l w) = getTicketByCode c w)
    by (intros c; destruct w; reflexivity).
  rewrite Ht, Hr, Hn, Hc.
  destruct (getTicketTier (CartItem.tierId item) w);
    [destruct (getTicketByCode (codeFrom (random w) (nRandom w)) w)|];
    destruct w; reflexivity.
Qed.

Lemma blind_updateTicketTierSoldCount (id : string) (increment : Z) :
  blind with_payments (updateTicketTierSoldCount id increment).
Proof. intros l w. destruct w; reflexivity. Qed.

Lemma blind_issuance (userId paymentId : string) (items : list CartItem.t)
    (acc : list Ticket.t) :
  blind with_payments (forOf items (issueLine userId paymentId) acc).
Proof.
  apply blind_forOf. intros item a. unfold issueLine.
  apply blind_bind; [apply blind_forTimes; intros; apply blind_issueOne|].
  intros ts. apply blind_bind; [apply blind_updateTicketTierSoldCount|].
  intros _. apply blind_ret.
Qed.

(** ** The verify handler *)

Section Verify.

Variable req : VerifyPaymentReq.t.

Lemma verifyPayment_unauthorized (w : World) :
  claimsSub (VerifyPaymentReq.sub req) = None ->
  verifyPayment req w = (ErrorJson 401 "Unauthorized", w).
Proof.
  intros H. unfold verifyPayment, tryCatch, verifyPaymentBody. rewrite H.
  reflexivity.
Qed.

Lemma verifyPayment_not_found (w : World) (userId : string) :
  claimsSub (VerifyPaymentReq.sub req) = Some userId ->
  getPaymentByRazorpayOrderId (VerifyPaymentReq.razorpayOrderId req) w = None ->
  verifyPayment req w = (ErrorJson 404 "Payment not found", w).
Proof.
  intros H H0. unfold verifyPayment, tryCatch, verifyPaymentBody. rewrite H.
  unfold bind, gets. rewrite H0. reflexivity.
Qed.

Lemma verifyPayment_run (w : World) (userId : string) (p : Payment.t) :
  claimsSub (VerifyPaymentReq.sub req) = Some userId ->
  getPaymentByRazorpayOrderId (VerifyPaymentReq.razorpayOrderId req) w = Some p ->
  verifyPayment req w
  = if paymentIdTaken (Payment.id p) (VerifyPaymentReq.razorpayPaymentId req) w
    then (verifyFailed,
          with_counters (nRandom w) (nUuid w) (S (S (nClock w))) w)
    else tryCatch (issueAll userId p) verifyFailed (markCompleted req p w).
Proof.
  intros H H0. unfold verifyPayment, tryCatch at 1, verifyPaymentBody. rewrite H.
  unfold bind at 1. unfold gets at 1. rewrite H0.
  unfold bind at 1. unfold newDate at 1.
  unfold bind at 1. unfold updatePayment at 1.
  unfold bind at 1. unfold newDate at 1.
  unfold bind at 1. unfold gets at 1.
  destruct w as [ev tt tk pm es rnd uu ck nr nu nc].
  cbn [events ticketTiers tickets payments entryScans random uuid clock
       nRandom nUuid nClock with_counters paymentIdTaken
       PaymentPatch.razorpayPaymentId].
  unfold paymentIdTaken at 1.
  cbn [events ticketTiers tickets payments entryScans random uuid clock
       nRandom nUuid nClock with_counters].
  destruct (paymentIdTaken (Payment.id p) (VerifyPaymentReq.razorpayPaymentId req)
              _) eqn:Htaken.
  - unfold paymentIdTaken in Htaken. cbn [payments] in Htaken.
    rewrite Htaken. reflexivity.
  - unfold paymentIdTaken in Htaken. cbn [payments] in Htaken.
    rewrite Htaken. reflexivity.
Qed.

End Verify.

Section MarkCompleted.

Variable req : VerifyPaymentReq.t.
Variable p : Payment.t.

Lemma markCompleted_tickets (w : World) :
  tickets (markCompleted req p w) = tickets w.
Proof. destruct w; reflexivity. Qed.

Lemma markCompleted_ticketTiers (w : World) :
  ticketTiers (markCompleted req p w) = ticketTiers w.
Proof. destruct w; reflexivity. Qed.

Lemma markCompleted_random (w : World) :
  random (markCompleted req p w) = random w.
Proof. destruct w; reflexivity. Qed.

Lemma markCompleted_nRandom (w : World) :
  nRandom (markCompleted req p w) = nRandom w.
Proof. destruct w; reflexivity. Qed.

Lemma markCompleted_payments (w : World) :
  payments (markCompleted req p w)
  = map (fun r => if Payment.id r === Payment.id p
                  then patchPayment (completion req w) (clock w (S (nClock w))) r
                  else r)
        (payments w).
Proof. destruct w; reflexivity. Qed.

Lemma markCompleted_freshCodes (w : World) (n : nat) :
  freshCodes w n -> freshCodes (markCompleted req p w) n.
Proof.
  intros H. apply (freshCodes_shift w _ 0 n H).
  - apply markCompleted_random.
  - rewrite markCompleted_nRandom. lia.
  - rewrite markCompleted_tickets. cbn [seq map]. rewrite app_nil_r. reflexivity.
Qed.

End MarkCompleted.

Section VerifyFound.

Variable req : VerifyPaymentReq.t.
Variable w : World.
Variable p : Payment.t.
Hypothesis found :
  getPaymentByRazorpayOrderId (VerifyPaymentReq.razorpayOrderId req) w = Some p.

Lemma markCompleted_found :
  getPaymentByRazorpayOrderId (VerifyPaymentReq.razorpayOrderId req)
    (markCompleted req p w)
  = Some (patchPayment (completion req w) (clock w (S (nClock w))) p).
Proof.
  unfold getPaymentByRazorpayOrderId in *.
  replace (payments (markCompleted req p w))
    with (map (fun r => if Payment.id r === Payment.id p
                        then patchPayment (completion req w)
                               (clock w (S (nClock w))) r
                        else r) (payments w))
    by (destruct w; reflexivity).
  rewrite find_map_same.
  - rewrite found. cbn [option_map]. rewrite String.eqb_refl. reflexivity.
  - intros x. destruct (Payment.id x === Payment.id p); reflexivity.
Qed.

Lemma verifyPayment_returned (ts : list Ticket.t) (w' : World) :
  verifyPayment req w = (VerifyJson true ts, w') ->
  exists userId,
    claimsSub (VerifyPaymentReq.sub req) = Some userId
    /\ paymentIdTaken (Payment.id p) (VerifyPaymentReq.razorpayPaymentId req) w
       = false
    /\ forOf (Payment.metadata p) (issueLine userId (Payment.id p)) []
         (markCompleted req p w)
       = (Returned ts, w').
Proof.
  intros Hrun.
  destruct (claimsSub (VerifyPaymentReq.sub req)) as [userId|] eqn:Hauth;
    [|rewrite (verifyPayment_unauthorized req w Hauth) in Hrun; discriminate].
  rewrite (verifyPayment_run req w userId p Hauth found) in Hrun.
  destruct (paymentIdTaken _ _ w); [discriminate|].
  exists userId. split; [reflexivity|]. split; [reflexivity|].
  apply tryCatch_response in Hrun. destruct Hrun as [Hrun|[Hresp _]];
    [|discriminate].
  unfold issueAll in Hrun. apply bind_returned in Hrun.
  destruct Hrun as (ts0 & w0 & Hloop & Hret). injection Hret as <- <-.
  exact Hloop.
Qed.

Lemma verifyPayment_effect (ts : list Ticket.t) (w' : World) :
  verifyPayment req w = (VerifyJson true ts, w') ->
  exists userId,
    claimsSub (VerifyPaymentReq.sub req) = Some userId
    /\ extends w w' ts
    /\ map Ticket.ticketTierId ts = tiersOfCart (Payment.metadata p)
    /\ Forall (issuedTo userId (Payment.id p)) ts
    /\ (forall tid,
          soldCountOf tid w'
          = option_map (fun s => s + lineTotal tid (Payment.metadata p))
                       (soldCountOf tid w)
          /\ quantityOf tid w' = quantityOf tid w)
    /\ getPaymentByRazorpayOrderId (VerifyPaymentReq.razorpayOrderId req) w'
       = Some (patchPayment (completion req w) (clock w (S (nClock w))) p).
Proof.
  intros Hrun. destruct (verifyPayment_returned ts w' Hrun)
    as (userId & Hauth & _ & Hloop).
  exists userId. split; [exact Hauth|].
  destruct (issuance_returned userId (Payment.id p) _ _ _ _ _ Hloop)
    as (new & Hts & (Htk & Hnd & Hfr) & Htiers & Hall & Hsold).
  cbn [app] in Hts. subst new.
  split; [|split; [exact Htiers|split; [exact Hall|split]]].
  - split; [rewrite Htk, markCompleted_tickets; reflexivity|].
    split; [exact Hnd|]. intros c Hc. rewrite <- (markCompleted_tickets req p w).
    exact (Hfr c Hc).
  - intros tid. destruct (Hsold tid) as [Hs Hq]. rewrite Hs, Hq.
    unfold soldCountOf, quantityOf.
    rewrite (same_tiers w _ tid (markCompleted_ticketTiers req p w)).
    split; reflexivity.
  - pose proof (blind_preserves_payments _
                  (blind_issuance userId (Payment.id p) (Payment.metadata p) [])
                  (markCompleted req p w)) as Hpay.
    rewrite Hloop in Hpay. cbn [snd] in Hpay.
    rewrite <- markCompleted_found. unfold getPaymentByRazorpayOrderId.
    rewrite Hpay. reflexivity.
Qed.

Lemma verifyPayment_ok (userId : string) :
  claimsSub (VerifyPaymentReq.sub req) = Some userId ->
  paymentIdTaken (Payment.id p) (VerifyPaymentReq.razorpayPaymentId req) w = false ->
  Forall (fun item => getTicketTier (CartItem.tierId item) w <> None)
         (Payment.metadata p) ->
  freshCodes w (units (Payment.metadata p)) ->
  exists ts w', verifyPayment req w = (VerifyJson true ts, w').
Proof.
  intros Hauth Htaken Htiers Hfresh.
  rewrite (verifyPayment_run req w userId p Hauth found), Htaken.
  destruct (issuance_ok userId (Payment.id p) (Payment.metadata p) []
              (markCompleted req p w)) as (ts & w' & Hrun).
  - rewrite Forall_forall in *. intros item Hin.
    rewrite (same_tiers w _ _ (markCompleted_ticketTiers req p w)).
    exact (Htiers item Hin).
  - apply markCompleted_freshCodes. exact Hfresh.
  - exists ts, w'. unfold tryCatch, issueAll, bind. rewrite Hrun. reflexivity.
Qed.

End VerifyFound.

(** ** Capacity *)

Lemma capacityInvariant_lookup (w : World) (tid : string) (s q : Z) :
  capacityInvariant w ->
  soldCountOf tid w = Some s -> quantityOf tid w = Some q -> 0 <= s <= q.
Proof.
  unfold capacityInvariant, soldCountOf, quantityOf. intros Hinv Hs Hq.
  destruct (getTicketTier tid w) as [r|] eqn:E; [|discriminate].
  injection Hs as <-. injection Hq as <-.
  unfold getTicketTier in E. apply find_some in E. destruct E as [Hin _].
  rewrite Forall_forall in Hinv. exact (Hinv r Hin).
Qed.

(** The sold count a tier is left with is a value of the column when the
    issuance stays in range. *)
Lemma soldCount_in_range (w w' : World) (items : list CartItem.t) :
  soldCountsInRange w items ->
  (forall tid,
     soldCountOf tid w'
     = option_map (fun s => s + lineTotal tid items) (soldCountOf tid w)) ->
  forall tid s', soldCountOf tid w' = Some s' -> int4 s'.
Proof.
  intros [_ Hrange] Hsold tid s' Hs'. rewrite Hsold in Hs'.
  unfold soldCountOf, getTicketTier in Hs'.
  destruct (find (fun r => TicketTier.id r === tid) (ticketTiers w)) as [r|] eqn:E;
    [|discriminate].
  apply find_some in E. destruct E as [Hin Hid]. apply String.eqb_eq in Hid.
  cbn [option_map] in Hs'. injection Hs' as <-.
  specialize (Hrange r (length items) Hin). rewrite firstn_all, Hid in Hrange.
  exact Hrange.
Qed.

(** C1 (as the code has it).  The verify handler makes no capacity check.
    Whenever the tiers of the cart exist and the ticket codes it draws are
    new (and no other payment holds the payment id), issuance succeeds,
    whatever the sold counts are with respect to the quantities, as long
    as the quantities of the cart and the sold counts they lead to are
    values of the 32-bit [integer] column: it leaves the sold count of
    every tier increased by exactly what the cart asks of that tier, a
    value of the column again, and its quantity untouched. *)
Theorem issuance_adds_without_capacity_check
    (req : VerifyPaymentReq.t) (w : World) (userId : string) (p : Payment.t) :
  claimsSub (VerifyPaymentReq.sub req) = Some userId ->
  getPaymentByRazorpayOrderId (VerifyPaymentReq.razorpayOrderId req) w = Some p ->
  paymentIdTaken (Payment.id p) (VerifyPaymentReq.razorpayPaymentId req) w = false ->
  Forall (fun item => getTicketTier (CartItem.tierId item) w <> None)
         (Payment.metadata p) ->
  freshCodes w (units (Payment.metadata p)) ->
  soldCountsInRange w (Payment.metadata p) ->
  exists ts w',
    verifyPayment req w = (VerifyJson true ts, w')
    /\ length ts = units (Payment.metadata p)
    /\ (forall tid,
          soldCountOf tid w'
          = option_map (fun s => s + lineTotal tid (Payment.metadata p))
                       (soldCountOf tid w)
          /\ quantityOf tid w' = quantityOf tid w)
    /\ forall tid s', soldCountOf tid w' = Some s' -> int4 s'.
Proof.
  intros Hauth Hfound Htaken Htiers Hfresh Hrange.
  destruct (verifyPayment_ok req w p Hfound userId Hauth Htaken Htiers Hfresh)
    as (ts & w' & Hrun).
  exists ts, w'. split; [exact Hrun|].
  destruct (verifyPayment_effect req w p Hfound ts w' Hrun)
    as (_ & _ & _ & Hmap & _ & Hsold & _).
  split; [rewrite <- length_tiersOfCart, <- Hmap, length_map; reflexivity|].
  split; [exact Hsold|].
  apply (soldCount_in_range w w' (Payment.metadata p) Hrange).
  intros tid. exact (proj1 (Hsold tid)).
Qed.

Lemma issuance_adds_without_capacity_check_witness :
  let w := Sample.world [Sample.tierA 1 0] []
             [Sample.pendingPayment Sample.cartA2] in
  exists ts w',
    verifyPayment (Sample.verifyReq (Some "sig")) w = (VerifyJson true ts, w')
    /\ length ts = 2%nat
    /\ (forall tid,
          soldCountOf tid w'
          = option_map (fun s => s + lineTotal tid Sample.cartA2)
                       (soldCountOf tid w)
          /\ quantityOf tid w' = quantityOf tid w)
    /\ forall tid s', soldCountOf tid w' = Some s' -> int4 s'.
Proof.
  intros w.
  apply (issuance_adds_without_capacity_check (Sample.verifyReq (Some "sig")) w
           "alice" (Sample.pendingPayment Sample.cartA2)).
  - reflexivity.
  - reflexivity.
  - reflexivity.
  - repeat constructor. discriminate.
  - split.
    + vm_compute. repeat constructor; simpl; intuition discriminate.
    + intros k _ [].
  - split.
    + repeat constructor; cbn; lia.
    + intros r k [<-|[]]. destruct k as [|[|k]]; cbn; unfold int4; lia.
Defined.

(** C1, as stated, fails: a tier of one seat, none sold yet, and a cart
    asking two units of it.  The invariant holds before; the request is
    answered with the two tickets, not rejected, and the sold count is 2,
    above the quantity, afterwards. *)
Lemma oversold_issuance_is_accepted :
  let w := Sample.world [Sample.tierA 1 0] []
             [Sample.pendingPayment Sample.cartA2] in
  let r := verifyPayment (Sample.verifyReq (Some "sig")) w in
  capacityInvariant w
  /\ soldCountOf "tA" w = Some 0
  /\ quantityOf "tA" w = Some 1
  /\ lineTotal "tA" Sample.cartA2 = 2
  /\ (exists t1 t2, fst r = VerifyJson true [t1; t2])
  /\ soldCountOf "tA" (snd r) = Some 2
  /\ quantityOf "tA" (snd r) = Some 1
  /\ ~ capacityInvariant (snd r).
Proof.
  intros w r.
  assert (Hsold : soldCountOf "tA" (snd r) = Some 2) by (vm_compute; reflexivity).
  assert (Hq : quantityOf "tA" (snd r) = Some 1) by (vm_compute; reflexivity).
  split; [repeat constructor; discriminate|].
  split; [reflexivity|]. split; [reflexivity|]. split; [reflexivity|].
  split; [eexists; eexists; vm_compute; reflexivity|].
  split; [exact Hsold|]. split; [exact Hq|].
  intros Hinv. pose proof (capacityInvariant_lookup _ _ _ _ Hinv Hsold Hq). lia.
Qed.

(** ** One ticket per unit *)




(** ** Confirming twice *)

(** C2 (as the code has it).  The verify handler keeps no mark of a payment
    having been issued.  When it is invoked a second time on a payment it
    has already issued and completes again, it has issued the cart a second
    time: the tickets it returns are further rows, as many as the cart has
    units, under codes that no earlier ticket carries, and every sold count
    has been increased by the cart's quantity once more. *)
Theorem confirming_twice_issues_twice
    (req : VerifyPaymentReq.t) (w w1 w2 : World) (p : Payment.t)
    (ts1 ts2 : list Ticket.t) :
  getPaymentByRazorpayOrderId (VerifyPaymentReq.razorpayOrderId req) w = Some p ->
  verifyPayment req w = (VerifyJson true ts1, w1) ->
  verifyPayment req w1 = (VerifyJson true ts2, w2) ->
  tickets w2 = (tickets w ++ ts1 ++ ts2)%list
  /\ length ts1 = units (Payment.metadata p)
  /\ length ts2 = units (Payment.metadata p)
  /\ (forall t, In t ts2 -> ~ In (Ticket.ticketCode t) (codes (tickets w1)))
  /\ forall tid,
       soldCountOf tid w2
       = option_map (fun s => s + 2 * lineTotal tid (Payment.metadata p))
                    (soldCountOf tid w).
Proof.
  intros Hfound Hfirst Hsecond.
  destruct (verifyPayment_effect req w p Hfound ts1 w1 Hfirst)
    as (u1 & _ & (Htk1 & _ & _) & Hmap1 & _ & Hsold1 & Hfound1).
  destruct (verifyPayment_effect req w1 _ Hfound1 ts2 w2 Hsecond)
    as (u2 & _ & (Htk2 & _ & Hfr2) & Hmap2 & _ & Hsold2 & _).
  cbn [patchPayment Payment.metadata] in Hmap2, Hsold2.
  split; [rewrite Htk2, Htk1, app_assoc; reflexivity|].
  split; [rewrite <- length_tiersOfCart, <- Hmap1, length_map; reflexivity|].
  split; [rewrite <- length_tiersOfCart, <- Hmap2, length_map; reflexivity|].
  split.
  - intros t Hin. apply Hfr2. unfold codes. apply in_map. exact Hin.
  - intros tid. destruct (Hsold2 tid) as [-> _]. destruct (Hsold1 tid) as [-> _].
    destruct (soldCountOf tid w) as [s|]; [|reflexivity]. cbn [option_map].
    f_equal. lia.
Qed.

Lemma confirming_twice_issues_twice_witness :
  let w := Sample.world [Sample.tierA 10 0] []
             [Sample.pendingPayment Sample.cartA1] in
  let req := Sample.verifyReq (Some "sig") in
  let first := verifyPayment req w in
  let second := verifyPayment req (snd first) in
  let ts1 := Sample.issued (fst first) in
  let ts2 := Sample.issued (fst second) in
  tickets (snd second) = (tickets w ++ ts1 ++ ts2)%list
  /\ length ts1 = 1%nat
  /\ length ts2 = 1%nat
  /\ (forall t, In t ts2 ->
                ~ In (Ticket.ticketCode t) (codes (tickets (snd first))))
  /\ forall tid,
       soldCountOf tid (snd second)
       = option_map (fun s => s + 2 * lineTotal tid Sample.cartA1)
                    (soldCountOf tid w).
Proof.
  intros w req first second ts1 ts2.
  apply (confirming_twice_issues_twice req w (snd first) (snd second)
           (Sample.pendingPayment Sample.cartA1) ts1 ts2).
  - reflexivity.
  - vm_compute. reflexivity.
  - vm_compute. reflexivity.
Defined.

(** C2, as stated, fails: verifying the same order twice.  Both calls
    answer with a ticket, the two tickets differ, the table holds two rows
    for the one unit bought, and the sold count went from 0 to 1 to 2. *)
Lemma second_confirmation_issues_again :
  let w := Sample.world [Sample.tierA 10 0] []
             [Sample.pendingPayment Sample.cartA1] in
  let req := Sample.verifyReq (Some "sig") in
  let first := verifyPayment req w in
  let second := verifyPayment req (snd first) in
  exists t1 t2,
    fst first = VerifyJson true [t1]
    /\ fst second = VerifyJson true [t2]
    /\ t1 <> t2
    /\ tickets (snd second) = [t1; t2]
    /\ soldCountOf "tA" w = Some 0
    /\ soldCountOf "tA" (snd first) = Some 1
    /\ soldCountOf "tA" (snd second) = Some 2.
Proof.
  intros w req first second.
  eexists. eexists.
  split; [vm_compute; reflexivity|].
  split; [vm_compute; reflexivity|].
  split; [intros H; discriminate H|].
  repeat split; vm_compute; reflexivity.
Qed.

(** ** The signature *)

Lemma blind_issueAll (userId : string) (p : Payment.t) :
  blind with_payments (issueAll userId p).
Proof.
  unfold issueAll. apply blind_bind; [apply blind_issuance|].
  intros ts. apply blind_ret.
Qed.

Lemma issueAll_keeps_payments (userId : string) (p : Payment.t) (w : World) :
  payments (snd (tryCatch (issueAll userId p) verifyFailed w)) = payments w.
Proof.
  pose proof (blind_preserves_payments _ (blind_issueAll userId p) w) as H.
  unfold tryCatch. destruct (issueAll userId p w) as [[r|e] w1]; exact H.
Qed.

Lemma markCompleted_signature (req : VerifyPaymentReq.t) (s : option string)
    (p : Payment.t) (w : World) :
  markCompleted (withSignature s req) p w
  = with_payments (payments (markCompleted (withSignature s req) p w))
      (markCompleted req p w).
Proof. destruct w; reflexivity. Qed.

(** C3 (as the code has it).  The verify handler has no notion of an
    unverified confirmation: it never inspects the signature ("for now,
    we'll simulate successful verification").  For every request whose
    order resolves to a payment (no other payment holding its payment
    id), and for every signature it may carry, also none: the payment is
    marked completed, with that signature stored as given, and issuance is
    run; no payment becomes failed; and the answer is the same whatever the
    signature.  Issuance is run: when the tiers of the cart exist, the
    codes drawn are new and the sold counts stay values of the [integer]
    column, the answer is, for every signature, the same list of tickets,
    one per unit of the cart and of the tiers of its lines, and these
    tickets are the rows appended to the table. *)
Theorem signature_is_not_verified
    (req : VerifyPaymentReq.t) (w : World) (userId : string) (p : Payment.t) :
  claimsSub (VerifyPaymentReq.sub req) = Some userId ->
  getPaymentByRazorpayOrderId (VerifyPaymentReq.razorpayOrderId req) w = Some p ->
  paymentIdTaken (Payment.id p) (VerifyPaymentReq.razorpayPaymentId req) w = false ->
  (forall s,
     exists p',
       getPaymentByRazorpayOrderId (VerifyPaymentReq.razorpayOrderId req)
         (snd (verifyPayment (withSignature s req) w)) = Some p'
       /\ Payment.status p' = payment_completed
       /\ Payment.razorpaySignature p' = orKeep s (Payment.razorpaySignature p))
  /\ (forall s q,
        In q (payments (snd (verifyPayment (withSignature s req) w))) ->
        Payment.status q = payment_failed ->
        In q (payments w))
  /\ (forall s1 s2,
        fst (verifyPayment (withSignature s1 req) w)
        = fst (verifyPayment (withSignature s2 req) w))
  /\ (Forall (fun item => getTicketTier (CartItem.tierId item) w <> None)
             (Payment.metadata p) ->
      freshCodes w (units (Payment.metadata p)) ->
      soldCountsInRange w (Payment.metadata p) ->
      exists ts,
        length ts = units (Payment.metadata p)
        /\ map Ticket.ticketTierId ts = tiersOfCart (Payment.metadata p)
        /\ Forall (issuedTo userId (Payment.id p)) ts
        /\ forall s,
             exists w',
               verifyPayment (withSignature s req) w = (VerifyJson true ts, w')
               /\ tickets w' = (tickets w ++ ts)%list
               /\ forall tid,
                    soldCountOf tid w'
                    = option_map (fun n => n + lineTotal tid (Payment.metadata p))
                                 (soldCountOf tid w)).
Proof.
  intros Hauth Hfound Htaken.
  assert (Hrun : forall s,
             verifyPayment (withSignature s req) w
             = tryCatch (issueAll userId p) verifyFailed
                 (markCompleted (withSignature s req) p w)).
  { intros s.
    rewrite (verifyPayment_run (withSignature s req) w userId p Hauth Hfound).
    cbn [withSignature VerifyPaymentReq.razorpayPaymentId]. rewrite Htaken.
    reflexivity. }
  assert (Hsame : forall s1 s2,
             fst (verifyPayment (withSignature s1 req) w)
             = fst (verifyPayment (withSignature s2 req) w)).
  { intros s1 s2. rewrite !Hrun.
    rewrite (markCompleted_signature req s1), (markCompleted_signature req s2).
    rewrite !(blind_tryCatch with_payments _ verifyFailed
                (blind_issueAll userId p)).
    reflexivity. }
  split.
  - intros s. rewrite Hrun.
    exists (patchPayment (completion (withSignature s req) w)
              (clock w (S (nClock w))) p).
    split; [|split; reflexivity].
    rewrite <- (markCompleted_found (withSignature s req) w p Hfound).
    unfold getPaymentByRazorpayOrderId. rewrite issueAll_keeps_payments.
    reflexivity.
  - split; [|split; [exact Hsame|]].
    + intros s q Hin Hfailed. rewrite Hrun, issueAll_keeps_payments in Hin.
      rewrite markCompleted_payments in Hin. apply in_map_iff in Hin.
      destruct Hin as (q0 & Hq & Hin0).
      destruct (Payment.id q0 === Payment.id p); subst q;
        [discriminate Hfailed|exact Hin0].
    + intros Htiers Hfresh _.
      assert (Hok : forall s, exists ts w',
                 verifyPayment (withSignature s req) w = (VerifyJson true ts, w')).
      { intros s.
        exact (verifyPayment_ok (withSignature s req) w p Hfound userId Hauth
                 Htaken Htiers Hfresh). }
      destruct (Hok None) as (ts & w0 & Hrun0).
      destruct (verifyPayment_effect (withSignature None req) w p Hfound ts w0 Hrun0)
        as (u & Hu & _ & Hmap & Hall & _).
      cbn [withSignature VerifyPaymentReq.sub] in Hu. rewrite Hauth in Hu.
      injection Hu as <-.
      exists ts. split; [rewrite <- length_tiersOfCart, <- Hmap, length_map;
                         reflexivity|].
      split; [exact Hmap|]. split; [exact Hall|].
      intros s. destruct (Hok s) as (ts' & w' & Hrun').
      pose proof (Hsame s None) as E. rewrite Hrun', Hrun0 in E. cbn [fst] in E.
      injection E as ->. exists w'. split; [exact Hrun'|].
      destruct (verifyPayment_effect (withSignature s req) w p Hfound ts w' Hrun')
        as (_ & _ & (Htk & _) & _ & _ & Hsold & _).
      split; [exact Htk|]. intros tid. exact (proj1 (Hsold tid)).
Qed.

Lemma signature_is_not_verified_witness :
  let w := Sample.world [Sample.tierA 10 0] []
             [Sample.pendingPayment Sample.cartA1] in
  let req := Sample.verifyReq (Some "sig") in
  (forall s,
     exists p',
       getPaymentByRazorpayOrderId "order_p1"
         (snd (verifyPayment (withSignature s req) w)) = Some p'
       /\ Payment.status p' = payment_completed
       /\ Payment.razorpaySignature p' = orKeep s None)
  /\ (forall s q,
        In q (payments (snd (verifyPayment (withSignature s req) w))) ->
        Payment.status q = payment_failed ->
        In q (payments w))
  /\ (forall s1 s2,
        fst (verifyPayment (withSignature s1 req) w)
        = fst (verifyPayment (withSignature s2 req) w))
  /\ exists ts,
       length ts = 1%nat
       /\ map Ticket.ticketTierId ts = ["tA"]
       /\ Forall (issuedTo "alice" "p1") ts
       /\ forall s,
            exists w',
              verifyPayment (withSignature s req) w = (VerifyJson true ts, w')
              /\ tickets w' = (tickets w ++ ts)%list
              /\ forall tid,
                   soldCountOf tid w'
                   = option_map (fun n => n + lineTotal tid Sample.cartA1)
                                (soldCountOf tid w).
Proof.
  intros w req.
  destruct (signature_is_not_verified req w "alice"
              (Sample.pendingPayment Sample.cartA1) eq_refl eq_refl eq_refl)
    as (Hcompleted & Hfailed & Hsame & Hissued).
  split; [exact Hcompleted|]. split; [exact Hfailed|]. split; [exact Hsame|].
  apply Hissued.
  - repeat constructor. discriminate.
  - split.
    + repeat constructor. intros [].
    + intros k Hk. assert (k = 0%nat) as -> by (cbn in Hk; lia).
      intros [].
  - split.
    + repeat constructor; cbn; lia.
    + intros r k [<-|[]]. destruct k as [|[|k]]; cbn; unfold int4; lia.
Defined.

(** C3, as stated, fails: a confirmation that carries no signature at all,
    so that nothing could have verified it.  The payment is completed and
    its ticket is issued. *)
Lemma unsigned_confirmation_completes_the_payment :
  let w := Sample.world [Sample.tierA 10 0] []
             [Sample.pendingPayment Sample.cartA1] in
  let r := verifyPayment (Sample.verifyReq None) w in
  option_map Payment.status (getPayment "p1" w) = Some payment_pending
  /\ (exists t, fst r = VerifyJson true [t] /\ tickets (snd r) = [t])
  /\ option_map Payment.status (getPayment "p1" (snd r)) = Some payment_completed
  /\ option_map Payment.razorpaySignature (getPayment "p1" (snd r)) = Some None.
Proof.
  intros w r. split; [reflexivity|].
  split; [eexists; split; vm_compute; reflexivity|].
  split; vm_compute; reflexivity.
Qed.

(** ** A code that is already taken *)




(** ** Creating an order *)




Lemma createPayment_run (data : InsertPayment.t) (w : World) (ev : Event.t) :
  getEvent (InsertPayment.eventId data) w = Some ev ->
  createPayment data w
  = (let row :=
       Payment.mk (uuid w (nUuid w)) (InsertPayment.userId data)
         (InsertPayment.eventId data) None None None
         (InsertPayment.amount data) (InsertPayment.currency data)
         (InsertPayment.status data) (InsertPayment.ticketQuantity data)
         (InsertPayment.metadata data) None
         (Some (clock w (nClock w))) (Some (clock w (nClock w))) in
     (Returned row,
      with_payments (payments w ++ [row])
        (with_counters (nRandom w) (S (nUuid w)) (S (nClock w)) w))).
Proof.
  intros Hev. unfold createPayment. unfold bind at 1. unfold gets at 1.
  rewrite Hev. destruct w; reflexivity.
Qed.

Lemma updatePayment_run (id : string) (data : PaymentPatch.t) (w : World) :
  paymentIdTaken id (PaymentPatch.razorpayPaymentId data) w = false ->
  updatePayment id data w
  = (let w' :=
       with_payments
         (map (fun r => if Payment.id r === id
                        then patchPayment data (clock w (nClock w)) r else r)
              (payments w))
         (with_counters (nRandom w) (nUuid w) (S (nClock w)) w) in
     (Returned (getPayment id w'), w')).
Proof.
  intros Htaken. unfold updatePayment. unfold bind at 1. unfold newDate at 1.
  unfold bind at 1. unfold gets at 1.
  replace (paymentIdTaken id (PaymentPatch.razorpayPaymentId data)
             (with_counters (nRandom w) (nUuid w) (S (nClock w)) w))
    with false by (rewrite <- Htaken; destruct w; reflexivity).
  destruct w; reflexivity.
Qed.









(** The amount stored for the order of the witness: 1000.75, for a total
    of 2 * 499.5 + 7 * 0.25. *)
Example createOrder_amount_sample :
  let w := Sample.world [Sample.tierA 1 1] [] [] in
  let req := CreateOrderReq.mk (Some "bob") "E1"
               [CartItem.mk "tA" "VIP" (4995 # 10) 2;
                CartItem.mk "tZ" "Backstage" (1 # 4) 7] in
  option_map Payment.amount (getPayment "ua" (snd (createOrder req w)))
  = Some (100075 # 100)
  /\ option_map Payment.ticketQuantity (getPayment "ua" (snd (createOrder req w)))
     = Some 9.
Proof. split; vm_compute; reflexivity. Qed.

(** * Further properties *)

(** ** What a request can do to the tables *)

(** The world a scan leaves when the ticket is admitted: the ticket is
    marked, and the audit row is written unless its event is missing, in
    which case [createEntryScan] throws after the ticket has been marked. *)
Lemma scan_admitted_world (req : ScanReq.t) (userId : string) (w : World)
    (t : Ticket.t) (tier : TicketTier.t) :
  claimsSub (ScanReq.sub req) = Some userId ->
  getTicketByCode (ScanReq.ticketCode req) w = Some t ->
  getTicketTier (Ticket.ticketTierId t) w = Some tier ->
  TicketTier.eventId tier = ScanReq.eventId req ->
  Ticket.status t = ticket_confirmed \/ Ticket.status t = ticket_pending ->
  verifyScan req w
  = match getEvent (ScanReq.eventId req) w with
    | None =>
      (ErrorJson 500 "Failed to verify ticket",
       with_tickets (markScanned t userId w)
         (with_counters (nRandom w) (nUuid w) (S (S (nClock w))) w))
    | Some ev =>
      (ScanJson true EntryApproved "success"
         (Some (ScanTicket.mk t (Some (Event.name ev)) (TicketTier.name tier))),
       with_entryScans
         (entryScans w ++ [successScan t userId (ScanReq.eventId req) w])
         (with_tickets (markScanned t userId w)
            (with_counters (nRandom w) (S (nUuid w)) (S (S (S (nClock w)))) w)))
    end.
Proof.
  intros Hauth Hcode Htier Hev Hst.
  assert (Hs : TicketStatus_eqb (Ticket.status t) ticket_scanned = false)
    by (destruct Hst as [E|E]; rewrite E; reflexivity).
  assert (Hc : TicketStatus_eqb (Ticket.status t) ticket_cancelled
               || TicketStatus_eqb (Ticket.status t) ticket_refunded = false)
    by (destruct Hst as [E|E]; rewrite E; reflexivity).
  unfold verifyScan, tryCatch, verifyScanBody.
  rewrite Hauth. unfold bind at 1. unfold gets at 1.
  rewrite Hcode. unfold bind at 1. unfold gets at 1.
  rewrite Htier, Hev, String.eqb_refl, Hs, Hc. cbn [negb].
  unfold updateTicket, createEntryScan, bind, gets, modify, newDate, ret,
    gen_random_uuid, throw, getEvent, markScanned, successScan.
  destruct w as [ev' tt tk pm es rnd uu ck nr nu nc].
  cbn [events ticketTiers tickets payments entryScans random uuid clock
       nRandom nUuid nClock with_counters with_tickets with_entryScans
       InsertEntryScan.eventId InsertEntryScan.ticketId
       InsertEntryScan.scannedByUserId InsertEntryScan.scanResult].
  destruct (find (fun r : Event.t => Event.id r === ScanReq.eventId req) ev')
    eqn:E; cbn; rewrite ?E; reflexivity.
Qed.


(** A relation [R] between worlds that is transitive, holds between worlds
    with the same tables, and holds across each of the six writes the
    handlers perform (under what the handler has checked before the
    write) holds across every request, hence across every sequence of
    requests. *)
Section Transitions.

Variable R : World -> World -> Prop.

Hypothesis R_same : forall w w', sameTables w w' -> R w w'.

Hypothesis R_trans : forall w1 w2 w3, R w1 w2 -> R w2 w3 -> R w1 w3.

Hypothesis R_ticket :
  forall row w w',
    sameButTickets w w' ->
    tickets w' = (tickets w ++ [row])%list ->
    getTicketTier (Ticket.ticketTierId row) w <> None ->
    ~ In (Ticket.ticketCode row) (codes (tickets w)) ->
    Ticket.status row = ticket_confirmed ->
    Ticket.scannedAt row = None ->
    R w w'.

Hypothesis R_credit :
  forall id increment now w w',
    sameButTiers w w' ->
    ticketTiers w' = creditRows id increment now (ticketTiers w) ->
    R w w'.

Hypothesis R_scan :
  forall t scannedAt userId now w w',
    sameButTickets w w' ->
    tickets w' = scanRows (Ticket.id t) scannedAt userId now (tickets w) ->
    In t (tickets w) ->
    Ticket.status t = ticket_confirmed \/ Ticket.status t = ticket_pending ->
    R w w'.

Hypothesis R_audit :
  forall row w w',
    sameButScans w w' ->
    entryScans w' = (entryScans w ++ [row])%list ->
    EntryScan.scanResult row = "success" ->
    R w w'.

Hypothesis R_order :
  forall row w w',
    sameButPayments w w' ->
    payments w' = (payments w ++ [row])%list ->
    Payment.status row = payment_pending ->
    R w w'.

Hypothesis R_patch :
  forall id data now w w',
    sameButPayments w w' ->
    payments w' = patchRows id data now (payments w) ->
    PaymentPatch.status data = None
    \/ PaymentPatch.status data = Some payment_completed ->
    R w w'.

Lemma R_refl (w : World) : R w w.
Proof. apply R_same. repeat split. Qed.

Lemma R_counters (a b c : nat) (w : World) : R w (with_counters a b c w).
Proof. apply R_same. repeat split. Qed.

Lemma steps_ret {A} (a : A) : steps R (ret a).
Proof. intros w. apply R_refl. Qed.

Lemma steps_bind {A B} (m : M A) (k : A -> M B) :
  steps R m -> (forall a, steps R (k a)) -> steps R (bind m k).
Proof.
  intros Hm Hk w. unfold bind. specialize (Hm w).
  destruct (m w) as [[a|e] w1]; [|exact Hm].
  exact (R_trans _ _ _ Hm (Hk a w1)).
Qed.

Lemma steps_forTimes {A} (body : A -> M A) (n : nat) :
  (forall a, steps R (body a)) -> forall acc, steps R (forTimes n body acc).
Proof.
  intros Hbody. induction n as [|n IH]; intros acc.
  - apply steps_ret.
  - rewrite forTimes_S. apply steps_bind; [apply Hbody|exact IH].
Qed.

Lemma steps_forOf {A B} (body : B -> A -> M A) (xs : list B) :
  (forall x a, steps R (body x a)) -> forall acc, steps R (forOf xs body acc).
Proof.
  intros Hbody. induction xs as [|x xs IH]; intros acc.
  - apply steps_ret.
  - rewrite forOf_cons. apply steps_bind; [apply Hbody|exact IH].
Qed.

Lemma steps_tryCatch (body : M Response) (onError : Response) (w : World) :
  steps R body -> R w (snd (tryCatch body onError w)).
Proof.
  intros Hb. specialize (Hb w). unfold tryCatch.
  destruct (body w) as [[r|e] w1]; exact Hb.
Qed.

Lemma steps_issueOne (item : CartItem.t) (userId paymentId : string)
    (acc : list Ticket.t) :
  steps R (issueOne item userId paymentId acc).
Proof.
  intros w. rewrite issueOne_run.
  destruct (getTicketTier (CartItem.tierId item) w) as [tier|] eqn:Htier;
    [|apply R_counters].
  destruct (getTicketByCode (codeFrom (random w) (nRandom w)) w) eqn:Hcode;
    [apply R_counters|].
  cbn [snd].
  apply (R_ticket (issuedTicket item userId paymentId w)).
  - destruct w; repeat split.
  - destruct w; reflexivity.
  - cbn [issuedTicket Ticket.ticketTierId]. congruence.
  - apply getTicketByCode_none. exact Hcode.
  - reflexivity.
  - reflexivity.
Qed.

Lemma steps_updateTicketTierSoldCount (id : string) (increment : Z) :
  steps R (updateTicketTierSoldCount id increment).
Proof.
  intros w. rewrite updateTicketTierSoldCount_run. cbn [snd].
  apply (R_credit id increment (clock w (nClock w)));
    destruct w; repeat split.
Qed.

Lemma steps_issueAll (userId : string) (p : Payment.t) :
  steps R (issueAll userId p).
Proof.
  unfold issueAll. apply steps_bind; [|intros ts; apply steps_ret].
  apply steps_forOf. intros item acc. unfold issueLine.
  apply steps_bind; [apply steps_forTimes; intros; apply steps_issueOne|].
  intros ts. apply steps_bind; [apply steps_updateTicketTierSoldCount|].
  intros _. apply steps_ret.
Qed.

Lemma verifyPayment_step (req : VerifyPaymentReq.t) (w : World) :
  R w (snd (verifyPayment req w)).
Proof.
  destruct (claimsSub (VerifyPaymentReq.sub req)) as [userId|] eqn:Hauth;
    [|rewrite (verifyPayment_unauthorized req w Hauth); apply R_refl].
  destruct (getPaymentByRazorpayOrderId (VerifyPaymentReq.razorpayOrderId req) w)
    as [p|] eqn:Hfound;
    [|rewrite (verifyPayment_not_found req w userId Hauth Hfound); apply R_refl].
  rewrite (verifyPayment_run req w userId p Hauth Hfound).
  destruct (paymentIdTaken _ _ w); [apply R_counters|].
  apply (R_trans _ (markCompleted req p w)).
  - apply (R_patch (Payment.id p) (completion req w) (clock w (S (nClock w)))).
    + destruct w; repeat split.
    + destruct w; reflexivity.
    + right. reflexivity.
  - apply steps_tryCatch. apply steps_issueAll.
Qed.

Lemma createOrder_step (req : CreateOrderReq.t) (w : World) :
  R w (snd (createOrder req w)).
Proof.
  unfold createOrder, tryCatch, createOrderBody.
  destruct (claimsSub (CreateOrderReq.sub req)) as [userId|]; [|apply R_refl].
  unfold bind at 1.
  destruct (getEvent (CreateOrderReq.eventId req) w) as [ev|] eqn:Hev.
  - rewrite (createPayment_run _ w ev); [|exact Hev]. cbv zeta.
    unfold bind at 1. rewrite updatePayment_run; [|reflexivity]. cbv zeta.
    cbn [snd ret].
    match goal with
    | |- R w (with_payments _
                (with_counters _ _ _ (with_payments (_ ++ [?row]) ?c))) =>
        apply (R_trans _ (with_payments (payments w ++ [row]) c));
          [apply (R_order row); [| |reflexivity]; destruct w; repeat split|]
    end.
    apply (R_patch (uuid w (nUuid w))
             (PaymentPatch.mk (Some ("order_" ++ uuid w (nUuid w)))
                None None None None)
             (clock w (S (nClock w))));
      [destruct w; repeat split|destruct w; reflexivity|left; reflexivity].
  - unfold createPayment, bind, gets. cbn [InsertPayment.eventId].
    rewrite Hev. apply R_refl.
Qed.

Lemma scan_marks (req : ScanReq.t) (userId : string) (w : World)
    (t : Ticket.t) (tier : TicketTier.t) :
  claimsSub (ScanReq.sub req) = Some userId ->
  getTicketByCode (ScanReq.ticketCode req) w = Some t ->
  getTicketTier (Ticket.ticketTierId t) w = Some tier ->
  TicketTier.eventId tier = ScanReq.eventId req ->
  Ticket.status t = ticket_confirmed \/ Ticket.status t = ticket_pending ->
  R w (snd (verifyScan req w)).
Proof.
  intros Hauth Hcode Htier Hev Hst.
  rewrite (scan_admitted_world req userId w t tier Hauth Hcode Htier Hev Hst).
  assert (Hin : In t (tickets w)).
  { unfold getTicketByCode in Hcode. apply find_some in Hcode. apply Hcode. }
  assert (Hmark : R w (with_tickets (markScanned t userId w) w)).
  { apply (R_scan t (clock w (nClock w)) userId (clock w (S (nClock w))));
      [destruct w; repeat split|destruct w; reflexivity|exact Hin|exact Hst]. }
  destruct (getEvent (ScanReq.eventId req) w) as [ev|]; cbn [snd].
  - apply (R_trans _ _ _ Hmark).
    apply (R_audit (successScan t userId (ScanReq.eventId req) w));
      [destruct w; repeat split|destruct w; reflexivity|reflexivity].
  - apply (R_trans _ _ _ Hmark). apply R_same. destruct w; repeat split.
Qed.

Lemma verifyScan_step (req : ScanReq.t) (w : World) :
  R w (snd (verifyScan req w)).
Proof.
  destruct (claimsSub (ScanReq.sub req)) as [userId|] eqn:Hauth;
    [|unfold verifyScan, tryCatch, verifyScanBody; rewrite Hauth; apply R_refl].
  destruct (getTicketByCode (ScanReq.ticketCode req) w) as [t|] eqn:Hcode;
    [|rewrite (scan_unknown req userId Hauth w Hcode); apply R_refl].
  destruct (getTicketTier (Ticket.ticketTierId t) w) as [tier|] eqn:Htier;
    [|rewrite (scan_wrong_event req userId Hauth w t Hcode);
      [apply R_refl|congruence]].
  destruct (String.eqb_spec (TicketTier.eventId tier) (ScanReq.eventId req))
    as [Hev|Hev];
    [|rewrite (scan_wrong_event req userId Hauth w t Hcode);
      [apply R_refl|congruence]].
  destruct (Ticket.status t) eqn:Hst.
  - (* pending *)
    apply (scan_marks req userId w t tier Hauth Hcode Htier Hev (or_intror Hst)).
  - (* confirmed *)
    apply (scan_marks req userId w t tier Hauth Hcode Htier Hev (or_introl Hst)).
  - rewrite (scan_expired req userId Hauth w t tier Hcode Htier Hev (or_introl Hst)).
    apply R_refl.
  - rewrite (scan_expired req userId Hauth w t tier Hcode Htier Hev (or_intror Hst)).
    apply R_refl.
  - rewrite (scan_already_scanned req userId Hauth w t tier Hcode Htier Hev Hst).
    apply R_refl.
Qed.

(** Every request is a step of [R], and so is every sequence of requests. *)
Lemma handle_step (r : Request) (w : World) : R w (snd (handle r w)).
Proof.
  destruct r as [req|req|req].
  - apply createOrder_step.
  - apply verifyPayment_step.
  - apply verifyScan_step.
Qed.

Lemma run_steps (rs : list Request) : forall w, R w (run rs w).
Proof.
  induction rs as [|r rs IH]; intros w.
  - apply R_refl.
  - cbn [run fold_left]. apply (R_trans _ (snd (handle r w))).
    + apply handle_step.
    + apply IH.
Qed.

End Transitions.

(** ** Rows that are kept *)

Lemma Forall2_same {A} (P : A -> A -> Prop) (l : list A) :
  (forall x, P x x) -> Forall2 P l l.
Proof. intros H. induction l; constructor; auto. Qed.

Lemma Forall2_map_same {A} (P : A -> A -> Prop) (f : A -> A) (l : list A) :
  (forall x, P x (f x)) -> Forall2 P l (map f l).
Proof. intros H. induction l; cbn [map]; constructor; auto. Qed.

Lemma Forall2_chain {A} (P : A -> A -> Prop) :
  (forall x y z, P x y -> P y z -> P x z) ->
  forall l1 l2 l3, Forall2 P l1 l2 -> Forall2 P l2 l3 -> Forall2 P l1 l3.
Proof.
  intros Htrans l1 l2 l3 H12. revert l3.
  induction H12 as [|x y l1 l2 Hxy _ IH]; intros l3 H23.
  - inversion H23. constructor.
  - inversion H23 as [|? z ? l3' Hyz H23']; subst. constructor.
    + exact (Htrans _ _ _ Hxy Hyz).
    + exact (IH _ H23').
Qed.

(** Rows are only appended: a relation "the rows of the first table are
    kept, up to [P], at the front of the second" is transitive when [P]
    is. *)
Lemma kept_chain {A} (P : A -> A -> Prop) (l1 l2 l3 k1 n1 k2 n2 : list A) :
  (forall x y z, P x y -> P y z -> P x z) ->
  l2 = (k1 ++ n1)%list -> Forall2 P l1 k1 ->
  l3 = (k2 ++ n2)%list -> Forall2 P l2 k2 ->
  exists k n, l3 = (k ++ n)%list /\ Forall2 P l1 k.
Proof.
  intros Htrans -> H1 -> H2.
  apply Forall2_app_inv_l in H2. destruct H2 as (ka & kb & Ha & _ & ->).
  exists ka, (kb ++ n2)%list. split; [rewrite app_assoc; reflexivity|].
  exact (Forall2_chain P Htrans _ _ _ H1 Ha).
Qed.

Lemma sameTicket_refl (t : Ticket.t) : sameTicket t t.
Proof. repeat split. left. reflexivity. Qed.

Lemma sameTicket_trans (a b c : Ticket.t) :
  sameTicket a b -> sameTicket b c -> sameTicket a c.
Proof.
  unfold sameTicket. intros (A1 & A2 & A3 & A4 & A5 & A6 & A7)
    (B1 & B2 & B3 & B4 & B5 & B6 & B7).
  repeat split; try congruence.
  destruct B7 as [B7|B7]; [|right; exact B7].
  destruct A7 as [A7|A7]; [left|right]; congruence.
Qed.

Lemma samePayment_refl (p : Payment.t) : samePayment p p.
Proof. repeat split. left. reflexivity. Qed.

Lemma samePayment_trans (a b c : Payment.t) :
  samePayment a b -> samePayment b c -> samePayment a c.
Proof.
  unfold samePayment. intros (A1 & A2 & A3 & A4 & A5 & A6 & A7 & A8)
    (B1 & B2 & B3 & B4 & B5 & B6 & B7 & B8).
  repeat split; try congruence.
  destruct B8 as [B8|B8]; [|right; exact B8].
  destruct A8 as [A8|A8]; [left|right]; congruence.
Qed.

Lemma sameTier_refl (r : TicketTier.t) : sameTier r r.
Proof. repeat split; auto. Qed.

Lemma sameTier_trans (a b c : TicketTier.t) :
  sameTier a b -> sameTier b c -> sameTier a c.
Proof.
  unfold sameTier. intros (A1 & A2 & A3 & A4 & A5 & A6 & A7)
    (B1 & B2 & B3 & B4 & B5 & B6 & B7).
  repeat split; congruence.
Qed.

Lemma codes_scanRows (id : string) (scannedAt : Z) (userId : string) (now : Z)
    (l : list Ticket.t) :
  codes (scanRows id scannedAt userId now l) = codes l.
Proof.
  unfold codes, scanRows. rewrite map_map. apply map_ext.
  intros r. destruct (Ticket.id r === id); reflexivity.
Qed.

Lemma find_creditRows (tid id : string) (increment now : Z)
    (l : list TicketTier.t) :
  find (fun r => TicketTier.id r === tid) (creditRows id increment now l)
  = option_map (fun r => if TicketTier.id r === id
                         then bumpSoldCount increment now r else r)
      (find (fun r => TicketTier.id r === tid) l).
Proof.
  unfold creditRows. apply find_map_same. intros x.
  destruct (TicketTier.id x === id); reflexivity.
Qed.

(** ** Invariants over every sequence of requests *)

(** X1.  No sequence of requests makes two tickets share a code: if the
    codes of the tickets are pairwise distinct, they still are after any
    number of create-order, verify-payment and scan requests, whatever
    their outcome. *)
Theorem ticket_codes_stay_unique (rs : list Request) (w : World) :
  uniqueCodes w -> uniqueCodes (run rs w).
Proof.
  apply (run_steps (fun w w' => uniqueCodes w -> uniqueCodes w'));
    unfold uniqueCodes.
  - intros w0 w' (_ & _ & -> & _). auto.
  - auto.
  - intros row w0 w' _ -> _ Hfresh _ _ Hnd. unfold codes in *.
    rewrite map_app. apply NoDup_app; [exact Hnd|repeat constructor; intros []|].
    intros c Hc [<-|[]]. exact (Hfresh Hc).
  - intros id inc now w0 w' (_ & -> & _) _. auto.
  - intros t at_ u now w0 w' _ -> _ _. rewrite codes_scanRows. auto.
  - intros row w0 w' (_ & _ & -> & _) _ _. auto.
  - intros row w0 w' (_ & _ & -> & _) _ _. auto.
  - intros id data now w0 w' (_ & _ & -> & _) _ _. auto.
Qed.

Lemma ticket_codes_stay_unique_witness :
  uniqueCodes
    (run [VerifyPayment (Sample.verifyReq None);
          VerifyScan (Sample.scanReq "ABCDEFGH" "E1");
          VerifyPayment (Sample.verifyReq None)]
       (Sample.world [Sample.tierA 10 1]
          [Sample.ticketOf "JKLMNPQR" ticket_confirmed None]
          [Sample.pendingPayment Sample.cartA2])).
Proof.
  apply ticket_codes_stay_unique. repeat constructor. intros [].
Defined.

(** X2.  Referential integrity of tickets: if every ticket refers to a tier
    that exists, this is still so after any sequence of requests. *)
Theorem ticket_tiers_stay_present (rs : list Request) (w : World) :
  tiersExist w -> tiersExist (run rs w).
Proof.
  apply (run_steps (fun w w' => tiersExist w -> tiersExist w'));
    unfold tiersExist.
  - intros w0 w' (_ & Htt & -> & _) H. rewrite Forall_forall in *.
    intros t Ht. rewrite (same_tiers w0 w' _ Htt). auto.
  - auto.
  - intros row w0 w' (_ & Htt & _) -> Htier _ _ _ H. rewrite Forall_forall in *.
    intros t Ht. rewrite (same_tiers w0 w' _ Htt).
    apply in_app_or in Ht. destruct Ht as [Ht|[<-|[]]]; auto.
  - intros id inc now w0 w' (_ & -> & _) Htt H. rewrite Forall_forall in *.
    intros t Ht. specialize (H t Ht). unfold getTicketTier in *.
    rewrite Htt, find_creditRows.
    destruct (find _ (ticketTiers w0)); [discriminate|congruence].
  - intros t at_ u now w0 w' (_ & Htt & _) -> _ _ H. rewrite Forall_forall in *.
    intros t' Ht'. unfold scanRows in Ht'. apply in_map_iff in Ht'.
    destruct Ht' as (t0 & <- & Ht0). rewrite (same_tiers w0 w' _ Htt).
    specialize (H t0 Ht0).
    destruct (Ticket.id t0 === Ticket.id t); exact H.
  - intros row w0 w' (_ & Htt & -> & _) _ _ H. rewrite Forall_forall in *.
    intros t Ht. rewrite (same_tiers w0 w' _ Htt). auto.
  - intros row w0 w' (_ & Htt & -> & _) _ _ H. rewrite Forall_forall in *.
    intros t Ht. rewrite (same_tiers w0 w' _ Htt). auto.
  - intros id data now w0 w' (_ & Htt & -> & _) _ _ H. rewrite Forall_forall in *.
    intros t Ht. rewrite (same_tiers w0 w' _ Htt). auto.
Qed.

Lemma ticket_tiers_stay_present_witness :
  tiersExist
    (run [VerifyPayment (Sample.verifyReq None);
          VerifyScan (Sample.scanReq "ABCDEFGH" "E1")]
       (Sample.world [Sample.tierA 10 1]
          [Sample.ticketOf "JKLMNPQR" ticket_confirmed None]
          [Sample.pendingPayment Sample.cartA2])).
Proof.
  apply ticket_tiers_stay_present. repeat constructor. discriminate.
Defined.

(** X3.  The handlers write no audit row other than a success: if every
    row of the entry scans records ["success"], this is still so after any
    sequence of requests, rejected scans included. *)
Theorem entry_scans_record_only_successes (rs : list Request) (w : World) :
  onlySuccessScans w -> onlySuccessScans (run rs w).
Proof.
  apply (run_steps (fun w w' => onlySuccessScans w -> onlySuccessScans w'));
    unfold onlySuccessScans.
  - intros w0 w' (_ & _ & _ & _ & ->). auto.
  - auto.
  - intros row w0 w' (_ & _ & _ & ->) _ _ _ _ _. auto.
  - intros id inc now w0 w' (_ & _ & _ & ->) _. auto.
  - intros t at_ u now w0 w' (_ & _ & _ & ->) _ _ _. auto.
  - intros row w0 w' _ -> Hrow H. apply Forall_app. split; [exact H|].
    repeat constructor. exact Hrow.
  - intros row w0 w' (_ & _ & _ & ->) _ _. auto.
  - intros id data now w0 w' (_ & _ & _ & ->) _ _. auto.
Qed.

Lemma entry_scans_record_only_successes_witness :
  onlySuccessScans
    (run [VerifyScan (Sample.scanReq "ABCDEFGH" "E1");
          VerifyScan (Sample.scanReq "ABCDEFGH" "E1");
          VerifyScan (Sample.scanReq "ABCDEFGH" "E2");
          VerifyScan (Sample.scanReq "NOSUCHCODE" "E1")]
       (Sample.world [Sample.tierA 10 1]
          [Sample.ticketOf "ABCDEFGH" ticket_confirmed None] [])).
Proof.
  apply entry_scans_record_only_successes. constructor.
Defined.

Lemma scansCoherent_run (rs : list Request) (w : World) :
  scansCoherent w -> scansCoherent (run rs w).
Proof.
  apply (run_steps (fun w w' => scansCoherent w -> scansCoherent w'));
    unfold scansCoherent.
  - intros w0 w' (_ & _ & -> & _). auto.
  - auto.
  - intros row w0 w' _ -> _ _ Hst Hat H. apply Forall_app. split; [exact H|].
    repeat constructor; unfold scanCoherent; rewrite Hst, Hat;
      intros; congruence.
  - intros id inc now w0 w' (_ & -> & _) _. auto.
  - intros t at_ u now w0 w' _ -> _ _ H. rewrite Forall_forall in *.
    intros t' Ht'. unfold scanRows in Ht'. apply in_map_iff in Ht'.
    destruct Ht' as (t0 & <- & Ht0). specialize (H t0 Ht0).
    destruct (Ticket.id t0 === Ticket.id t); [|exact H].
    unfold scanCoherent. cbn. split; [reflexivity|discriminate].
  - intros row w0 w' (_ & _ & -> & _) _ _. auto.
  - intros row w0 w' (_ & _ & -> & _) _ _. auto.
  - intros id data now w0 w' (_ & _ & -> & _) _ _. auto.
Qed.

(** X4.  Status and scan time agree: if every ticket has a [scannedAt]
    exactly when its status is [scanned], this is still so after any
    sequence of requests (issuance creates tickets without a scan time,
    and a scan sets both in one update). *)
Theorem scan_time_agrees_with_status (rs : list Request) (w : World) :
  scansCoherent w -> scansCoherent (run rs w).
Proof. exact (scansCoherent_run rs w). Qed.

Lemma scan_time_agrees_with_status_witness :
  scansCoherent
    (run [VerifyPayment (Sample.verifyReq None);
          VerifyScan (Sample.scanReq "ABCDEFGH" "E1");
          VerifyScan (Sample.scanReq "JKLMNPQR" "E1")]
       (Sample.world [Sample.tierA 10 1]
          [Sample.ticketOf "JKLMNPQR" ticket_confirmed None]
          [Sample.pendingPayment Sample.cartA2])).
Proof.
  apply scan_time_agrees_with_status. repeat constructor; cbn; congruence.
Defined.

(** X5.  Tickets are never deleted, reordered or rewritten: after any
    sequence of requests the tickets table is the old one, row for row and
    followed by the new tickets, and each old row has kept its key, tier,
    owner, payment, code and time of purchase; its status is what it was
    or has become [scanned] (no route cancels or refunds a ticket, and a
    scanned ticket stays scanned). *)
Theorem tickets_are_kept (rs : list Request) (w : World) :
  ticketsKept w (run rs w).
Proof.
  apply (run_steps ticketsKept); unfold ticketsKept.
  - intros w0 w' (_ & _ & -> & _). exists (tickets w0), [].
    split; [rewrite app_nil_r; reflexivity|].
    apply Forall2_same, sameTicket_refl.
  - intros w1 w2 w3 (k1 & n1 & E1 & H1) (k2 & n2 & E2 & H2).
    exact (kept_chain sameTicket _ _ _ k1 n1 k2 n2 sameTicket_trans E1 H1 E2 H2).
  - intros row w0 w' _ -> _ _ _ _. exists (tickets w0), [row].
    split; [reflexivity|]. apply Forall2_same, sameTicket_refl.
  - intros id inc now w0 w' (_ & -> & _) _. exists (tickets w0), [].
    split; [rewrite app_nil_r; reflexivity|].
    apply Forall2_same, sameTicket_refl.
  - intros t at_ u now w0 w' _ -> _ _.
    exists (scanRows (Ticket.id t) at_ u now (tickets w0)), [].
    split; [rewrite app_nil_r; reflexivity|].
    apply Forall2_map_same. intros x.
    destruct (Ticket.id x === Ticket.id t); [|apply sameTicket_refl].
    repeat split. right. reflexivity.
  - intros row w0 w' (_ & _ & -> & _) _ _. exists (tickets w0), [].
    split; [rewrite app_nil_r; reflexivity|].
    apply Forall2_same, sameTicket_refl.
  - intros row w0 w' (_ & _ & -> & _) _ _. exists (tickets w0), [].
    split; [rewrite app_nil_r; reflexivity|].
    apply Forall2_same, sameTicket_refl.
  - intros id data now w0 w' (_ & _ & -> & _) _ _. exists (tickets w0), [].
    split; [rewrite app_nil_r; reflexivity|].
    apply Forall2_same, sameTicket_refl.
Qed.

(** X6.  Payments are never deleted or re-priced: after any sequence of
    requests the payments table is the old one, row for row and followed
    by the new payments, and each old row has kept its key, user, event,
    amount, currency, ticket quantity and cart; its status is what it was
    or has become [completed] (no route marks a payment failed or
    refunded, and a completed payment stays completed). *)
Theorem payments_are_kept (rs : list Request) (w : World) :
  paymentsKept w (run rs w).
Proof.
  apply (run_steps paymentsKept); unfold paymentsKept.
  - intros w0 w' (_ & _ & _ & -> & _). exists (payments w0), [].
    split; [rewrite app_nil_r; reflexivity|].
    apply Forall2_same, samePayment_refl.
  - intros w1 w2 w3 (k1 & n1 & E1 & H1) (k2 & n2 & E2 & H2).
    exact (kept_chain samePayment _ _ _ k1 n1 k2 n2 samePayment_trans
             E1 H1 E2 H2).
  - intros row w0 w' (_ & _ & -> & _) _ _ _ _ _. exists (payments w0), [].
    split; [rewrite app_nil_r; reflexivity|].
    apply Forall2_same, samePayment_refl.
  - intros id inc now w0 w' (_ & _ & -> & _) _. exists (payments w0), [].
    split; [rewrite app_nil_r; reflexivity|].
    apply Forall2_same, samePayment_refl.
  - intros t at_ u now w0 w' (_ & _ & -> & _) _ _ _. exists (payments w0), [].
    split; [rewrite app_nil_r; reflexivity|].
    apply Forall2_same, samePayment_refl.
  - intros row w0 w' (_ & _ & _ & ->) _ _. exists (payments w0), [].
    split; [rewrite app_nil_r; reflexivity|].
    apply Forall2_same, samePayment_refl.
  - intros row w0 w' _ -> _. exists (payments w0), [row].
    split; [reflexivity|]. apply Forall2_same, samePayment_refl.
  - intros id data now w0 w' _ -> Hst.
    exists (patchRows id data now (payments w0)), [].
    split; [rewrite app_nil_r; reflexivity|].
    apply Forall2_map_same. intros x.
    destruct (Payment.id x === id); [|apply samePayment_refl].
    repeat split. cbn. destruct Hst as [-> | ->]; cbn; auto.
Qed.

Lemma tiersKept_run (rs : list Request) (w : World) :
  tiersKept w (run rs w).
Proof.
  apply (run_steps tiersKept); unfold tiersKept.
  - intros w0 w' (-> & -> & _). split; [|reflexivity].
    apply Forall2_same, sameTier_refl.
  - intros w1 w2 w3 (H1 & E1) (H2 & E2). split; [|congruence].
    exact (Forall2_chain sameTier sameTier_trans _ _ _ H1 H2).
  - intros row w0 w' (-> & -> & _) _ _ _ _ _. split; [|reflexivity].
    apply Forall2_same, sameTier_refl.
  - intros id inc now w0 w' (-> & _) ->. split; [|reflexivity].
    apply Forall2_map_same. intros x.
    destruct (TicketTier.id x === id); [|apply sameTier_refl].
    repeat split.
  - intros t at_ u now w0 w' (-> & -> & _) _ _ _. split; [|reflexivity].
    apply Forall2_same, sameTier_refl.
  - intros row w0 w' (-> & -> & _) _ _. split; [|reflexivity].
    apply Forall2_same, sameTier_refl.
  - intros row w0 w' (-> & -> & _) _ _. split; [|reflexivity].
    apply Forall2_same, sameTier_refl.
  - intros id data now w0 w' (-> & -> & _) _ _. split; [|reflexivity].
    apply Forall2_same, sameTier_refl.
Qed.

(** X7.  The three routes change nothing of a tier but its sold count (and
    the time of its last update): after any sequence of requests the
    events are the same and the tiers are the same rows in the same order,
    each with its key, event, name, price, quantity, limit per order and
    activity unchanged. *)
Theorem tiers_are_kept (rs : list Request) (w : World) :
  tiersKept w (run rs w).
Proof. exact (tiersKept_run rs w). Qed.

(** ** The shape of a ticket code *)

Lemma length_append (s1 s2 : string) :
  String.length (s1 ++ s2) = (String.length s1 + String.length s2)%nat.
Proof. induction s1 as [|c s1 IH]; cbn; [reflexivity|]. rewrite IH. reflexivity. Qed.

Lemma list_ascii_of_append (s1 s2 : string) :
  list_ascii_of_string (s1 ++ s2)
  = (list_ascii_of_string s1 ++ list_ascii_of_string s2)%list.
Proof. induction s1 as [|c s1 IH]; cbn; [reflexivity|]. rewrite IH. reflexivity. Qed.

(** [Math.floor(r * n)] is an index of a string of length [n] when [r] is
    in [[0, 1)]. *)
Lemma floor_of_draw (r : Q) (n : Z) :
  0 < n -> (0 <= r)%Q -> (r < 1)%Q -> 0 <= Qfloor (r * inject_Z n) < n.
Proof.
  intros Hn H0 H1. split.
  - change 0 with (Qfloor (inject_Z 0)) at 1. apply Qfloor_resp_le.
    apply Qmult_le_0_compat; [exact H0|].
    change 0%Q with (inject_Z 0). rewrite <- Zle_Qle. lia.
  - rewrite Zlt_Qlt. apply Qle_lt_trans with (r * inject_Z n)%Q;
      [apply Qfloor_le|].
    setoid_replace (inject_Z n) with (1 * inject_Z n)%Q at 2 by ring.
    apply Qmult_lt_compat_r; [|exact H1].
    change 0%Q with (inject_Z 0). rewrite <- Zlt_Qlt. exact Hn.
Qed.

Lemma charAt_chars_in (i : Z) :
  0 <= i < 32 ->
  exists c, charAt chars i = String c "" /\ In c alphabet.
Proof.
  intros Hi. unfold charAt. destruct (Z.ltb_spec i 0) as [H|_]; [lia|].
  assert (Hn : (Z.to_nat i < 32)%nat) by lia.
  generalize dependent (Z.to_nat i). intros n Hn.
  do 32 (destruct n as [|n];
         [eexists; split; [reflexivity|unfold alphabet; cbn; tauto]|]).
  lia.
Qed.

Lemma codeChars_shape (rnd : nat -> Q) (n : nat) :
  forall (start : nat) (code : string),
    (forall k, (k < n)%nat ->
               (0 <= rnd (start + k)%nat)%Q /\ (rnd (start + k)%nat < 1)%Q) ->
    Forall (fun c => In c alphabet) (list_ascii_of_string code) ->
    String.length (codeChars rnd n start code) = (String.length code + n)%nat
    /\ Forall (fun c => In c alphabet)
              (list_ascii_of_string (codeChars rnd n start code)).
Proof.
  induction n as [|n IH]; intros start code Hrnd Hcode; cbn [codeChars].
  - split; [lia|exact Hcode].
  - destruct (Hrnd 0%nat ltac:(lia)) as [H0 H1]. rewrite Nat.add_0_r in H0, H1.
    destruct (charAt_chars_in
                (Qfloor (rnd start * inject_Z (Z.of_nat (String.length chars)))))
      as (c & Hc & Hin).
    { change (Z.of_nat (String.length chars)) with 32.
      apply floor_of_draw; [lia|exact H0|exact H1]. }
    rewrite Hc. destruct (IH (S start) (code ++ String c "")) as [Hlen Hall].
    + intros k Hk. replace (S start + k)%nat with (start + S k)%nat by lia.
      apply Hrnd. lia.
    + rewrite list_ascii_of_append. apply Forall_app. split; [exact Hcode|].
      cbn [list_ascii_of_string]. constructor; [exact Hin|constructor].
    + split; [|exact Hall]. rewrite Hlen, length_append. cbn. lia.
Qed.

(** X8.  Whatever values of [[0, 1)] [Math.random()] returns,
    [generateTicketCode] returns a code of exactly eight characters, each
    of them one of the 32 characters of the alphabet
    [ABCDEFGHJKLMNPQRSTUVWXYZ23456789]; it makes eight draws and touches
    nothing else. *)
Theorem ticket_code_has_eight_characters_of_the_alphabet (w : World) :
  (forall k, (k < 8)%nat ->
             (0 <= random w (nRandom w + k)%nat)%Q
             /\ (random w (nRandom w + k)%nat < 1)%Q) ->
  exists code,
    generateTicketCode w
    = (Returned code, with_counters (8 + nRandom w) (nUuid w) (nClock w) w)
    /\ String.length code = 8%nat
    /\ Forall (fun c => In c alphabet) (list_ascii_of_string code).
Proof.
  intros Hrnd. exists (codeFrom (random w) (nRandom w)).
  split; [apply generateTicketCode_run|].
  unfold codeFrom.
  destruct (codeChars_shape (random w) 8 (nRandom w) "" Hrnd) as [Hlen Hall];
    [constructor|].
  split; [exact Hlen|exact Hall].
Qed.

Lemma ticket_code_has_eight_characters_of_the_alphabet_witness :
  exists code,
    generateTicketCode (Sample.world [] [] [])
    = (Returned code,
       with_counters 8 0 0 (Sample.world [] [] []))
    /\ String.length code = 8%nat
    /\ Forall (fun c => In c alphabet) (list_ascii_of_string code).
Proof.
  apply (ticket_code_has_eight_characters_of_the_alphabet (Sample.world [] [] [])).
  intros k Hk. cbn [Sample.world random nRandom Nat.add].
  do 8 (destruct k as [|k]; [split; [discriminate|reflexivity]|]). lia.
Defined.

(** ** Who is let in *)

(** The handler approves an entry exactly when the caller is identified,
    the code is the code of a ticket, the tier of that ticket exists and
    belongs to the event of the request, the ticket is neither scanned nor
    cancelled nor refunded, and the event exists. *)
Lemma verifyScan_approves_iff (req : ScanReq.t) (w : World) :
  (exists message scanResult ticket,
     fst (verifyScan req w) = ScanJson true message scanResult ticket)
  <-> (exists userId t tier ev,
         claimsSub (ScanReq.sub req) = Some userId
         /\ getTicketByCode (ScanReq.ticketCode req) w = Some t
         /\ getTicketTier (Ticket.ticketTierId t) w = Some tier
         /\ TicketTier.eventId tier = ScanReq.eventId req
         /\ (Ticket.status t = ticket_confirmed
             \/ Ticket.status t = ticket_pending)
         /\ getEvent (ScanReq.eventId req) w = Some ev).
Proof.
  split.
  - intros (m & r & st & Hrun).
    destruct (claimsSub (ScanReq.sub req)) as [userId|] eqn:Hauth.
    2:{ unfold verifyScan, tryCatch, verifyScanBody in Hrun.
        rewrite Hauth in Hrun. discriminate. }
    destruct (getTicketByCode (ScanReq.ticketCode req) w) as [t|] eqn:Hcode.
    2:{ rewrite (scan_unknown req userId Hauth w Hcode) in Hrun. discriminate. }
    destruct (getTicketTier (Ticket.ticketTierId t) w) as [tier|] eqn:Htier.
    2:{ rewrite (scan_wrong_event req userId Hauth w t Hcode) in Hrun;
          [discriminate|]. intros tier Ht. rewrite Htier in Ht. discriminate. }
    destruct (String.eqb_spec (TicketTier.eventId tier) (ScanReq.eventId req))
      as [Hev|Hev].
    2:{ rewrite (scan_wrong_event req userId Hauth w t Hcode) in Hrun;
          [discriminate|]. intros tier' Ht. rewrite Htier in Ht.
        injection Ht as <-. exact Hev. }
    destruct (Ticket.status t) eqn:Hst.
    + destruct (getEvent (ScanReq.eventId req) w) as [ev|] eqn:Hevent.
      * exists userId, t, tier, ev. auto 10.
      * rewrite (scan_admitted_world req userId w t tier Hauth Hcode Htier Hev)
          in Hrun by auto. rewrite Hevent in Hrun. discriminate.
    + destruct (getEvent (ScanReq.eventId req) w) as [ev|] eqn:Hevent.
      * exists userId, t, tier, ev. auto 10.
      * rewrite (scan_admitted_world req userId w t tier Hauth Hcode Htier Hev)
          in Hrun by auto. rewrite Hevent in Hrun. discriminate.
    + rewrite (scan_expired req userId Hauth w t tier Hcode Htier Hev) in Hrun
        by auto. discriminate.
    + rewrite (scan_expired req userId Hauth w t tier Hcode Htier Hev) in Hrun
        by auto. discriminate.
    + rewrite (scan_already_scanned req userId Hauth w t tier Hcode Htier Hev Hst)
        in Hrun. discriminate.
  - intros (userId & t & tier & ev & Hauth & Hcode & Htier & Hev & Hst & Hevent).
    rewrite (scan_admitted_world req userId w t tier Hauth Hcode Htier Hev Hst).
    rewrite Hevent. do 3 eexists. reflexivity.
Qed.

(** ** Whose tickets, whose payment *)



(** X11.  A Razorpay payment id that another payment already carries is
    refused: the update of the payment violates the unique constraint
    before anything is written, the handler answers
    [500 "Failed to verify payment"], and every table is as it was: the
    payment is not completed and no ticket is issued. *)
Theorem payment_id_of_another_payment_is_refused
    (req : VerifyPaymentReq.t) (w : World) (p q : Payment.t)
    (userId pid : string) :
  claimsSub (VerifyPaymentReq.sub req) = Some userId ->
  getPaymentByRazorpayOrderId (VerifyPaymentReq.razorpayOrderId req) w = Some p ->
  VerifyPaymentReq.razorpayPaymentId req = Some pid ->
  In q (payments w) ->
  Payment.id q <> Payment.id p ->
  Payment.razorpayPaymentId q = Some pid ->
  fst (verifyPayment req w) = ErrorJson 500 "Failed to verify payment"
  /\ sameTables w (snd (verifyPayment req w)).
Proof.
  intros Hauth Hfound Hpid Hq Hne Hqpid.
  rewrite (verifyPayment_run req w userId p Hauth Hfound).
  replace (paymentIdTaken (Payment.id p) (VerifyPaymentReq.razorpayPaymentId req) w)
    with true.
  - split; [reflexivity|]. destruct w; repeat split.
  - symmetry. unfold paymentIdTaken. rewrite Hpid. apply andb_true_iff. split.
    + apply existsb_exists. exists p. split; [|apply String.eqb_refl].
      unfold getPaymentByRazorpayOrderId in Hfound.
      exact (proj1 (find_some _ _ Hfound)).
    + apply existsb_exists. exists q. split; [exact Hq|].
      apply andb_true_iff. split.
      * apply negb_true_iff, String.eqb_neq. exact Hne.
      * rewrite Hqpid. cbn. apply String.eqb_refl.
Qed.

Lemma payment_id_of_another_payment_is_refused_witness :
  let earlier :=
    Payment.mk "p0" "bob" "E1" (Some "order_p0") (Some "pay_1") None
      (500 # 1) "INR" payment_completed 1 Sample.cartA1 (Some 5) (Some 1)
      (Some 5) in
  let w := Sample.world [Sample.tierA 10 1] []
             [earlier; Sample.pendingPayment Sample.cartA2] in
  fst (verifyPayment (Sample.verifyReq None) w)
  = ErrorJson 500 "Failed to verify payment"
  /\ sameTables w (snd (verifyPayment (Sample.verifyReq None) w)).
Proof.
  intros earlier w.
  apply (payment_id_of_another_payment_is_refused (Sample.verifyReq None) w
           (Sample.pendingPayment Sample.cartA2) earlier "alice" "pay_1").
  - reflexivity.
  - reflexivity.
  - reflexivity.
  - left. reflexivity.
  - discriminate.
  - reflexivity.
Defined.

(** X12.  The payment is completed before issuance starts and nothing
    undoes it: once the payment is found and its payment id is accepted,
    the payment is completed, with the payment id and the signature of the
    request, in the world the handler leaves, whether it answers with the
    tickets or with [500 "Failed to verify payment"]. *)
Theorem payment_is_completed_whatever_issuance_does
    (req : VerifyPaymentReq.t) (w : World) (p : Payment.t) (userId : string) :
  claimsSub (VerifyPaymentReq.sub req) = Some userId ->
  getPaymentByRazorpayOrderId (VerifyPaymentReq.razorpayOrderId req) w = Some p ->
  paymentIdTaken (Payment.id p) (VerifyPaymentReq.razorpayPaymentId req) w = false ->
  exists p',
    getPaymentByRazorpayOrderId (VerifyPaymentReq.razorpayOrderId req)
      (snd (verifyPayment req w)) = Some p'
    /\ Payment.status p' = payment_completed
    /\ Payment.completedAt p' = Some (clock w (nClock w))
    /\ Payment.razorpayPaymentId p'
       = orKeep (VerifyPaymentReq.razorpayPaymentId req)
                (Payment.razorpayPaymentId p)
    /\ Payment.razorpaySignature p'
       = orKeep (VerifyPaymentReq.razorpaySignature req)
                (Payment.razorpaySignature p).
Proof.
  intros Hauth Hfound Htaken.
  rewrite (verifyPayment_run req w userId p Hauth Hfound), Htaken.
  exists (patchPayment (completion req w) (clock w (S (nClock w))) p).
  split; [|repeat split].
  rewrite <- (markCompleted_found req w p Hfound).
  unfold getPaymentByRazorpayOrderId.
  rewrite (issueAll_keeps_payments userId p (markCompleted req p w)).
  reflexivity.
Qed.

Lemma payment_is_completed_whatever_issuance_does_witness :
  let w := Sample.world [] [] [Sample.pendingPayment Sample.cartA2] in
  let req := Sample.verifyReq (Some "sig") in
  fst (verifyPayment req w) = ErrorJson 500 "Failed to verify payment"
  /\ exists p',
       getPaymentByRazorpayOrderId "order_p1" (snd (verifyPayment req w))
       = Some p'
       /\ Payment.status p' = payment_completed
       /\ Payment.completedAt p' = Some 1000
       /\ Payment.razorpayPaymentId p' = Some "pay_1"
       /\ Payment.razorpaySignature p' = Some "sig".
Proof.
  intros w req. split; [reflexivity|].
  apply (payment_is_completed_whatever_issuance_does req w
           (Sample.pendingPayment Sample.cartA2) "alice"); reflexivity.
Defined.

(** ** From the order to the tickets *)





(** ** The sold count and the tickets *)

Lemma filter_repeat_length (tid x : string) (n : nat) :
  length (filter (fun y => y === tid) (repeat x n))
  = if x === tid then n else 0%nat.
Proof.
  induction n as [|n IH]; cbn [repeat filter].
  - destruct (x === tid); reflexivity.
  - destruct (x === tid) eqn:E; [cbn [length]; rewrite IH|exact IH]; reflexivity.
Qed.

Lemma count_tiersOfCart (tid : string) (items : list CartItem.t) :
  Forall (fun item => 0 <= CartItem.quantity item) items ->
  Z.of_nat (length (filter (fun y => y === tid) (tiersOfCart items)))
  = lineTotal tid items.
Proof.
  induction 1 as [|item items Hq _ IH]; [reflexivity|].
  cbn [tiersOfCart flat_map lineTotal fold_right].
  fold (tiersOfCart items). fold (lineTotal tid items).
  rewrite filter_app, length_app, Nat2Z.inj_add, IH, filter_repeat_length.
  unfold iterations. destruct (CartItem.tierId item === tid); lia.
Qed.

Lemma filter_map_length {A B} (f : A -> B) (p : B -> bool) (l : list A) :
  length (filter p (map f l)) = length (filter (fun a => p (f a)) l).
Proof.
  induction l as [|a l IH]; cbn [map filter]; [reflexivity|].
  destruct (p (f a)); cbn [length]; rewrite IH; reflexivity.
Qed.

(** X14.  The ledger of a tier and its tickets move together when no line
    of the cart has a negative quantity: a successful verification raises
    the sold count of every tier by exactly the number of tickets it has
    issued for that tier. *)
Theorem sold_count_grows_by_the_tickets_issued
    (req : VerifyPaymentReq.t) (w w' : World) (p : Payment.t)
    (ts : list Ticket.t) :
  getPaymentByRazorpayOrderId (VerifyPaymentReq.razorpayOrderId req) w = Some p ->
  verifyPayment req w = (VerifyJson true ts, w') ->
  Forall (fun item => 0 <= CartItem.quantity item) (Payment.metadata p) ->
  forall tid,
    soldCountOf tid w'
    = option_map
        (fun s => s + Z.of_nat (length (filter
                                          (fun t => Ticket.ticketTierId t === tid)
                                          ts)))
        (soldCountOf tid w).
Proof.
  intros Hfound Hrun Hq tid.
  destruct (verifyPayment_effect req w p Hfound ts w' Hrun)
    as (_ & _ & _ & Hmap & _ & Hsold & _).
  rewrite (proj1 (Hsold tid)), <- (count_tiersOfCart tid _ Hq), <- Hmap.
  rewrite (filter_map_length Ticket.ticketTierId (fun y => y === tid)).
  reflexivity.
Qed.

Lemma sold_count_grows_by_the_tickets_issued_witness :
  let w := Sample.world [Sample.tierA 10 3; Sample.tierB 5 0] []
             [Sample.pendingPayment Sample.cartAB] in
  let r := verifyPayment (Sample.verifyReq None) w in
  soldCountOf "tA" (snd r)
  = option_map
      (fun s => s + Z.of_nat (length (filter
                                        (fun t => Ticket.ticketTierId t === "tA")
                                        (Sample.issued (fst r)))))
      (soldCountOf "tA" w).
Proof.
  intros w r.
  apply (sold_count_grows_by_the_tickets_issued (Sample.verifyReq None) w (snd r)
           (Sample.pendingPayment Sample.cartAB) (Sample.issued (fst r))).
  - reflexivity.
  - vm_compute. reflexivity.
  - repeat constructor; discriminate.
Defined.





(** ** A line that cannot be issued *)





(** ** Who may scan *)

Lemma includes_In (roles : list string) (role : string) :
  includes roles role = true -> In role roles.
Proof.
  unfold includes. intros H. apply existsb_exists in H.
  destruct H as (r & Hr & E). apply String.eqb_eq in E. subst r. exact Hr.
Qed.

(** X17.  Only staff can scan.  On [POST /api/scans/verify] a caller who
    has no row in [users], or whose role is none of [admin], [organiser]
    and [gatekeeper], is answered 401 or 403 by [requireRole]; the handler
    does not run, so no ticket is marked and no audit row is written. *)
Theorem scanning_requires_a_staff_role
    (users : list User.t) (isAuthenticated : bool) (req : ScanReq.t) (w : World) :
  (forall userId user,
     claimsSub (ScanReq.sub req) = Some userId ->
     getUser userId users = Some user ->
     ~ In (User.role user) scanRoles) ->
  exists status error,
    scansVerifyRoute users isAuthenticated req w = (ErrorJson status error, w)
    /\ (status = 401%nat \/ status = 403%nat).
Proof.
  intros Hrole. unfold scansVerifyRoute, requireRole.
  destruct isAuthenticated; cbn [negb]; [|eauto].
  destruct (claimsSub (ScanReq.sub req)) as [userId|] eqn:Hsub; [|eauto].
  destruct (getUser userId users) as [user|] eqn:Huser; [|eauto].
  destruct (includes scanRoles
              (if User.role user === "" then "user" else User.role user))
    eqn:Hinc; cbn [negb]; [|eauto].
  exfalso. apply includes_In in Hinc.
  destruct (User.role user === "") eqn:E.
  - cbn in Hinc. intuition discriminate.
  - exact (Hrole userId user eq_refl Huser Hinc).
Qed.

Lemma scanning_requires_a_staff_role_witness :
  let users := [User.mk "gate1" "gatekeeper" None; User.mk "alice" "user" None] in
  let w := Sample.world [Sample.tierA 10 1]
             [Sample.ticketOf "ABCDEFGH" ticket_confirmed None] [] in
  exists status error,
    scansVerifyRoute users true (ScanReq.mk (Some "alice") "ABCDEFGH" "E1") w
    = (ErrorJson status error, w)
    /\ (status = 401%nat \/ status = 403%nat).
Proof.
  intros users w. apply scanning_requires_a_staff_role.
  intros userId user Hsub Huser. injection Hsub as <-.
  injection Huser as <-. cbn. intuition discriminate.
Defined.

(** [requireRole] calls [next()] for the staff of the gate, and for them
    only. *)
Lemma requireRole_next (users : list User.t) (isAuthenticated : bool)
    (sub : option string) :
  requireRole scanRoles users isAuthenticated sub = None
  <-> isAuthenticated = true
      /\ exists userId user,
           claimsSub sub = Some userId
           /\ getUser userId users = Some user
           /\ In (User.role user) scanRoles.
Proof.
  unfold requireRole. split.
  - destruct isAuthenticated; cbn [negb]; [|discriminate].
    destruct (claimsSub sub) as [userId|] eqn:Hsub; [|discriminate].
    destruct (getUser userId users) as [user|] eqn:Huser; [|discriminate].
    destruct (includes scanRoles
                (if User.role user === "" then "user" else User.role user))
      eqn:Hinc; cbn [negb]; [|discriminate].
    intros _. split; [reflexivity|]. exists userId, user.
    split; [reflexivity|]. split; [exact Huser|].
    apply includes_In in Hinc. destruct (User.role user === "");
      [cbn in Hinc; intuition discriminate|exact Hinc].
  - intros (-> & userId & user & -> & -> & Hrole). cbn [negb].
    replace (User.role user === "") with false.
    + replace (includes scanRoles (User.role user)) with true; [reflexivity|].
      symmetry. unfold includes. apply existsb_exists.
      exists (User.role user). split; [exact Hrole|apply String.eqb_refl].
    + symmetry. apply String.eqb_neq. intros E. rewrite E in Hrole.
      cbn in Hrole. intuition discriminate.
Qed.

(** X9.  [POST /api/scans/verify], from [requireRole] on (the middleware
    [isAuthenticated] has passed the request on), approves an entry
    exactly when the caller is authenticated and identified, has a row in [users] with the
    role [admin], [organiser] or [gatekeeper], the code is the code of a
    ticket, the tier of that ticket exists and belongs to the event of the
    request, the ticket is neither scanned nor cancelled nor refunded (a
    ticket that is still [pending] is let in like a [confirmed] one), and
    the event exists.  In every other case the answer is not an
    approval. *)
Theorem scan_approves_exactly_the_open_tickets
    (users : list User.t) (isAuthenticated : bool) (req : ScanReq.t) (w : World) :
  (exists message scanResult ticket,
     fst (scansVerifyRoute users isAuthenticated req w)
     = ScanJson true message scanResult ticket)
  <-> (isAuthenticated = true
       /\ exists userId user t tier ev,
            claimsSub (ScanReq.sub req) = Some userId
            /\ getUser userId users = Some user
            /\ In (User.role user) scanRoles
            /\ getTicketByCode (ScanReq.ticketCode req) w = Some t
            /\ getTicketTier (Ticket.ticketTierId t) w = Some tier
            /\ TicketTier.eventId tier = ScanReq.eventId req
            /\ (Ticket.status t = ticket_confirmed
                \/ Ticket.status t = ticket_pending)
            /\ getEvent (ScanReq.eventId req) w = Some ev).
Proof.
  unfold scansVerifyRoute.
  destruct (requireRole scanRoles users isAuthenticated (ScanReq.sub req))
    as [response|] eqn:Hrole.
  - split.
    + intros (m & r & t & H). cbn [fst] in H. unfold requireRole in Hrole.
      destruct (negb isAuthenticated); [congruence|].
      destruct (claimsSub (ScanReq.sub req)) as [userId|]; [|congruence].
      destruct (getUser userId users) as [user|]; [|congruence].
      destruct (negb _); congruence.
    + intros (Hauth & userId & user & t & tier & ev & Hsub & Huser & Hin & _).
      assert (H : requireRole scanRoles users isAuthenticated (ScanReq.sub req)
                  = None).
      { apply requireRole_next. split; [exact Hauth|]. exists userId, user. auto. }
      congruence.
  - apply requireRole_next in Hrole.
    destruct Hrole as (Hauth & userId & user & Hsub & Huser & Hin).
    rewrite verifyScan_approves_iff. split.
    + intros (userId' & t & tier & ev & Hsub' & Hrest).
      rewrite Hsub in Hsub'. injection Hsub' as <-.
      split; [exact Hauth|]. exists userId, user, t, tier, ev. tauto.
    + intros (_ & userId' & user' & t & tier & ev & Hsub' & _ & _ & Hrest).
      exists userId', t, tier, ev. tauto.
Qed.

(** ** The figures of an event *)

Lemma mathMin_none (xs : list Q) : mathMin xs = None -> xs = [].
Proof.
  destruct xs as [|x xs]; [reflexivity|]. cbn [mathMin].
  destruct (mathMin xs); discriminate.
Qed.

Lemma mathMin_least (xs : list Q) (m : Q) :
  mathMin xs = Some m -> In m xs /\ forall x, In x xs -> (m <= x)%Q.
Proof.
  revert m. induction xs as [|x xs IH]; intros m; cbn [mathMin]; [discriminate|].
  destruct (mathMin xs) as [m'|] eqn:E.
  - destruct (IH m' eq_refl) as [Hin Hle].
    destruct (Qle_bool x m') eqn:Hb; intros H; injection H as <-.
    + apply Qle_bool_iff in Hb. split; [left; reflexivity|].
      intros y [<-|Hy]; [apply Qle_refl|].
      exact (Qle_trans _ _ _ Hb (Hle y Hy)).
    + assert (Hlt : (m' <= x)%Q).
      { destruct (Qlt_le_dec m' x) as [H|H]; [apply Qlt_le_weak; exact H|].
        apply Qle_bool_iff in H. congruence. }
      split; [right; exact Hin|].
      intros y [<-|Hy]; [exact Hlt|exact (Hle y Hy)].
  - apply mathMin_none in E. subst xs. intros H. injection H as <-.
    split; [left; reflexivity|]. intros y [<-|[]]. apply Qle_refl.
Qed.

(** X18.  The [lowestPrice] that [GET /api/events] adds to an event is the
    least price among the active tiers of the event: it is the price of
    one of them, and no active tier is cheaper.  When the event has no
    active tier (no tier at all, or only inactive ones) it is 0. *)
Theorem lowest_price_is_the_least_active_price (tiers : list TicketTier.t) :
  let active := filter (fun t => truthy (TicketTier.isActive t)) tiers in
  match active with
  | [] => lowestPrice tiers = 0%Q
  | _ =>
    (exists t, In t active /\ lowestPrice tiers = TicketTier.price t)
    /\ forall t, In t active -> (lowestPrice tiers <= TicketTier.price t)%Q
  end.
Proof.
  intros active. unfold lowestPrice. destruct tiers as [|t0 tiers]; [reflexivity|].
  fold active. destruct active as [|a rest] eqn:Hactive; [reflexivity|].
  destruct (mathMin (map TicketTier.price (a :: rest))) as [m|] eqn:E.
  - destruct (mathMin_least _ m E) as [Hin Hle]. split.
    + apply in_map_iff in Hin. destruct Hin as (t & <- & Ht). exists t.
      split; [exact Ht|reflexivity].
    + intros t Ht. apply Hle. apply in_map. exact Ht.
  - apply mathMin_none in E. discriminate.
Qed.

(** ** The dashboard *)

Lemma filter_all {A} (p : A -> bool) (l : list A) :
  (forall x, In x l -> p x = true) -> filter p l = l.
Proof.
  induction l as [|a l IH]; intros H; cbn [filter]; [reflexivity|].
  rewrite (H a (or_introl eq_refl)), IH; [reflexivity|].
  intros x Hx. apply H. right. exact Hx.
Qed.

(** X19.  On the dashboard, [pendingScans] is never anything but
    [activeTickets].  [getDashboardStats] counts the caller's [confirmed]
    tickets and, among them, those without a scan time; as a scan sets
    status and scan time together, a confirmed ticket has none.  Starting
    from tables where status and scan time agree, the two figures are
    equal in every answer of [getDashboardStats], after every sequence of
    requests and whatever the query of the completed payments returns. *)
Theorem pending_scans_equal_active_tickets
    (users : list User.t) (organizationId : Event.t -> string)
    (completedPaymentsQuery : list string -> option (list Payment.t))
    (userId : string) (rs : list Request) (w : World)
    (stats : DashboardStats.t) :
  scansCoherent w ->
  getDashboardStats users organizationId completedPaymentsQuery userId (run rs w)
  = Some stats ->
  DashboardStats.pendingScans stats = DashboardStats.activeTickets stats.
Proof.
  intros Hw Hstats. pose proof (scansCoherent_run rs w Hw) as Hrun.
  unfold scansCoherent in Hrun. rewrite Forall_forall in Hrun.
  unfold getDashboardStats in Hstats.
  match type of Hstats with
  | match ?e with _ => _ end = _ =>
    destruct e as [[totalEvents totalRevenue]|]; [|discriminate]
  end.
  injection Hstats as <-.
  cbn [DashboardStats.pendingScans DashboardStats.activeTickets].
  f_equal. apply filter_all. intros t Ht. apply filter_In in Ht.
  destruct Ht as [Ht Hp]. apply andb_true_iff in Hp. destruct Hp as [_ Hst].
  destruct (Ticket.scannedAt t) eqn:Hat; [|reflexivity].
  assert (Hs : Ticket.status t = ticket_scanned)
    by (apply (Hrun t Ht); rewrite Hat; discriminate).
  rewrite Hs in Hst. discriminate.
Qed.

Lemma pending_scans_equal_active_tickets_witness :
  let w := run [VerifyPayment (Sample.verifyReq None);
                VerifyScan (Sample.scanReq "ABCDEFGH" "E1")]
             (Sample.world [Sample.tierA 10 1]
                [Sample.ticketOf "ZYXWVUTS" ticket_confirmed None]
                [Sample.pendingPayment Sample.cartA2]) in
  let stats := DashboardStats.mk 0 2 0%Q 2 in
  getDashboardStats [User.mk "alice" "user" None] (fun _ => "org1")
    (fun _ => None) "alice" w
  = Some stats
  /\ DashboardStats.pendingScans stats = DashboardStats.activeTickets stats.
Proof.
  intros w stats. split; [vm_compute; reflexivity|].
  apply (pending_scans_equal_active_tickets [User.mk "alice" "user" None]
           (fun _ => "org1") (fun _ => None) "alice"
           [VerifyPayment (Sample.verifyReq None);
            VerifyScan (Sample.scanReq "ABCDEFGH" "E1")]
           (Sample.world [Sample.tierA 10 1]
              [Sample.ticketOf "ZYXWVUTS" ticket_confirmed None]
              [Sample.pendingPayment Sample.cartA2])).
  - repeat constructor; cbn; congruence.
  - vm_compute. reflexivity.
Defined.

(** ** Rows with distinct keys *)

Lemma find_unique {A} (key : A -> string) (l : list A) (x : A) :
  NoDup (map key l) -> In x l ->
  find (fun y => key y === key x) l = Some x.
Proof.
  induction l as [|a l IH]; intros Hnd Hin; [destruct Hin|].
  inversion Hnd as [|? ? Hnotin Hnd']; subst. cbn [find].
  destruct Hin as [->|Hin]; [rewrite String.eqb_refl; reflexivity|].
  destruct (String.eqb_spec (key a) (key x)) as [E|_]; [|exact (IH Hnd' Hin)].
  exfalso. apply Hnotin. rewrite E. apply in_map. exact Hin.
Qed.

(** ** The cart of the event page *)

Section EventPage.

Variable ticketTiers : list TicketTier.t.
Hypothesis distinct_keys : NoDup (map TicketTier.id ticketTiers).

Lemma same_key_same_tier (t1 t2 : TicketTier.t) :
  In t1 ticketTiers -> In t2 ticketTiers ->
  TicketTier.id t1 = TicketTier.id t2 -> t1 = t2.
Proof.
  clear -distinct_keys. induction ticketTiers as [|a l IH]; [intros []|].
  inversion distinct_keys as [|? ? Hnotin Hnd]; subst.
  intros [->|H1] [->|H2] E; auto.
  - exfalso. apply Hnotin. rewrite E. apply in_map. exact H2.
  - exfalso. apply Hnotin. rewrite <- E. apply in_map. exact H1.
Qed.

Lemma find_tier (tier : TicketTier.t) :
  In tier ticketTiers ->
  find (fun t => TicketTier.id t === TicketTier.id tier) ticketTiers = Some tier.
Proof. exact (find_unique TicketTier.id ticketTiers tier distinct_keys). Qed.

Lemma mapGet_some (key : string) (cart : Cart) (item : CartItem.t) :
  mapGet key cart = Some item -> In (key, item) cart.
Proof.
  unfold mapGet. destruct (find _ cart) as [[k v]|] eqn:E; [|discriminate].
  intros H. injection H as <-. apply find_some in E. destruct E as [Hin E].
  cbn in E. apply String.eqb_eq in E. subst k. exact Hin.
Qed.

Lemma mapGet_none (key : string) (cart : Cart) :
  mapGet key cart = None -> ~ In key (map fst cart).
Proof.
  unfold mapGet. destruct (find _ cart) as [e|] eqn:E; [discriminate|].
  intros _ Hin. apply in_map_iff in Hin. destruct Hin as (e & <- & He).
  pose proof (find_none _ _ E e He) as H. cbn in H.
  rewrite String.eqb_refl in H. discriminate.
Qed.

Lemma cartOk_set (tier : TicketTier.t) (value : CartItem.t) (cart : Cart) :
  In tier ticketTiers -> lineOf tier value -> cartOk ticketTiers cart ->
  cartOk ticketTiers (mapSet (TicketTier.id tier) value cart).
Proof.
  intros Hin Hline [Hnd Hall]. unfold mapSet.
  destruct (existsb _ cart) eqn:Hex.
  - split.
    + replace (map fst (map _ cart)) with (map fst cart); [exact Hnd|].
      rewrite map_map. apply map_ext. intros [k v]. cbn.
      destruct (String.eqb_spec k (TicketTier.id tier)) as [->|_]; reflexivity.
    + rewrite Forall_forall in *. intros e He. apply in_map_iff in He.
      destruct He as (e0 & <- & He0).
      destruct (fst e0 === TicketTier.id tier); [|exact (Hall e0 He0)].
      exists tier. cbn. auto.
  - split.
    + rewrite map_app. cbn [map fst]. apply NoDup_app; [exact Hnd| |].
      * repeat constructor. intros [].
      * intros k Hk [<-|[]]. apply in_map_iff in Hk.
        destruct Hk as (e & Hke & He).
        assert (H : existsb (fun entry => fst entry === TicketTier.id tier) cart
                    = true).
        { apply existsb_exists. exists e. split; [exact He|].
          rewrite Hke. apply String.eqb_refl. }
        congruence.
    + apply Forall_app. split; [exact Hall|]. constructor; [|constructor].
      exists tier. cbn. auto.
Qed.

Lemma cartOk_delete (key : string) (cart : Cart) :
  cartOk ticketTiers cart -> cartOk ticketTiers (mapDelete key cart).
Proof.
  intros [Hnd Hall]. unfold mapDelete. split.
  - clear Hall. induction cart as [|e cart IH]; [constructor|].
    inversion Hnd as [|? ? Hnotin Hnd']; subst. cbn [filter].
    destruct (negb (fst e === key)); [|exact (IH Hnd')].
    cbn [map]. constructor; [|exact (IH Hnd')].
    intros H. apply Hnotin. apply in_map_iff in H.
    destruct H as (x & Hx & Hin). apply filter_In in Hin.
    rewrite <- Hx. apply in_map. exact (proj1 Hin).
  - rewrite Forall_forall in *. intros e He. apply filter_In in He.
    exact (Hall e (proj1 He)).
Qed.

(** What the card shows as the quantity of a tier is 0 or the quantity of
    a line of that tier. *)
Lemma cartQuantity_line (tier : TicketTier.t) (cart : Cart) :
  In tier ticketTiers -> cartOk ticketTiers cart ->
  cartQuantity tier cart = 0
  \/ 1 <= cartQuantity tier cart
     <= Z.min (available tier) (maxPerOrderOf tier).
Proof.
  intros Hin [_ Hall]. unfold cartQuantity.
  destruct (mapGet (TicketTier.id tier) cart) as [item|] eqn:E; [|left; reflexivity].
  right. apply mapGet_some in E. rewrite Forall_forall in Hall.
  destruct (Hall _ E) as (tier' & Hin' & Hid & Hline). cbn in Hid, Hline.
  rewrite <- (same_key_same_tier tier' tier Hin' Hin Hid).
  exact (proj2 (proj2 (proj2 Hline))).
Qed.

Lemma cartOk_click (disabled : bool) (c : Click) (cart : Cart) :
  In (clickedTier c) ticketTiers -> cartOk ticketTiers cart ->
  cartOk ticketTiers (click ticketTiers disabled c cart).
Proof.
  intros Hin Hok. unfold click.
  destruct (isSoldOut (clickedTier c) || disabled); [exact Hok|].
  pose proof (cartQuantity_line _ cart Hin Hok) as Hq.
  destruct c as [tier|tier]; cbn [clickedTier] in *.
  - destruct (Z.eqb_spec (cartQuantity tier cart) 0) as [_|Hne]; [exact Hok|].
    unfold handleUpdateCart. rewrite (find_tier tier Hin).
    destruct (Z.leb_spec (cartQuantity tier cart - 1) 0) as [_|Hgt];
      [apply cartOk_delete; exact Hok|].
    apply cartOk_set; [exact Hin| |exact Hok].
    unfold lineOf. cbn. repeat split; lia.
  - unfold canAdd.
    destruct (Z.ltb_spec (cartQuantity tier cart)
                (Z.min (available tier) (maxPerOrderOf tier))) as [Hlt|_];
      [|exact Hok].
    cbn [negb]. unfold handleUpdateCart. rewrite (find_tier tier Hin).
    destruct (Z.leb_spec (cartQuantity tier cart + 1) 0) as [Hle|_]; [lia|].
    apply cartOk_set; [exact Hin| |exact Hok].
    unfold lineOf. cbn. repeat split; lia.
Qed.

Lemma cartOk_clicks (disabled : bool) (clicks : list Click) :
  forall cart,
    Forall (fun c => In (clickedTier c) ticketTiers) clicks ->
    cartOk ticketTiers cart ->
    cartOk ticketTiers
      (fold_left (fun cart c => click ticketTiers disabled c cart) clicks cart).
Proof.
  induction clicks as [|c clicks IH]; intros cart Hall Hok; [exact Hok|].
  inversion Hall as [|? ? Hc Hrest]; subst. cbn [fold_left].
  apply IH; [exact Hrest|]. apply cartOk_click; assumption.
Qed.

End EventPage.

(** X22.  The cart of the event page stays within what the cards allow.
    Whatever sequence of clicks on the plus and minus buttons of the
    tiers displayed, the cart holds at most one line per tier, and every
    line carries the name and the price of its tier and a quantity of at
    least 1 and at most [min(quantity - soldCount, maxPerOrder || 10)] of
    that tier.  The tiers displayed have distinct keys. *)
Theorem cart_stays_within_what_the_cards_allow
    (ticketTiers : list TicketTier.t) (disabled : bool) (clicks : list Click) :
  NoDup (map TicketTier.id ticketTiers) ->
  Forall (fun c => In (clickedTier c) ticketTiers) clicks ->
  let items := mapValues (cartAfter ticketTiers disabled clicks) in
  NoDup (map CartItem.tierId items)
  /\ Forall (fun item => exists tier, In tier ticketTiers /\ lineOf tier item)
            items.
Proof.
  intros Hnd Hclicks items.
  destruct (cartOk_clicks ticketTiers Hnd disabled clicks [] Hclicks)
    as [Hkeys Hall].
  { split; constructor. }
  fold (cartAfter ticketTiers disabled clicks) in Hkeys, Hall.
  subst items. unfold mapValues. rewrite Forall_forall in Hall. split.
  - replace (map CartItem.tierId (map snd (cartAfter ticketTiers disabled clicks)))
      with (map fst (cartAfter ticketTiers disabled clicks)); [exact Hkeys|].
    rewrite map_map. apply map_ext_in. intros e He.
    destruct (Hall e He) as (tier & _ & Hid & Hline & _). congruence.
  - rewrite Forall_forall. intros item Hitem. apply in_map_iff in Hitem.
    destruct Hitem as (e & <- & He).
    destruct (Hall e He) as (tier & Hin & _ & Hline). exists tier. auto.
Qed.

Lemma cart_stays_within_what_the_cards_allow_witness :
  let tierA := Sample.tierA 3 1 in
  let tierB := Sample.tierB 50 0 in
  let items :=
    mapValues
      (cartAfter [tierA; tierB] false
         [Increase tierA; Increase tierA; Increase tierA; Increase tierB;
          Decrease tierB; Decrease tierB; Increase tierB]) in
  NoDup (map CartItem.tierId items)
  /\ Forall (fun item => exists tier, In tier [tierA; tierB] /\ lineOf tier item)
            items.
Proof.
  intros tierA tierB.
  apply (cart_stays_within_what_the_cards_allow [tierA; tierB] false).
  - repeat constructor; cbn; intuition discriminate.
  - repeat constructor; cbn; tauto.
Defined.

(** ** The page and the server *)




(** ** The sales figure of an event *)

Lemma fold_left_sold (l : list TicketTier.t) (a : Z) :
  fold_left (fun sum t => sum + TicketTier.soldCount t) l a = a + ticketsSold l.
Proof.
  unfold ticketsSold. revert a.
  induction l as [|t l IH]; intros a; cbn [fold_left]; [lia|].
  rewrite (IH (a + TicketTier.soldCount t)), (IH (0 + TicketTier.soldCount t)).
  lia.
Qed.

Lemma ticketsSold_cons (t : TicketTier.t) (l : list TicketTier.t) :
  ticketsSold (t :: l) = TicketTier.soldCount t + ticketsSold l.
Proof. unfold ticketsSold at 1. cbn [fold_left]. rewrite fold_left_sold. lia. Qed.

Lemma ticketsSold_perm (l l' : list TicketTier.t) :
  Permutation l l' -> ticketsSold l = ticketsSold l'.
Proof.
  induction 1 as [|x l l' _ IH|x y l|l1 l2 l3 _ IH1 _ IH2].
  - reflexivity.
  - rewrite !ticketsSold_cons, IH. reflexivity.
  - rewrite !ticketsSold_cons. lia.
  - congruence.
Qed.

(** Rows whose sold counts have grown by [c] of their key. *)
Lemma ticketsSold_rows (c : string -> Z) (l l' : list TicketTier.t) :
  Forall2 (fun r r' => TicketTier.soldCount r'
                       = TicketTier.soldCount r + c (TicketTier.id r)) l l' ->
  ticketsSold l'
  = ticketsSold l + fold_right (fun k acc => c k + acc) 0 (map TicketTier.id l).
Proof.
  induction 1 as [|r r' l l' Hr _ IH]; [reflexivity|].
  rewrite !ticketsSold_cons, IH, Hr. cbn [map fold_right]. lia.
Qed.

Lemma Forall2_filter {A} (P : A -> A -> Prop) (f : A -> bool) (l l' : list A) :
  (forall x y, P x y -> f y = f x) ->
  Forall2 P l l' -> Forall2 P (filter f l) (filter f l').
Proof.
  intros Hf. induction 1 as [|x y l l' Hxy _ IH]; [constructor|].
  cbn [filter]. rewrite (Hf x y Hxy). destruct (f x); [constructor|]; assumption.
Qed.

Lemma NoDup_map_filter {A B} (g : A -> B) (f : A -> bool) (l : list A) :
  NoDup (map g l) -> NoDup (map g (filter f l)).
Proof.
  induction l as [|a l IH]; intros Hnd; [constructor|].
  inversion Hnd as [|? ? Hnotin Hnd']; subst. cbn [filter].
  destruct (f a); [|exact (IH Hnd')]. cbn [map]. constructor; [|exact (IH Hnd')].
  intros H. apply Hnotin. apply in_map_iff in H. destruct H as (x & Hx & Hin).
  apply filter_In in Hin. rewrite <- Hx. apply in_map. exact (proj1 Hin).
Qed.

(** Counting the elements of [xs] key by key, over distinct keys, counts
    the elements of [xs] that are one of the keys. *)
Lemma count_by_key (keys xs : list string) :
  NoDup keys ->
  fold_right (fun k acc => Z.of_nat (length (filter (fun x => x === k) xs)) + acc)
             0 keys
  = Z.of_nat (length (filter (fun x => existsb (fun k => k === x) keys) xs)).
Proof.
  induction keys as [|k keys IH]; intros Hnd; cbn [fold_right existsb].
  - replace (filter (fun _ => false) xs) with (@nil string); [reflexivity|].
    induction xs as [|x xs IHx]; [reflexivity|exact IHx].
  - inversion Hnd as [|? ? Hnotin Hnd']; subst. rewrite (IH Hnd').
    clear IH Hnd Hnd'. induction xs as [|x xs IHx]; [reflexivity|].
    cbn [filter]. destruct (String.eqb_spec x k) as [->|Hne].
    + rewrite String.eqb_refl. cbn [orb].
      replace (existsb (fun k0 => k0 === k) keys) with false.
      * cbn [length]. lia.
      * symmetry. apply not_true_is_false. intros H. apply existsb_exists in H.
        destruct H as (k0 & Hk0 & E). apply String.eqb_eq in E. subst k0.
        exact (Hnotin Hk0).
    + replace (k === x) with false
        by (symmetry; apply String.eqb_neq; congruence).
      cbn [orb]. destruct (existsb (fun k0 => k0 === x) keys); cbn [length]; lia.
Qed.

Lemma existsb_perm {A} (f : A -> bool) (l l' : list A) :
  Permutation l l' -> existsb f l = existsb f l'.
Proof.
  intros Hp. destruct (existsb f l') eqn:E.
  - apply existsb_exists in E. destruct E as (x & Hx & Hfx).
    apply existsb_exists. exists x. split; [|exact Hfx].
    exact (Permutation_in x (Permutation_sym Hp) Hx).
  - apply not_true_is_false. intros H. apply existsb_exists in H.
    destruct H as (x & Hx & Hfx).
    assert (existsb f l' = true); [|congruence].
    apply existsb_exists. exists x. split; [|exact Hfx].
    exact (Permutation_in x Hp Hx).
Qed.

Lemma existsb_mapped {A B} (g : A -> B) (f : B -> bool) (l : list A) :
  existsb f (map g l) = existsb (fun a => f (g a)) l.
Proof.
  induction l as [|a l IH]; cbn [map existsb]; [reflexivity|].
  rewrite IH. reflexivity.
Qed.

(** The rows of the tiers after a successful verification. *)
Lemma verified_rows (req : VerifyPaymentReq.t) (w w' : World) (p : Payment.t)
    (ts : list Ticket.t) :
  getPaymentByRazorpayOrderId (VerifyPaymentReq.razorpayOrderId req) w = Some p ->
  verifyPayment req w = (VerifyJson true ts, w') ->
  Forall (fun item => 0 <= CartItem.quantity item) (Payment.metadata p) ->
  NoDup (map TicketTier.id (ticketTiers w)) ->
  Forall2 (fun r r' =>
             TicketTier.eventId r' = TicketTier.eventId r
             /\ TicketTier.soldCount r'
                = TicketTier.soldCount r
                  + Z.of_nat (length (filter
                                        (fun x => x === TicketTier.id r)
                                        (map Ticket.ticketTierId ts))))
          (ticketTiers w) (ticketTiers w').
Proof.
  intros Hfound Hrun Hq Hnd.
  destruct (verifyPayment_effect req w p Hfound ts w' Hrun)
    as (_ & _ & _ & Hmap & _ & Hsold & _).
  pose proof (tiersKept_run [VerifyPayment req] w) as [Hkept _].
  cbn [run fold_left handle] in Hkept. rewrite Hrun in Hkept. cbn [snd] in Hkept.
  assert (Hids : map TicketTier.id (ticketTiers w')
                 = map TicketTier.id (ticketTiers w)).
  { clear -Hkept. induction Hkept as [|r r' l l' Hr _ IH]; [reflexivity|].
    cbn [map]. rewrite IH, (proj1 Hr). reflexivity. }
  assert (Hnd' : NoDup (map TicketTier.id (ticketTiers w')))
    by (rewrite Hids; exact Hnd).
  assert (Hrows : forall r r', In r (ticketTiers w) -> In r' (ticketTiers w') ->
                               TicketTier.id r' = TicketTier.id r ->
                               TicketTier.soldCount r'
                               = TicketTier.soldCount r
                                 + lineTotal (TicketTier.id r) (Payment.metadata p)).
  { intros r r' Hr Hr' Hid. pose proof (proj1 (Hsold (TicketTier.id r))) as H.
    unfold soldCountOf, getTicketTier in H.
    pose proof (find_unique TicketTier.id _ r' Hnd' Hr') as E'. rewrite Hid in E'.
    rewrite (find_unique TicketTier.id _ r Hnd Hr), E' in H. cbn [option_map] in H.
    injection H as H. exact H. }
  assert (Hall : Forall2 (fun r r' => In r (ticketTiers w) /\ In r' (ticketTiers w')
                                      /\ sameTier r r')
                         (ticketTiers w) (ticketTiers w')).
  { clear -Hkept. induction Hkept as [|r r' l l' Hr _ IH]; [constructor|].
    constructor; [cbn; auto|].
    eapply Forall2_impl; [|exact IH]. cbn. intros a b (Ha & Hb & Hab). auto. }
  eapply Forall2_impl; [|exact Hall]. cbn beta.
  intros r r' (Hr & Hr' & Hid & Hev & _). split; [exact Hev|].
  rewrite (Hrows r r' Hr Hr' Hid), <- (count_tiersOfCart _ _ Hq), Hmap.
  reflexivity.
Qed.

(** X24.  The sales figure that [GET /api/events] shows for an event
    follows the tickets.  When no line of the cart has a negative quantity
    and the keys of the tiers are distinct, a successful verification
    raises the [ticketsSold] of every event by the number of tickets it
    has issued for tiers of that event. *)
Theorem tickets_sold_grows_by_the_tickets_of_the_event
    (req : VerifyPaymentReq.t) (w w' : World) (p : Payment.t)
    (ts : list Ticket.t) (eventId : string) (tiers tiers' : list TicketTier.t) :
  getPaymentByRazorpayOrderId (VerifyPaymentReq.razorpayOrderId req) w = Some p ->
  verifyPayment req w = (VerifyJson true ts, w') ->
  Forall (fun item => 0 <= CartItem.quantity item) (Payment.metadata p) ->
  NoDup (map TicketTier.id (ticketTiers w)) ->
  isEventTicketTiers eventId w tiers ->
  isEventTicketTiers eventId w' tiers' ->
  ticketsSold tiers'
  = ticketsSold tiers
    + Z.of_nat (length (filter
                          (fun t => existsb (fun r => TicketTier.id r
                                                      === Ticket.ticketTierId t)
                                            tiers)
                          ts)).
Proof.
  intros Hfound Hrun Hq Hnd Htiers Htiers'. unfold isEventTicketTiers in *.
  pose proof (verified_rows req w w' p ts Hfound Hrun Hq Hnd) as Hrows.
  set (selected := fun t => TicketTier.eventId t === eventId) in *.
  assert (Hsel : Forall2
                   (fun r r' =>
                      TicketTier.soldCount r'
                      = TicketTier.soldCount r
                        + Z.of_nat (length (filter
                                              (fun x => x === TicketTier.id r)
                                              (map Ticket.ticketTierId ts))))
                   (filter selected (ticketTiers w))
                   (filter selected (ticketTiers w'))).
  { eapply Forall2_impl; [|apply (Forall2_filter _ selected); [|exact Hrows]].
    - cbn beta. intros a b [_ H]. exact H.
    - intros x y [E _]. unfold selected. rewrite E. reflexivity. }
  rewrite (ticketsSold_perm _ _ Htiers), (ticketsSold_perm _ _ Htiers').
  rewrite (ticketsSold_rows
             (fun k => Z.of_nat (length (filter (fun x => x === k)
                                                (map Ticket.ticketTierId ts))))
             _ _ Hsel).
  f_equal. rewrite count_by_key by (apply NoDup_map_filter; exact Hnd).
  rewrite filter_map_length. f_equal. f_equal. apply filter_ext. intros t.
  rewrite (existsb_perm _ _ _ Htiers). apply existsb_mapped.
Qed.

Lemma tickets_sold_grows_by_the_tickets_of_the_event_witness :
  let w := Sample.world
             [Sample.tierA 10 3; Sample.tierB 5 0;
              TicketTier.mk "tC" "E2" "Stall" (50 # 1) 20 7 None (Some true) None]
             [] [Sample.pendingPayment Sample.cartAB] in
  let r := verifyPayment (Sample.verifyReq None) w in
  ticketsSold (rev (filter (fun t => TicketTier.eventId t === "E1")
                           (ticketTiers (snd r))))
  = ticketsSold [Sample.tierB 5 0; Sample.tierA 10 3]
    + Z.of_nat (length (filter
                          (fun t => existsb (fun r => TicketTier.id r
                                                      === Ticket.ticketTierId t)
                                            [Sample.tierB 5 0; Sample.tierA 10 3])
                          (Sample.issued (fst r)))).
Proof.
  intros w r.
  apply (tickets_sold_grows_by_the_tickets_of_the_event (Sample.verifyReq None) w
           (snd r) (Sample.pendingPayment Sample.cartAB) (Sample.issued (fst r))
           "E1").
  - reflexivity.
  - vm_compute. reflexivity.
  - repeat constructor; discriminate.
  - repeat constructor; cbn; intuition discriminate.
  - apply perm_swap.
  - apply Permutation_sym, Permutation_rev.
Defined.

(** ** From the purchase to the gate *)

(** X25.  A ticket that has been issued is let in.  After a successful
    verification, a scan of the code of any of the tickets issued, posted
    to [/api/scans/verify] for the event of its tier by an authenticated
    scanner whose role is [admin], [organiser] or [gatekeeper], is
    approved by [requireRole] and the handler (the middleware
    [isAuthenticated] has passed the request on): the code resolves to that ticket and to no other, the answer
    shows the ticket with the names of its event and tier, and the ticket
    is left scanned by the scanner. *)
Theorem issued_ticket_is_admitted
    (users : list User.t) (vreq : VerifyPaymentReq.t) (sreq : ScanReq.t)
    (w w' : World) (p : Payment.t) (ts : list Ticket.t) (t : Ticket.t)
    (scanner : string) (user : User.t) (tier : TicketTier.t) (ev : Event.t) :
  getPaymentByRazorpayOrderId (VerifyPaymentReq.razorpayOrderId vreq) w = Some p ->
  verifyPayment vreq w = (VerifyJson true ts, w') ->
  In t ts ->
  getTicketTier (Ticket.ticketTierId t) w' = Some tier ->
  getEvent (TicketTier.eventId tier) w' = Some ev ->
  claimsSub (ScanReq.sub sreq) = Some scanner ->
  getUser scanner users = Some user ->
  In (User.role user) scanRoles ->
  ScanReq.ticketCode sreq = Ticket.ticketCode t ->
  ScanReq.eventId sreq = TicketTier.eventId tier ->
  exists w'' t',
    scansVerifyRoute users true sreq w'
    = (ScanJson true EntryApproved "success"
         (Some (ScanTicket.mk t (Some (Event.name ev)) (TicketTier.name tier))),
       w'')
    /\ getTicketByCode (Ticket.ticketCode t) w'' = Some t'
    /\ Ticket.id t' = Ticket.id t
    /\ Ticket.status t' = ticket_scanned
    /\ Ticket.scannedByUserId t' = Some scanner.
Proof.
  intros Hfound Hrun Hin Htier Hev Hauth Huser Hrole Hcode Heid.
  unfold scansVerifyRoute.
  rewrite (proj2 (requireRole_next users true (ScanReq.sub sreq)))
    by (split; [reflexivity|]; exists scanner, user; auto).
  destruct (verifyPayment_effect vreq w p Hfound ts w' Hrun)
    as (u & _ & (Htk & Hnd & Hfresh) & _ & Hall & _).
  assert (Hlookup : getTicketByCode (Ticket.ticketCode t) w' = Some t).
  { unfold getTicketByCode. rewrite Htk, find_app_none.
    - exact (find_unique Ticket.ticketCode ts t Hnd Hin).
    - apply (proj2 (getTicketByCode_none (Ticket.ticketCode t) w)).
      apply Hfresh. apply in_map. exact Hin. }
  assert (Hst : Ticket.status t = ticket_confirmed).
  { rewrite Forall_forall in Hall. exact (proj1 (Hall t Hin)). }
  rewrite <- Hcode in Hlookup. rewrite <- Heid in Hev.
  rewrite (scan_admitted_world sreq scanner w' t tier Hauth Hlookup Htier
             (eq_sym Heid) (or_introl Hst)), Hev.
  do 2 eexists. split; [reflexivity|].
  unfold getTicketByCode in *. rewrite Hcode in Hlookup.
  replace (tickets _) with (markScanned t scanner w') by (destruct w'; reflexivity).
  unfold markScanned. rewrite find_map_same.
  - rewrite Hlookup. cbn [option_map]. rewrite String.eqb_refl.
    split; [reflexivity|]. repeat split.
  - intros x. destruct (Ticket.id x === Ticket.id t); reflexivity.
Qed.

Lemma issued_ticket_is_admitted_witness :
  let w := Sample.world [Sample.tierA 10 0] []
             [Sample.pendingPayment Sample.cartA2] in
  let r := verifyPayment (Sample.verifyReq None) w in
  let t := nth 1 (Sample.issued (fst r)) (Sample.ticketOf "" ticket_pending None) in
  Ticket.ticketCode t = "JKLMNPQR"
  /\ exists w'' t',
       scansVerifyRoute [User.mk "gate1" "gatekeeper" None] true
         (Sample.scanReq "JKLMNPQR" "E1") (snd r)
       = (ScanJson true EntryApproved "success"
            (Some (ScanTicket.mk t (Some "Concert") "VIP")), w'')
       /\ getTicketByCode (Ticket.ticketCode t) w'' = Some t'
       /\ Ticket.id t' = Ticket.id t
       /\ Ticket.status t' = ticket_scanned
       /\ Ticket.scannedByUserId t' = Some "gate1".
Proof.
  intros w r t. split; [vm_compute; reflexivity|].
  apply (issued_ticket_is_admitted [User.mk "gate1" "gatekeeper" None]
           (Sample.verifyReq None)
           (Sample.scanReq "JKLMNPQR" "E1") w (snd r)
           (Sample.pendingPayment Sample.cartA2) (Sample.issued (fst r)) t "gate1"
           (User.mk "gate1" "gatekeeper" None)
           (TicketTier.mk "tA" "E1" "VIP" (500 # 1) 10 2 (Some 10) (Some true)
              (Some 1006))
           (Event.mk "E1" "Concert")).
  - reflexivity.
  - vm_compute. reflexivity.
  - vm_compute. right. left. reflexivity.
  - vm_compute. reflexivity.
  - vm_compute. reflexivity.
  - reflexivity.
  - reflexivity.
  - cbn. tauto.
  - vm_compute. reflexivity.
  - reflexivity.
Defined.
